(** * Cash-flow manager: flow aggregation, running balances and forecast

    A shallow embedding of the computations behind the flow views
    (DailyFlowView, MonthlyFlowView, RealWeeklyFlowView.getWeekStartDate and
    ForecastedMonthlyFlowView) together with the properties the
    specification states about them.

    Conventions of the embedding.
    - A JavaScript number holding an amount is an exact rational ([Q]);
      IEEE-754 rounding is not modelled, so an equation proved here up to
      [==] is the exact-arithmetic counterpart of the JavaScript one.
    - A JavaScript [Map] or plain object keyed by strings is an
      association list in insertion order ([JsMap.t]), because [forEach],
      [entries] and [Object.values] visit the keys in that order.
    - A [Date] is its time value in milliseconds since the epoch ([Z]);
      [None] stands for an Invalid Date.  Only date strings of the form
      YYYY-MM-DD are parsable, and local time is taken to be UTC. *)

From Stdlib Require Import ZArith QArith Qabs List String Ascii Bool Lia Lqa.
From Stdlib Require Import DecimalString Permutation.
Import ListNotations.

Local Open Scope Q_scope.

(** ** Insertion-ordered string-keyed maps *)

Module JsMap.

Definition t (V : Type) : Type := list (string * V).

Definition empty {V : Type} : t V := [].

Fixpoint get {V : Type} (k : string) (m : t V) : option V :=
  match m with
  | [] => None
  | (k', v) :: rest => if String.eqb k k' then Some v else get k rest
  end.

Definition has {V : Type} (k : string) (m : t V) : bool :=
  match get k m with Some _ => true | None => false end.

(** [Map.prototype.set]: an existing key keeps its position. *)
Fixpoint set {V : Type} (k : string) (v : V) (m : t V) : t V :=
  match m with
  | [] => [(k, v)]
  | (k', v') :: rest =>
      if String.eqb k k' then (k', v) :: rest else (k', v') :: set k v rest
  end.

Fixpoint delete {V : Type} (k : string) (m : t V) : t V :=
  match m with
  | [] => []
  | (k', v') :: rest =>
      if String.eqb k k' then rest else (k', v') :: delete k rest
  end.

Definition keys {V : Type} (m : t V) : list string := map fst m.

Definition values {V : Type} (m : t V) : list V := map snd m.

Definition size {V : Type} (m : t V) : nat := List.length m.

End JsMap.

(** [m.get(k) || 0] on a map of numbers. *)
Definition getOr0 (k : string) (m : JsMap.t Q) : Q :=
  match JsMap.get k m with Some v => v | None => 0 end.

(** ** Numbers *)

Definition Qltb (x y : Q) : bool := negb (Qle_bool y x).

Definition Qgtb (x y : Q) : bool := Qltb y x.

Definition Qneqb (x y : Q) : bool := negb (Qeq_bool x y).

Definition sumQ {A : Type} (f : A -> Q) (l : list A) : Q :=
  fold_right (fun a acc => f a + acc) 0 l.

(** ** Per-bucket totals *)

Record Totals : Type := mkTotals { income : Q; expense : Q; net : Q }.

Definition zeroTotals : Totals := mkTotals 0 0 0.

Definition Totals_eq (a b : Totals) : Prop :=
  income a == income b /\ expense a == expense b /\ net a == net b.

(** [totals.get(bucket)?.net || 0] *)
Definition netOf (totals : JsMap.t Totals) (bucket : string) : Q :=
  match JsMap.get bucket totals with Some t => net t | None => 0 end.

(** ** Running balance rows (DailyFlowView, render and handleExport) *)

Module RunningBalance.

(** The "Saldo Inicial" row: the balance is pushed before the bucket's
    net is added to it. *)
Definition initialBalanceRow (initialBalance : Q) (dates : list string)
    (totals : JsMap.t Totals) : Q * list Q :=
  fold_left
    (fun (st : Q * list Q) date =>
       let '(runningBalance, row) := st in
       let dailyNet := netOf totals date in
       (runningBalance + dailyNet, row ++ [runningBalance]))
    dates (initialBalance, []).

(** The "Saldo Final" row: the net is added first, then the balance is
    pushed. *)
Definition finalBalanceRow (initialBalance : Q) (dates : list string)
    (totals : JsMap.t Totals) : Q * list Q :=
  fold_left
    (fun (st : Q * list Q) date =>
       let '(csvFinalBalance, row) := st in
       let dailyNet := netOf totals date in
       (csvFinalBalance + dailyNet, row ++ [csvFinalBalance + dailyNet]))
    dates (initialBalance, []).

Definition opening (initialBalance : Q) (dates : list string)
    (totals : JsMap.t Totals) : list Q :=
  snd (initialBalanceRow initialBalance dates totals).

Definition closing (initialBalance : Q) (dates : list string)
    (totals : JsMap.t Totals) : list Q :=
  snd (finalBalanceRow initialBalance dates totals).

End RunningBalance.

(** ** Dates

    The part of the ECMAScript [Date] object the views use.  A time value
    is a number of milliseconds since 1970-01-01T00:00:00Z; the civil
    calendar is the proleptic Gregorian one. *)

Module JsDate.

Local Open Scope Z_scope.

Definition msPerDay : Z := 86400000.

(** 12:00:00 within a day, the offset of the suffix T12:00:00Z. *)
Definition noon : Z := 43200000.

(** Day number within a 400-year era of a date given by its year of era,
    month (1..12, March-based internally) and day of month. *)
Definition doeOfCivil (yoe m d : Z) : Z :=
  let mp := if m >? 2 then m - 3 else m + 9 in
  let doy := (153 * mp + 2) / 5 + d - 1 in
  yoe * 365 + yoe / 4 - yoe / 100 + doy.

(** MakeDay: days since the epoch of year [y], month [m] (1-based, any
    integer: the year absorbs the overflow) and day [d] (any integer). *)
Definition daysFromCivil (y m d : Z) : Z :=
  let y0 := y + (m - 1) / 12 in
  let m0 := (m - 1) mod 12 + 1 in
  let y1 := if m0 <=? 2 then y0 - 1 else y0 in
  let era := y1 / 400 in
  era * 146097 + doeOfCivil (y1 - era * 400) m0 d - 719468.

Definition civilOfDoe (doe : Z) : Z * Z * Z :=
  let yoe := (doe - doe / 1460 + doe / 36524 - doe / 146096) / 365 in
  let doy := doe - (365 * yoe + yoe / 4 - yoe / 100) in
  let mp := (5 * doy + 2) / 153 in
  let d := doy - (153 * mp + 2) / 5 + 1 in
  let m := if mp <? 10 then mp + 3 else mp - 9 in
  (yoe, m, d).

(** YearFromTime, MonthFromTime (1-based here) and DateFromTime of a day
    number. *)
Definition civilFromDays (z : Z) : Z * Z * Z :=
  let z0 := z + 719468 in
  let era := z0 / 146097 in
  let '(yoe, m, d) := civilOfDoe (z0 - era * 146097) in
  let y := yoe + era * 400 in
  (if m <=? 2 then y + 1 else y, m, d).

Definition dayOf (t : Z) : Z := t / msPerDay.

Definition timeWithinDay (t : Z) : Z := t mod msPerDay.

Definition getUTCFullYear (t : Z) : Z := fst (fst (civilFromDays (dayOf t))).

(** 0-based, as in JavaScript. *)
Definition getUTCMonth (t : Z) : Z := snd (fst (civilFromDays (dayOf t))) - 1.

Definition getUTCDate (t : Z) : Z := snd (civilFromDays (dayOf t)).

(** 0 is Sunday, 6 is Saturday; 1970-01-01 was a Thursday. *)
Definition getUTCDay (t : Z) : Z := (dayOf t + 4) mod 7.

Definition setUTCDate (t dt : Z) : Z :=
  daysFromCivil (getUTCFullYear t) (getUTCMonth t + 1) dt * msPerDay
  + timeWithinDay t.

(** [mo] is 0-based. *)
Definition setUTCMonth (t mo : Z) : Z :=
  daysFromCivil (getUTCFullYear t) (mo + 1) (getUTCDate t) * msPerDay
  + timeWithinDay t.

(** Local time is UTC in this model. *)
Definition getFullYear : Z -> Z := getUTCFullYear.
Definition getMonth : Z -> Z := getUTCMonth.
Definition getDate : Z -> Z := getUTCDate.
Definition setDate : Z -> Z -> Z := setUTCDate.
Definition setMonth : Z -> Z -> Z := setUTCMonth.

Definition daysInMonth (y m : Z) : Z :=
  daysFromCivil y (m + 1) 1 - daysFromCivil y m 1.

(** *** Parsing YYYY-MM-DD *)

Definition digitOf (c : ascii) : option Z :=
  let n := Z.of_nat (nat_of_ascii c) in
  if (48 <=? n) && (n <=? 57) then Some (n - 48) else None.

Definition isDash (c : ascii) : bool := Ascii.eqb c "-"%char.

Definition number2 (a b : ascii) : option Z :=
  match digitOf a, digitOf b with
  | Some x, Some y => Some (10 * x + y)
  | _, _ => None
  end.

Definition number4 (a b c d : ascii) : option Z :=
  match number2 a b, number2 c d with
  | Some x, Some y => Some (100 * x + y)
  | _, _ => None
  end.

(** The year, month and day of a string of the exact form YYYY-MM-DD
    that names a day of the calendar. *)
Definition parseFields (s : string) : option (Z * Z * Z) :=
  match s with
  | String y1 (String y2 (String y3 (String y4 (String s1
      (String m1 (String m2 (String s2 (String d1 (String d2
        EmptyString))))))))) =>
      if isDash s1 && isDash s2 then
        match number4 y1 y2 y3 y4, number2 m1 m2, number2 d1 d2 with
        | Some y, Some m, Some d =>
            if (1 <=? m) && (m <=? 12) && (1 <=? d) && (d <=? daysInMonth y m)
            then Some (y, m, d) else None
        | _, _, _ => None
        end
      else None
  | _ => None
  end.

(** [new Date(s)]: midnight UTC of the day, or Invalid Date. *)
Definition newDate (s : string) : option Z :=
  match parseFields s with
  | Some (y, m, d) => Some (daysFromCivil y m d * msPerDay)
  | None => None
  end.

(** [new Date(s + 'T12:00:00Z')] *)
Definition newDateNoon (s : string) : option Z :=
  match newDate s with Some t => Some (t + noon) | None => None end.

(** [isNaN(d.getTime())] *)
Definition isInvalid (d : option Z) : bool :=
  match d with Some _ => false | None => true end.

(** Relational comparison of two dates; false when either is invalid. *)
Definition ltb (a b : option Z) : bool :=
  match a, b with Some x, Some y => x <? y | _, _ => false end.

Definition leb (a b : option Z) : bool :=
  match a, b with Some x, Some y => x <=? y | _, _ => false end.

(** *** Printing *)

Definition showNat (n : Z) : string :=
  NilZero.string_of_uint (N.to_uint (Z.to_N n)).

(** [String(n)] for an integer. *)
Definition showZ (n : Z) : string :=
  if n <? 0 then String "-"%char (showNat (- n)) else showNat n.

Fixpoint zeros (n : nat) : string :=
  match n with O => EmptyString | S k => String "0"%char (zeros k) end.

(** [s.padStart(n, '0')] *)
Definition padStart0 (n : nat) (s : string) : string :=
  (zeros (n - String.length s) ++ s)%string.

Definition showYear (y : Z) : string :=
  if (0 <=? y) && (y <=? 9999) then padStart0 4 (showNat y)
  else if y <? 0 then String "-"%char (padStart0 6 (showNat (- y)))
  else String "+"%char (padStart0 6 (showNat y)).

Definition isoDateOfDay (z : Z) : string :=
  let '(y, m, d) := civilFromDays z in
  (showYear y ++ "-" ++ padStart0 2 (showNat m) ++ "-"
     ++ padStart0 2 (showNat d))%string.

(** [d.toISOString().split('T')[0]] *)
Definition toISODate (t : Z) : string := isoDateOfDay (dayOf t).

End JsDate.

(** ** Records (types.ts) *)

Inductive TransactionType : Type := Income | Expense.

Definition TransactionType_eqb (a b : TransactionType) : bool :=
  match a, b with
  | Income, Income | Expense, Expense => true
  | _, _ => false
  end.

Module Guide.

Record t : Type := mk {
  id : string;
  name : string;
  isInactiveForForecast : bool
}.

End Guide.

Module Transaction.

Record t : Type := mk {
  id : string;
  bank : string;
  guide : string;
  month : string;
  date : string;
  description : string;
  amountMN : Q;
  amountME : Q;
  type : TransactionType;
  assigned : string
}.

End Transaction.

(** [t[amountField]] with [amountField = useME ? 'amountME' : 'amountMN'] *)
Definition amountOf (useME : bool) (t : Transaction.t) : Q :=
  if useME then Transaction.amountME t else Transaction.amountMN t.

(** [new Map(guides.map(g => [g.id, g.name]))] *)
Definition guideMap (guides : list Guide.t) : JsMap.t string :=
  fold_left (fun m g => JsMap.set (Guide.id g) (Guide.name g) m) guides
    JsMap.empty.

(** [guideMap.get(id) || 'Sin Categoría'] *)
Definition getGuideName (guides : list Guide.t) (id : string) : string :=
  match JsMap.get id (guideMap guides) with
  | Some n => if String.eqb n "" then "Sin Categoría" else n
  | None => "Sin Categoría"
  end.

Definition transferGuideId : string := "13".

(** [[...l].sort(cmp)]: a stable sort; [cmp a b <= 0] keeps [a] first. *)
Fixpoint insertSorted {A : Type} (cmp : A -> A -> Z) (x : A) (l : list A)
  : list A :=
  match l with
  | [] => [x]
  | y :: rest =>
      if (cmp x y <=? 0)%Z then x :: y :: rest
      else y :: insertSorted cmp x rest
  end.

Definition sortWith {A : Type} (cmp : A -> A -> Z) (l : list A) : list A :=
  fold_right (insertSorted cmp) [] l.

(** ** The two aggregation schemes

    Both views fill [dataByGuide] (display name, then bucket, to amount)
    and the per-bucket totals from a list of transactions.  They are
    written here over the bucket key of a transaction ([t.date] in the
    daily view, [t.date.substring(0, 7)] in the monthly one), the amount
    field in use and the catalog lookup. *)

Section Aggregation.

Variable bucketOf : Transaction.t -> string.
Variable amount : Transaction.t -> Q.
Variable guideNameOf : string -> string.

Definition isTransfer (t : Transaction.t) : bool :=
  String.eqb (Transaction.guide t) transferGuideId.

Definition isIncome (t : Transaction.t) : bool :=
  TransactionType_eqb (Transaction.type t) Income.

(** [buckets.forEach(b => totals.set(b, { income: 0, expense: 0, net: 0 }))] *)
Definition initTotals (buckets : list string) : JsMap.t Totals :=
  fold_left (fun totals b => JsMap.set b zeroTotals totals) buckets
    JsMap.empty.

(** [if (!dataByGuide.has(name)) dataByGuide.set(name, {})] *)
Definition ensureGuide (guideName : string) (dataByGuide : JsMap.t (JsMap.t Q))
  : JsMap.t (JsMap.t Q) :=
  if JsMap.has guideName dataByGuide then dataByGuide
  else JsMap.set guideName JsMap.empty dataByGuide.

Definition guideDataOf (guideName : string)
    (dataByGuide : JsMap.t (JsMap.t Q)) : JsMap.t Q :=
  match JsMap.get guideName dataByGuide with
  | Some guideData => guideData
  | None => JsMap.empty
  end.

(** [guideData[bucket] = (guideData[bucket] || 0) + x] on the row of
    [guideName], created when missing. *)
Definition accumulateCell (guideName bucket : string) (x : Q)
    (dataByGuide : JsMap.t (JsMap.t Q)) : JsMap.t (JsMap.t Q) :=
  let dataByGuide := ensureGuide guideName dataByGuide in
  let guideData := guideDataOf guideName dataByGuide in
  JsMap.set guideName
    (JsMap.set bucket (getOr0 bucket guideData + x) guideData) dataByGuide.

(** [guideData[bucket] = x] on an existing row. *)
Definition assignCell (guideName bucket : string) (x : Q)
    (dataByGuide : JsMap.t (JsMap.t Q)) : JsMap.t (JsMap.t Q) :=
  let guideData := guideDataOf guideName dataByGuide in
  JsMap.set guideName (JsMap.set bucket x guideData) dataByGuide.

Definition addIncome (x : Q) (t : Totals) : Totals :=
  mkTotals (income t + x) (expense t) (net t).

Definition addExpense (x : Q) (t : Totals) : Totals :=
  mkTotals (income t) (expense t + x) (net t).

Definition addNet (x : Q) (t : Totals) : Totals :=
  mkTotals (income t) (expense t) (net t + x).

(** [const totals = m.get(bucket); if (totals) { ... }] with the object
    updated in place. *)
Definition updateTotals (bucket : string) (f : Totals -> Totals)
    (m : JsMap.t Totals) : JsMap.t Totals :=
  match JsMap.get bucket m with
  | Some totals => JsMap.set bucket (f totals) m
  | None => m
  end.

(** *** DailyFlowView: transfers netted first *)

(** First pass: the net of the transfer legs of each bucket. *)
Definition netTransfers (sorted : list Transaction.t) : JsMap.t Q :=
  fold_left
    (fun dailyNetTransfers t =>
       if isTransfer t then
         JsMap.set (bucketOf t)
           (getOr0 (bucketOf t) dailyNetTransfers + amount t)
           dailyNetTransfers
       else dailyNetTransfers)
    sorted JsMap.empty.

(** Second pass: every transaction that is not a transfer. *)
Definition nonTransferStep (st : JsMap.t (JsMap.t Q) * JsMap.t Totals)
    (t : Transaction.t) : JsMap.t (JsMap.t Q) * JsMap.t Totals :=
  let '(dataByGuide, dailyTotals) := st in
  if negb (isTransfer t) then
    let guideName := guideNameOf (Transaction.guide t) in
    let dataByGuide :=
      accumulateCell guideName (bucketOf t) (amount t) dataByGuide in
    let dailyTotals :=
      updateTotals (bucketOf t)
        (fun totals =>
           addNet (amount t)
             (if isIncome t then addIncome (amount t) totals
              else addExpense (amount t) totals))
        dailyTotals in
    (dataByGuide, dailyTotals)
  else st.

(** Third pass: the netted transfers go to the transfer row and to the
    income total. *)
Definition transferStep (transferGuideName : string)
    (st : JsMap.t (JsMap.t Q) * JsMap.t Totals) (entry : string * Q)
  : JsMap.t (JsMap.t Q) * JsMap.t Totals :=
  let '(dataByGuide, dailyTotals) := st in
  let '(date, netAmount) := entry in
  (assignCell transferGuideName date netAmount dataByGuide,
   updateTotals date
     (fun totals => addNet netAmount (addIncome netAmount totals))
     dailyTotals).

Definition twoPhase (buckets : list string) (sorted : list Transaction.t)
  : JsMap.t (JsMap.t Q) * JsMap.t Totals :=
  let dailyNetTransfers := netTransfers sorted in
  let st :=
    fold_left nonTransferStep sorted (JsMap.empty, initTotals buckets) in
  if (0 <? JsMap.size dailyNetTransfers)%nat then
    let transferGuideName := guideNameOf transferGuideId in
    let st := (ensureGuide transferGuideName (fst st), snd st) in
    fold_left (transferStep transferGuideName) dailyNetTransfers st
  else st.

(** *** MonthlyFlowView: transfers added leg by leg *)

Definition dataByGuidePass (yearlyTransactions : list Transaction.t)
  : JsMap.t (JsMap.t Q) :=
  fold_left
    (fun dataByGuide t =>
       accumulateCell (guideNameOf (Transaction.guide t)) (bucketOf t)
         (amount t) dataByGuide)
    yearlyTransactions JsMap.empty.

Definition totalsStep (monthlyTotals : JsMap.t Totals) (t : Transaction.t)
  : JsMap.t Totals :=
  updateTotals (bucketOf t)
    (fun totals =>
       addNet (amount t)
         (if isTransfer t then addIncome (amount t) totals
          else if isIncome t then addIncome (amount t) totals
          else addExpense (amount t) totals))
    monthlyTotals.

Definition singlePass (buckets : list string)
    (yearlyTransactions : list Transaction.t)
  : JsMap.t (JsMap.t Q) * JsMap.t Totals :=
  (dataByGuidePass yearlyTransactions,
   fold_left totalsStep yearlyTransactions (initTotals buckets)).

End Aggregation.

(** ** Category order (sortGuidesByName) *)

Section Sorting.

(** [String.prototype.localeCompare], which the host supplies. *)
Variable localeCompare : string -> string -> Z.

(** [name.match(/^(\d+)-/)] followed by [parseInt(match[1], 10)]; [None]
    is the [Infinity] of the source. *)
Fixpoint leadingNumber (acc : Z) (seen : bool) (s : string) : option Z :=
  match s with
  | EmptyString => None
  | String c rest =>
      match JsDate.digitOf c with
      | Some d => leadingNumber (10 * acc + d)%Z true rest
      | None => if seen && JsDate.isDash c then Some acc else None
      end
  end.

Definition getNum (name : string) : option Z := leadingNumber 0%Z false name.

Definition sortGuidesByName {V : Type} (a b : string * V) : Z :=
  match getNum (fst a), getNum (fst b) with
  | Some numA, Some numB =>
      if negb (numA =? numB)%Z then (numA - numB)%Z
      else localeCompare (fst a) (fst b)
  | Some _, None => (-1)%Z
  | None, Some _ => 1%Z
  | None, None => localeCompare (fst a) (fst b)
  end.

End Sorting.

(** ** DailyFlowView *)

Module DailyFlowView.

Record FlowData : Type := mkFlowData {
  dates : list string;
  dataByGuide : JsMap.t (JsMap.t Q);
  dailyTotals : JsMap.t Totals;
  initialBalance : Q
}.

(** A filter that is [null] or the empty string is falsy; otherwise it is
    read with [new Date(filter)]. *)
Definition filterDate (f : option string) : option (option Z) :=
  match f with
  | None => None
  | Some s => if String.eqb s "" then None else Some (JsDate.newDate s)
  end.

(** [new Date(t.date).getTime()] of a transaction that passed the validity
    filter. *)
Definition timeOf (t : Transaction.t) : Z :=
  match JsDate.newDate (Transaction.date t) with Some x => x | None => 0%Z end.

Definition byDate (a b : Transaction.t) : Z := (timeOf a - timeOf b)%Z.

(** [for (let d = new Date(start); d <= end; d.setDate(d.getDate() + 1))
      dates.push(d.toISOString().split('T')[0])] *)
Fixpoint enumerateDates (fuel : nat) (d tableEndDate : Z) : list string :=
  match fuel with
  | O => []
  | S fuel' =>
      if (d <=? tableEndDate)%Z then
        JsDate.toISODate d
          :: enumerateDates fuel'
               (JsDate.setDate d (JsDate.getDate d + 1)%Z) tableEndDate
      else []
  end.

(** Iterations the loop can need: one per day from [d] to the end. *)
Definition enumerationFuel (d tableEndDate : Z) : nat :=
  Z.to_nat ((tableEndDate - d) / JsDate.msPerDay + 1)%Z.

Definition isValid (t : Transaction.t) : bool :=
  negb (String.eqb (Transaction.date t) "")
  && negb (JsDate.isInvalid (JsDate.newDate (Transaction.date t))).

Definition beforeStart (startDateFilter : option string)
    (t : Transaction.t) : bool :=
  match filterDate startDateFilter with
  | Some start => JsDate.ltb (JsDate.newDate (Transaction.date t)) start
  | None => false
  end.

Definition inRange (startDateFilter endDateFilter : option string)
    (t : Transaction.t) : bool :=
  let date := JsDate.newDate (Transaction.date t) in
  if match filterDate startDateFilter with
     | Some start => JsDate.ltb date start
     | None => false
     end then false
  else if match filterDate endDateFilter with
          | Some endD => JsDate.ltb endD date
          | None => false
          end then false
  else true.

Definition flowData (transactions : list Transaction.t)
    (guides : list Guide.t) (startDateFilter endDateFilter : option string)
    (useME : bool) : FlowData :=
  let validTransactions := filter isValid transactions in
  if (List.length validTransactions =? 0)%nat then
    mkFlowData [] JsMap.empty JsMap.empty 0
  else
    let initialBalance :=
      fold_left (fun acc t => acc + amountOf useME t)
        (filter (beforeStart startDateFilter) validTransactions) 0 in
    let filteredTransactions :=
      filter (inRange startDateFilter endDateFilter) validTransactions in
    if (List.length filteredTransactions =? 0)%nat then
      mkFlowData [] JsMap.empty JsMap.empty initialBalance
    else
      let sorted := sortWith byDate filteredTransactions in
      let tableStartDate :=
        match filterDate startDateFilter with
        | Some start => start
        | None =>
            match sorted with
            | t :: _ => JsDate.newDate (Transaction.date t)
            | [] => None
            end
        end in
      let tableEndDate :=
        match filterDate endDateFilter with
        | Some endD => endD
        | None =>
            match rev sorted with
            | t :: _ => JsDate.newDate (Transaction.date t)
            | [] => None
            end
        end in
      let dates :=
        match tableStartDate, tableEndDate with
        | Some s, Some e => enumerateDates (enumerationFuel s e) s e
        | _, _ => []
        end in
      let '(dataByGuide, dailyTotals) :=
        twoPhase Transaction.date (amountOf useME) (getGuideName guides)
          dates sorted in
      mkFlowData dates dataByGuide dailyTotals initialBalance.

Section Display.

Variable localeCompare : string -> string -> Z.

Definition sortedEntries (fd : FlowData) : list (string * JsMap.t Q) :=
  sortWith (sortGuidesByName localeCompare) (dataByGuide fd).

(** The rows under INGRESOS. *)
Definition incomeSection (guides : list Guide.t) (fd : FlowData)
  : list (string * JsMap.t Q) :=
  filter
    (fun entry =>
       if String.eqb (fst entry) (getGuideName guides "13") then
         existsb (fun v => Qneqb v 0) (JsMap.values (snd entry))
       else existsb (fun v => Qgtb v 0) (JsMap.values (snd entry)))
    (sortedEntries fd).

(** The rows under EGRESOS. *)
Definition expenseSection (guides : list Guide.t) (fd : FlowData)
  : list (string * JsMap.t Q) :=
  filter
    (fun entry =>
       if String.eqb (fst entry) (getGuideName guides "13") then false
       else existsb (fun v => Qltb v 0) (JsMap.values (snd entry)))
    (sortedEntries fd).

End Display.

End DailyFlowView.

(** ** MonthlyFlowView *)

Module MonthlyFlowView.

Record FlowData : Type := mkFlowData {
  months : list string;
  dataByGuide : JsMap.t (JsMap.t Q);
  monthlyTotals : JsMap.t Totals;
  initialBalance : Q
}.

(** [Array.from({ length: 12 }, (_, i) => `${year}-${pad(i + 1)}`)] *)
Definition monthsOf (selectedYear : Z) : list string :=
  map
    (fun i =>
       (JsDate.showZ selectedYear ++ "-"
          ++ JsDate.padStart0 2 (JsDate.showZ (Z.of_nat i + 1)))%string)
    (seq 0 12).

(** [new Date(t.date).getFullYear()] *)
Definition yearOf (t : Transaction.t) : option Z :=
  option_map JsDate.getFullYear (JsDate.newDate (Transaction.date t)).

Definition beforeYear (selectedYear : Z) (t : Transaction.t) : bool :=
  match yearOf t with Some y => (y <? selectedYear)%Z | None => false end.

Definition inYear (selectedYear : Z) (t : Transaction.t) : bool :=
  negb (String.eqb (Transaction.date t) "")
  && match yearOf t with Some y => (y =? selectedYear)%Z | None => false end.

Definition monthOf (t : Transaction.t) : string :=
  substring 0 7 (Transaction.date t).

Definition flowData (transactions : list Transaction.t)
    (guides : list Guide.t) (useME : bool) (selectedYear : Z) : FlowData :=
  let months := monthsOf selectedYear in
  let initialBalance :=
    fold_left (fun acc t => acc + amountOf useME t)
      (filter (beforeYear selectedYear) transactions) 0 in
  let yearlyTransactions := filter (inYear selectedYear) transactions in
  let '(dataByGuide, monthlyTotals) :=
    singlePass monthOf (amountOf useME) (getGuideName guides) months
      yearlyTransactions in
  mkFlowData months dataByGuide monthlyTotals initialBalance.

End MonthlyFlowView.

(** ** RealWeeklyFlowView: the week of a date *)

Module RealWeeklyFlowView.

(** [today] is the value of [new Date()] when the string is not a date. *)
Definition getWeekStartDate (today : Z) (dateStr : string) : string :=
  match JsDate.newDateNoon dateStr with
  | None =>
      let offset := ((JsDate.getUTCDay today + 1) mod 7)%Z in
      let saturday :=
        JsDate.setUTCDate today (JsDate.getUTCDate today - offset)%Z in
      JsDate.toISODate saturday
  | Some date =>
      let offset := ((JsDate.getUTCDay date + 1) mod 7)%Z in
      let saturday :=
        JsDate.setUTCDate date (JsDate.getUTCDate date - offset)%Z in
      JsDate.toISODate saturday
  end.

End RealWeeklyFlowView.

(** ** ForecastedMonthlyFlowView *)

Module VatDetailData.

Record line : Type := mkLine { name : string; amount : Q }.

Record t : Type := mk {
  incomes : list line;
  expenses : list line;
  totalIncome : Q;
  totalExpense : Q;
  ivaCobrado : Q;
  ivaAcreditable : Q;
  netVat : Q
}.

End VatDetailData.

(** A cell of the forecast table: [{ amount, isForecast }]. *)
Module Cell.

Record t : Type := mk { amount : Q; isForecast : bool }.

End Cell.

Module ForecastedMonthlyFlowView.

(** [guides.find(p)?.id] *)
Definition findId (p : Guide.t -> bool) (guides : list Guide.t)
  : option string :=
  option_map Guide.id (find p guides).

(** [x === id] for an id that may be [undefined]. *)
Definition idIs (id : option string) (x : string) : bool :=
  match id with Some y => String.eqb x y | None => false end.

(** Truthiness of an id: defined and not the empty string. *)
Definition truthyId (id : option string) : bool :=
  match id with Some y => negb (String.eqb y "") | None => false end.

Definition memStr (x : string) (l : list string) : bool :=
  existsb (String.eqb x) l.

(** [s.endsWith(suffix)] *)
Definition endsWith (suffix s : string) : bool :=
  let n := String.length s in
  let k := String.length suffix in
  (k <=? n)%nat && String.eqb (substring (n - k) k s) suffix.

Definition isDigit (c : ascii) : bool :=
  match JsDate.digitOf c with Some _ => true | None => false end.

(** A word character of a regular expression: [[A-Za-z0-9_]]. *)
Definition isWordChar (c : ascii) : bool :=
  let n := nat_of_ascii c in
  ((48 <=? n) && (n <=? 57) || (65 <=? n) && (n <=? 90)
   || (97 <=? n) && (n <=? 122) || (n =? 95))%nat.

(** [s] starts with P, four digits and then a word boundary. *)
Definition codeAt (s : string) : bool :=
  match s with
  | String p (String a (String b (String c (String d rest)))) =>
      Ascii.eqb p "P"%char && isDigit a && isDigit b && isDigit c
      && isDigit d
      && match rest with
         | EmptyString => true
         | String e _ => negb (isWordChar e)
         end
  | _ => false
  end.

Fixpoint scanCode (prevIsWord : bool) (s : string) : bool :=
  match s with
  | EmptyString => false
  | String c rest =>
      (negb prevIsWord && codeAt s) || scanCode (isWordChar c) rest
  end.

(** [/\bP\d{4}\b/.test(name)] *)
Definition isOperatingIncomeName (name : string) : bool :=
  scanCode false name.

Definition excludedExpenseNamesForVat : list string :=
  [ "19-Nómina"; "20-Aguinaldo"; "22-PTU Garantizada"; "25-Nómina generico";
    "23-Finiquitos"; "26-IMSS, RCV e INFONAVIT";
    "27-Impuesto Sobre Remuneraciones"; "28-ISR Personas Morales";
    "30-ISR Retenido"; "31-IVA Retenido"; "32-Otros impuestos federales";
    "59-American Express Company mexic"; "65-ISR por pagar";
    "66-IVA por pagar"; "67-Retenidos por pagar";
    "68-IMSS, RCV e INFONAVIT por pagar";
    "69-Impuesto Sobre Remuneraciones por pagar";
    "70-Otros impuestos por pagar"; "71-AMEXCO PYPSA Cta. 51003";
    "72-Carbures Europe, S.A (Suc)"; "74-Fonacot";
    "75-Gratificacion Garantizada"; "76-Gratificacion FA";
    "80-Otros Acreedores por Pagar" ]%string.

(** The catalog-derived constants at the head of [flowData]. *)
Record Catalog : Type := mkCatalog {
  activeGuides : list Guide.t;
  activeGuideIds : list string;
  initialBalanceGuideId : option string;
  aguinaldoGuideId : option string;
  nominaGuideId : option string;
  ptuGuideId : option string;
  vatGuideId : option string;
  operatingIncomeGuideIds : list string;
  excludedExpenseIdsForVat : list string
}.

Definition hasName (n : string) (g : Guide.t) : bool :=
  String.eqb (Guide.name g) n.

Definition catalogOf (guides : list Guide.t) (excludedGuideIds : list string)
  : Catalog :=
  let activeGuides :=
    filter
      (fun g =>
         negb (Guide.isInactiveForForecast g)
         && negb (memStr (Guide.id g) excludedGuideIds))
      guides in
  mkCatalog activeGuides (map Guide.id activeGuides)
    (findId (hasName "0-Saldo Inicial") guides)
    (findId (hasName "20-Aguinaldo") guides)
    (findId (hasName "19-Nómina") guides)
    (findId (hasName "22-PTU Garantizada") guides)
    (findId (fun g => prefix "29-" (Guide.name g)) guides)
    (map Guide.id
       (filter (fun g => isOperatingIncomeName (Guide.name g)) guides))
    (map Guide.id
       (filter (fun g => memStr (Guide.name g) excludedExpenseNamesForVat)
          guides)).

(** [new Date(b.date).getTime() - new Date(a.date).getTime()]; a [NaN]
    result counts as 0 for the sort. *)
Definition byDateDesc (a b : Transaction.t) : Z :=
  match JsDate.newDate (Transaction.date b),
        JsDate.newDate (Transaction.date a) with
  | Some tb, Some ta => (tb - ta)%Z
  | _, _ => 0%Z
  end.

Definition lastRealDateOf (transactions : list Transaction.t) : option Z :=
  match sortWith byDateDesc transactions with
  | t :: _ => JsDate.newDateNoon (Transaction.date t)
  | [] => Some 0%Z
  end.

Definition historyStartDateOf (lastRealDate : option Z) : option Z :=
  option_map (fun d => JsDate.setMonth d (JsDate.getMonth d - 3)%Z)
    lastRealDate.

Definition monthOf (t : Transaction.t) : string :=
  substring 0 7 (Transaction.date t).

(** [new Date(month + '-01T12:00:00Z') > lastRealDate] *)
Definition isForecastMonth (lastRealDate : option Z) (month : string) : bool :=
  JsDate.ltb lastRealDate (JsDate.newDateNoon (month ++ "-01")).

(** [Array.from({ length: 12 }, (_, i) => `${year}-${pad(i + 1)}`)] *)
Definition monthsOf (year : Z) : list string :=
  map
    (fun i =>
       (JsDate.showZ year ++ "-"
          ++ JsDate.padStart0 2 (JsDate.showZ (Z.of_nat i + 1)))%string)
    (seq 0 12).

Definition zero01 : Q := 1 # 100.

Section Engine.

Variable useME : bool.

(** The values [Math.random()] returns, in the order of the calls. *)
Variable random : nat -> Q.

Variable transactions : list Transaction.t.
Variable guides : list Guide.t.
Variable selectedYear : Z.
Variable excludedGuideIds : list string.

Let amount := amountOf useME.
Let cat := catalogOf guides excludedGuideIds.
Let lastRealDate := lastRealDateOf transactions.

Definition isHistorical (t : Transaction.t) : bool :=
  if String.eqb (Transaction.guide t) ""
     || negb (memStr (Transaction.guide t) (activeGuideIds cat))
     || idIs (initialBalanceGuideId cat) (Transaction.guide t)
  then false
  else
    let tDate := JsDate.newDateNoon (Transaction.date t) in
    JsDate.leb (historyStartDateOf lastRealDate) tDate
    && JsDate.leb tDate lastRealDate.

Definition historicalTransactions : list Transaction.t :=
  filter isHistorical transactions.

Definition sumsByGuide : JsMap.t Q :=
  fold_left
    (fun sums t =>
       JsMap.set (Transaction.guide t)
         (getOr0 (Transaction.guide t) sums + amount t) sums)
    historicalTransactions JsMap.empty.

(** The distinct months of the history, as the [Set] holds them. *)
Definition monthsInHistory : list string :=
  fold_left
    (fun months t => if memStr (monthOf t) months then months
                     else months ++ [monthOf t])
    historicalTransactions [].

Definition monthCount : Z :=
  if (0 <? List.length monthsInHistory)%nat
  then Z.of_nat (List.length monthsInHistory) else 1%Z.

Definition baseMonthlyAverages : JsMap.t Q :=
  if (0 <? List.length historicalTransactions)%nat then
    fold_left
      (fun averages entry =>
         JsMap.set (fst entry) (snd entry / inject_Z monthCount) averages)
      sumsByGuide JsMap.empty
  else JsMap.empty.

Definition isFutureYear : bool :=
  match lastRealDate with
  | Some d => (JsDate.getFullYear d <? selectedYear)%Z
  | None => false
  end.

(** One month of the preceding year added to [previousYearTotals]. *)
Definition previousYearStep (previousYearTotals : JsMap.t Q)
    (month : string) : JsMap.t Q :=
  if isForecastMonth lastRealDate month then
    fold_left
      (fun totals entry =>
         let guideId := fst entry in
         let avg := snd entry in
         if negb (memStr guideId (activeGuideIds cat))
            || idIs (initialBalanceGuideId cat) guideId
         then totals
         else if idIs (aguinaldoGuideId cat) guideId then
           if endsWith "-12" month && truthyId (nominaGuideId cat) then
             let nominaAvg :=
               match nominaGuideId cat with
               | Some n => getOr0 n baseMonthlyAverages
               | None => 0
               end in
             JsMap.set guideId (getOr0 guideId totals - Qabs nominaAvg / 2)
               totals
           else totals
         else JsMap.set guideId (getOr0 guideId totals + avg) totals)
      baseMonthlyAverages previousYearTotals
  else
    fold_left
      (fun totals t =>
         if negb (String.eqb (Transaction.guide t) "") then
           JsMap.set (Transaction.guide t)
             (getOr0 (Transaction.guide t) totals + amount t) totals
         else totals)
      (filter
         (fun t =>
            String.eqb (monthOf t) month
            && memStr (Transaction.guide t) (activeGuideIds cat)
            && negb (idIs (initialBalanceGuideId cat) (Transaction.guide t)))
         transactions)
      previousYearTotals.

Definition previousYearTotals : JsMap.t Q :=
  fold_left previousYearStep (monthsOf (selectedYear - 1)) JsMap.empty.

Definition adjustedMonthlyAverages : JsMap.t Q :=
  fold_left
    (fun adjusted entry =>
       let guideId := fst entry in
       let avg := snd entry in
       let projectedTotal := avg * 12 in
       let previousTotal := getOr0 guideId previousYearTotals in
       if Qgtb (Qabs projectedTotal) (Qabs previousTotal)
          && Qneqb previousTotal 0
       then JsMap.set guideId (previousTotal / 12) adjusted
       else JsMap.set guideId avg adjusted)
    baseMonthlyAverages JsMap.empty.

Definition monthlyAverages : JsMap.t Q :=
  if isFutureYear then adjustedMonthlyAverages else baseMonthlyAverages.

Definition months : list string := monthsOf selectedYear.

(** The mutable state of the loop over the months. *)
Record State : Type := mkState {
  dataByGuide : JsMap.t (JsMap.t Cell.t);
  vatDetailsByMonth : JsMap.t VatDetailData.t;
  forecastCorrection : JsMap.t Q;
  draws : nat
}.

Definition initialState : State :=
  mkState JsMap.empty JsMap.empty JsMap.empty 0.

Definition rowOf (guideId : string) (data : JsMap.t (JsMap.t Cell.t))
  : JsMap.t Cell.t :=
  match JsMap.get guideId data with
  | Some guideData => guideData
  | None => JsMap.empty
  end.

(** [if (!data.has(id)) data.set(id, {}); data.get(id)[month] = cell] *)
Definition putCell (guideId month : string) (cell : Cell.t)
    (data : JsMap.t (JsMap.t Cell.t)) : JsMap.t (JsMap.t Cell.t) :=
  let data :=
    if JsMap.has guideId data then data
    else JsMap.set guideId JsMap.empty data in
  JsMap.set guideId (JsMap.set month cell (rowOf guideId data)) data.

(** A month with real data: the transactions of the month, by guide id. *)
Definition actualStep (month : string) (data : JsMap.t (JsMap.t Cell.t))
    (t : Transaction.t) : JsMap.t (JsMap.t Cell.t) :=
  if String.eqb (Transaction.guide t) "" then data
  else
    let guideId := Transaction.guide t in
    let cell :=
      match JsMap.get month (rowOf guideId data) with
      | Some c => c
      | None => Cell.mk 0 false
      end in
    putCell guideId month
      (Cell.mk (Cell.amount cell + amount t) (Cell.isForecast cell)) data.

Definition halfPayroll : Q :=
  let nominaAvg :=
    match nominaGuideId cat with
    | Some n => getOr0 n monthlyAverages
    | None => 0
    end in
  - (Qabs nominaAvg / 2).

(** The forecast of one guide in one forecast month: the amount, the
    correction map and the number of random draws afterwards. *)
Definition forecastAmount (month : string) (guide : Guide.t)
    (forecastCorrection : JsMap.t Q) (draws : nat)
  : Q * JsMap.t Q * nat :=
  let isDecember := endsWith "-12" month in
  let isMay := endsWith "-05" month in
  if idIs (aguinaldoGuideId cat) (Guide.id guide) then
    (if isDecember && truthyId (nominaGuideId cat) then halfPayroll else 0,
     forecastCorrection, draws)
  else if idIs (ptuGuideId cat) (Guide.id guide) then
    (if isMay && truthyId (nominaGuideId cat) then halfPayroll else 0,
     forecastCorrection, draws)
  else
    let originalAmount := getOr0 (Guide.id guide) monthlyAverages in
    if Qltb (Qabs originalAmount) zero01 then (0, forecastCorrection, draws)
    else
      let isLastForecastMonth := String.eqb month (last months EmptyString) in
      if negb isLastForecastMonth then
        let variation := (random draws - (1 # 2)) * (4 # 10) in
        let variedAmount := originalAmount * (1 + variation) in
        let error := variedAmount - originalAmount in
        (variedAmount,
         JsMap.set (Guide.id guide)
           (getOr0 (Guide.id guide) forecastCorrection + error)
           forecastCorrection,
         S draws)
      else
        let correction := getOr0 (Guide.id guide) forecastCorrection in
        (originalAmount - correction,
         JsMap.delete (Guide.id guide) forecastCorrection, draws).

Definition forecastGuide (month : string) (st : State) (guide : Guide.t)
  : State :=
  if idIs (vatGuideId cat) (Guide.id guide) then st
  else
    let '(amt, correction, n) :=
      forecastAmount month guide (forecastCorrection st) (draws st) in
    let data :=
      if Qgtb (Qabs amt) zero01
      then putCell (Guide.id guide) month (Cell.mk amt true) (dataByGuide st)
      else dataByGuide st in
    mkState data (vatDetailsByMonth st) correction n.

(** [getGuide(guideId)?.name || 'Unknown'] over
    [new Map(guides.map(g => [g.id, g]))]. *)
Definition guideNameOrUnknown (guideId : string) : string :=
  match JsMap.get guideId
          (fold_left (fun m g => JsMap.set (Guide.id g) g m) guides
             JsMap.empty) with
  | Some g => if String.eqb (Guide.name g) "" then "Unknown" else Guide.name g
  | None => "Unknown"
  end.

Definition emptyVatDetail : VatDetailData.t :=
  VatDetailData.mk [] [] 0 0 0 0 0.

(** One row of [dataByGuide] seen by the VAT computation of [month]. *)
Definition vatAccumulate (month : string) (vatDetail : VatDetailData.t)
    (entry : string * JsMap.t Cell.t) : VatDetailData.t :=
  let guideId := fst entry in
  match JsMap.get month (snd entry) with
  | Some forecastForMonth =>
      if Cell.isForecast forecastForMonth then
        let amt := Cell.amount forecastForMonth in
        let guideName := guideNameOrUnknown guideId in
        if memStr guideId (operatingIncomeGuideIds cat) then
          VatDetailData.mk
            (VatDetailData.incomes vatDetail
               ++ [VatDetailData.mkLine guideName amt])
            (VatDetailData.expenses vatDetail)
            (VatDetailData.totalIncome vatDetail + amt)
            (VatDetailData.totalExpense vatDetail)
            (VatDetailData.ivaCobrado vatDetail)
            (VatDetailData.ivaAcreditable vatDetail)
            (VatDetailData.netVat vatDetail)
        else if Qltb amt 0
                && negb (memStr guideId (excludedExpenseIdsForVat cat)) then
          VatDetailData.mk
            (VatDetailData.incomes vatDetail)
            (VatDetailData.expenses vatDetail
               ++ [VatDetailData.mkLine guideName amt])
            (VatDetailData.totalIncome vatDetail)
            (VatDetailData.totalExpense vatDetail + amt)
            (VatDetailData.ivaCobrado vatDetail)
            (VatDetailData.ivaAcreditable vatDetail)
            (VatDetailData.netVat vatDetail)
        else vatDetail
      else vatDetail
  | None => vatDetail
  end.

Definition vatDetailOf (month : string) (data : JsMap.t (JsMap.t Cell.t))
  : VatDetailData.t :=
  let vatDetail := fold_left (vatAccumulate month) data emptyVatDetail in
  let ivaCobrado :=
    VatDetailData.totalIncome vatDetail / (116 # 100) * (16 # 100) in
  let ivaAcreditable :=
    Qabs (VatDetailData.totalExpense vatDetail) / (116 # 100) * (16 # 100) in
  let netVatToPay := ivaCobrado - ivaAcreditable in
  VatDetailData.mk
    (VatDetailData.incomes vatDetail) (VatDetailData.expenses vatDetail)
    (VatDetailData.totalIncome vatDetail)
    (VatDetailData.totalExpense vatDetail)
    ivaCobrado ivaAcreditable (- netVatToPay).

Definition vatStep (month : string) (st : State) : State :=
  match vatGuideId cat with
  | Some vatId =>
      if negb (String.eqb vatId "") && memStr vatId (activeGuideIds cat) then
        let vatDetail := vatDetailOf month (dataByGuide st) in
        if Qgtb (Qabs (VatDetailData.netVat vatDetail)) zero01 then
          mkState
            (putCell vatId month
               (Cell.mk (VatDetailData.netVat vatDetail) true)
               (dataByGuide st))
            (JsMap.set month vatDetail (vatDetailsByMonth st))
            (forecastCorrection st) (draws st)
        else st
      else st
  | None => st
  end.

Definition monthStep (st : State) (month : string) : State :=
  if negb (isForecastMonth lastRealDate month) then
    mkState
      (fold_left (actualStep month)
         (filter (fun t => String.eqb (monthOf t) month) transactions)
         (dataByGuide st))
      (vatDetailsByMonth st) (forecastCorrection st) (draws st)
  else
    vatStep month (fold_left (forecastGuide month) (activeGuides cat) st).

Definition finalState : State := fold_left monthStep months initialState.

(** [monthlyTotals]: the totals of a month and its [isForecast] flag. *)
Definition initialMonthlyTotals : JsMap.t (Totals * bool) :=
  fold_left
    (fun m month =>
       JsMap.set month (zeroTotals, isForecastMonth lastRealDate month) m)
    months JsMap.empty.

Definition addCellToTotals (totals : JsMap.t (Totals * bool))
    (entry : string * Cell.t) : JsMap.t (Totals * bool) :=
  match JsMap.get (fst entry) totals with
  | Some (t, f) =>
      let x := Cell.amount (snd entry) in
      JsMap.set (fst entry)
        (addNet x (if Qgtb x 0 then addIncome x t else addExpense x t), f)
        totals
  | None => totals
  end.

Definition monthlyTotalsOf (data : JsMap.t (JsMap.t Cell.t))
  : JsMap.t (Totals * bool) :=
  fold_left
    (fun totals row => fold_left addCellToTotals (snd row) totals)
    data initialMonthlyTotals.

Record FlowData : Type := mkFlowData {
  fd_months : list string;
  fd_dataByGuide : JsMap.t (JsMap.t Cell.t);
  fd_monthlyTotals : JsMap.t (Totals * bool);
  fd_initialBalance : Q;
  fd_vatDetailsByMonth : JsMap.t VatDetailData.t
}.

Definition flowData : FlowData :=
  mkFlowData months (dataByGuide finalState)
    (monthlyTotalsOf (dataByGuide finalState))
    (fold_left (fun acc t => acc + amount t)
       (filter (MonthlyFlowView.beforeYear selectedYear) transactions) 0)
    (vatDetailsByMonth finalState).

End Engine.

End ForecastedMonthlyFlowView.

(** * Vocabulary of the properties

    Sums, projections and sample inputs the statements below are written
    with. *)

Section BalanceVocabulary.

Variable totals : JsMap.t Totals.

Fixpoint openingFrom (b : Q) (dates : list string) : list Q :=
  match dates with
  | [] => []
  | d :: rest => b :: openingFrom (b + netOf totals d) rest
  end.

Fixpoint closingFrom (b : Q) (dates : list string) : list Q :=
  match dates with
  | [] => []
  | d :: rest => (b + netOf totals d) :: closingFrom (b + netOf totals d) rest
  end.

End BalanceVocabulary.

Section BucketVocabulary.

Variable bucketOf : Transaction.t -> string.
Variable amount : Transaction.t -> Q.

Definition inBucket (b : string) (t : Transaction.t) : bool :=
  String.eqb (bucketOf t) b.

(** Net of the transfer legs of a bucket. *)
Definition transferNet (b : string) (l : list Transaction.t) : Q :=
  sumQ amount (filter (fun t => inBucket b t && isTransfer t) l).

(** Sum of the transactions of a bucket that are typed Income and are not
    transfers. *)
Definition incomeLegs (b : string) (l : list Transaction.t) : Q :=
  sumQ amount
    (filter (fun t => inBucket b t && (negb (isTransfer t) && isIncome t)) l).

(** Sum of the transactions of a bucket that are not typed Income and are
    not transfers. *)
Definition expenseLegs (b : string) (l : list Transaction.t) : Q :=
  sumQ amount
    (filter
       (fun t => inBucket b t && (negb (isTransfer t) && negb (isIncome t)))
       l).

Definition bucketNet (b : string) (l : list Transaction.t) : Q :=
  sumQ amount (filter (inBucket b) l).

(** The totals of a bucket after the second pass and after the whole
    two-phase scheme. *)
Definition afterNonTransfers (b : string) (l : list Transaction.t) : Totals :=
  fold_left
    (fun t a =>
       addNet (amount a)
         (if isIncome a then addIncome (amount a) t
          else if true then addExpense (amount a) t else t))
    (filter (fun a => inBucket b a && negb (isTransfer a)) l) zeroTotals.

(** Closed form of the totals both schemes give a bucket. *)
Definition closedForm (b : string) (l : list Transaction.t) (t : Totals)
  : Prop :=
  income t == incomeLegs b l + transferNet b l
  /\ expense t == expenseLegs b l
  /\ net t == bucketNet b l.

End BucketVocabulary.

Section DailyVocabulary.

Variable transactions : list Transaction.t.
Variables startDateFilter endDateFilter : option string.

(** The transactions the table shows: valid and within the filters. *)
Definition shown : list Transaction.t :=
  filter (DailyFlowView.inRange startDateFilter endDateFilter)
    (filter DailyFlowView.isValid transactions).

End DailyVocabulary.

(** The amount of a transaction that is not a transfer agrees in sign
    with its type. *)
Definition signAgrees (useME : bool) (t : Transaction.t) : Prop :=
  isTransfer t = false ->
  if isIncome t then 0 <= amountOf useME t else amountOf useME t <= 0.

(** The sum over all rows of [dataByGuide] of the value in bucket [b]. *)
Definition categorySum (b : string) (data : JsMap.t (JsMap.t Q)) : Q :=
  sumQ (fun row => getOr0 b (snd row)) data.

(** No transaction of [l] outside the transfers resolves to the display
    name of the transfer category. *)
Definition transferNameApart (guides : list Guide.t)
    (l : list Transaction.t) : Prop :=
  forall t, In t l -> isTransfer t = false ->
    getGuideName guides (Transaction.guide t)
    <> getGuideName guides transferGuideId.

Section PriorYearVocabulary.

Variable useME : bool.
Variable transactions : list Transaction.t.
Variable guides : list Guide.t.
Variable selectedYear : Z.
Variable excludedGuideIds : list string.

Let base :=
  ForecastedMonthlyFlowView.baseMonthlyAverages useME transactions guides
    excludedGuideIds.
Let cat := ForecastedMonthlyFlowView.catalogOf guides excludedGuideIds.
Let lastRealDate := ForecastedMonthlyFlowView.lastRealDateOf transactions.

(** What the transactions of month [m] post for guide [g]. *)
Definition actualMonthTotal (g m : string) : Q :=
  sumQ (amountOf useME)
    (filter
       (fun t =>
          String.eqb (ForecastedMonthlyFlowView.monthOf t) m
          && String.eqb (Transaction.guide t) g)
       transactions).

(** The value a month of the preceding year counts for guide [g]: the
    real transactions of a month with data, the base average of a month
    after the last real date. *)
Definition priorYearValue (g m : string) : Q :=
  if ForecastedMonthlyFlowView.isForecastMonth lastRealDate m
  then getOr0 g base else actualMonthTotal g m.

Definition priorYearTotal (g : string) : Q :=
  sumQ (priorYearValue g)
    (ForecastedMonthlyFlowView.monthsOf (selectedYear - 1)).

(** A guide the general path forecasts: active, named, neither the
    initial-balance guide nor the year-end bonus. *)
Definition isRegular (g : string) : Prop :=
  ForecastedMonthlyFlowView.memStr g
    (ForecastedMonthlyFlowView.activeGuideIds cat) = true
  /\ g <> EmptyString
  /\ ForecastedMonthlyFlowView.idIs
       (ForecastedMonthlyFlowView.initialBalanceGuideId cat) g = false
  /\ ForecastedMonthlyFlowView.idIs
       (ForecastedMonthlyFlowView.aguinaldoGuideId cat) g = false.

End PriorYearVocabulary.

(** The cell of guide [id] in month [m]. *)
Definition cellAt (id m : string) (data : JsMap.t (JsMap.t Cell.t))
  : option Cell.t :=
  JsMap.get m (ForecastedMonthlyFlowView.rowOf id data).

(** The amount of a cell in lowest terms. *)
Definition cellValue (id m : string) (data : JsMap.t (JsMap.t Cell.t))
  : option Q :=
  option_map (fun c => Qred (Cell.amount c)) (cellAt id m data).

(** The year a four-character prefix denotes. *)
Definition yearOfPrefix (ys : string) : option Z :=
  match ys with
  | String a (String b (String c (String d EmptyString))) =>
      JsDate.number4 a b c d
  | _ => None
  end.

(** The two-digit months with their numbers. *)
Definition twoDigitMonths : list (string * Z) :=
  [ ("01", 1); ("02", 2); ("03", 3); ("04", 4); ("05", 5); ("06", 6);
    ("07", 7); ("08", 8); ("09", 9); ("10", 10); ("11", 11);
    ("12", 12) ]%string%Z.

(** The months of the year before [m]. *)
Fixpoint monthsBefore (m : string) (l : list string) : list string :=
  match l with
  | [] => []
  | x :: rest => if String.eqb x m then [] else x :: monthsBefore m rest
  end.

Section ForecastVocabulary.

Variable useME : bool.
Variable random : nat -> Q.
Variable transactions : list Transaction.t.
Variable guides : list Guide.t.
Variable selectedYear : Z.
Variable excludedGuideIds : list string.

Let cat := ForecastedMonthlyFlowView.catalogOf guides excludedGuideIds.
Let forecastGuide :=
  ForecastedMonthlyFlowView.forecastGuide useME random transactions guides
    selectedYear excludedGuideIds.
Let monthStep :=
  ForecastedMonthlyFlowView.monthStep useME random transactions guides
    selectedYear excludedGuideIds.
Let months := ForecastedMonthlyFlowView.months selectedYear.

Local Abbreviation dataOf := ForecastedMonthlyFlowView.dataByGuide.
Local Abbreviation corrOf := ForecastedMonthlyFlowView.forecastCorrection.

Variable g : Guide.t.

Let id := Guide.id g.
Let A :=
  getOr0 id
    (ForecastedMonthlyFlowView.monthlyAverages useME transactions guides
       selectedYear excludedGuideIds).

(** The posted value of the guide in a month, 0 when there is none. *)
Definition postedValue (data : JsMap.t (JsMap.t Cell.t)) (m : string) : Q :=
  match cellAt id m data with Some c => Cell.amount c | None => 0 end.

(** 1 for a month the guide has no posted value in. *)
Definition unposted (data : JsMap.t (JsMap.t Cell.t)) (m : string) : Q :=
  match cellAt id m data with Some _ => 0 | None => 1 end.

(** The posted values of the months [L] differ from what the average and
    the pending correction account for by at most the materiality
    threshold per month without a posted value. *)
Definition reconciled (st : ForecastedMonthlyFlowView.State)
    (L : list string) : Prop :=
  Qabs (sumQ (postedValue (dataOf st)) L
        - (sumQ (fun _ => A) L + getOr0 id (corrOf st)))
  <= ForecastedMonthlyFlowView.zero01 * sumQ (unposted (dataOf st)) L.

(** The forecast values of a month: guide id and amount of every row with
    a forecast cell in that month, in row order. *)
Definition forecastLines (month : string) (data : JsMap.t (JsMap.t Cell.t))
  : list (string * Q) :=
  flat_map
    (fun entry =>
       match JsMap.get month (snd entry) with
       | Some c =>
           if Cell.isForecast c then [(fst entry, Cell.amount c)] else []
       | None => []
       end)
    data.

Definition isOperatingIncome (line : string * Q) : bool :=
  ForecastedMonthlyFlowView.memStr (fst line)
    (ForecastedMonthlyFlowView.operatingIncomeGuideIds cat).

(** A negative forecast of a guide that is neither an operating-income
    guide nor on the exclusion list. *)
Definition isCreditableExpense (line : string * Q) : bool :=
  negb (isOperatingIncome line)
  && (Qltb (snd line) 0
      && negb (ForecastedMonthlyFlowView.memStr (fst line)
                 (ForecastedMonthlyFlowView.excludedExpenseIdsForVat cat))).

Definition toVatLine (line : string * Q) : VatDetailData.line :=
  VatDetailData.mkLine
    (ForecastedMonthlyFlowView.guideNameOrUnknown guides (fst line))
    (snd line).

(** The state when the loop reaches month [m]. *)
Definition stateBefore (m : string) : ForecastedMonthlyFlowView.State :=
  fold_left monthStep (monthsBefore m months)
    ForecastedMonthlyFlowView.initialState.

(** The state of month [m] once every guide but the VAT guide has been
    forecast. *)
Definition afterGuides (m : string) : ForecastedMonthlyFlowView.State :=
  fold_left (forecastGuide m) (ForecastedMonthlyFlowView.activeGuides cat)
    (stateBefore m).

End ForecastVocabulary.

(** The claim's creditable expenses: every negative forecast value of a
    guide that is not on the exclusion list. *)
Definition isNegativeNotExcluded (guides : list Guide.t)
    (line : string * Q) : bool :=
  Qltb (snd line) 0
  && negb (ForecastedMonthlyFlowView.memStr (fst line)
             (ForecastedMonthlyFlowView.excludedExpenseIdsForVat
                (ForecastedMonthlyFlowView.catalogOf guides []))).

(** The VAT value as the claim words it. *)
Definition claimedVat (guides : list Guide.t) (lines : list (string * Q))
  : Q :=
  - (sumQ snd (filter (isOperatingIncome guides []) lines)
       / (116 # 100) * (16 # 100)
     - Qabs (sumQ snd (filter (isNegativeNotExcluded guides) lines))
         / (116 # 100) * (16 # 100)).

(** ** Sample inputs *)

(** The scenario of the specification: an income of 100 and a transfer
    leg of 50 on 2024-01-05, the opposite transfer leg on 2024-01-06. *)
Definition scenarioGuides : list Guide.t :=
  [ Guide.mk "1" "1-Ventas" false; Guide.mk "13" "13-Traspasos" false ].

Definition scenarioTransactions : list Transaction.t :=
  [ Transaction.mk "a" "b1" "1" "2024-01" "2024-01-05" "sale" 100 100
      Income "";
    Transaction.mk "b" "b1" "13" "2024-01" "2024-01-05" "transfer in" 50 50
      Income "";
    Transaction.mk "c" "b1" "13" "2024-01" "2024-01-06" "transfer out"
      (-50) (-50) Expense "" ].

(** A catalog without the transfer category and a day with one
    uncategorised income of 100 and one transfer leg of 50: both resolve
    to the display name "Sin Categoría". *)
Definition collidingTransactions : list Transaction.t :=
  [ Transaction.mk "a" "b1" "99" "2024-01" "2024-01-05" "sale" 100 100
      Income "";
    Transaction.mk "b" "b1" "13" "2024-01" "2024-01-05" "transfer in" 50 50
      Income "" ].

(** A catalog and half a year of history: sales coded as operating
    income, payroll, rent and VAT, the last transaction on 2024-06-10. *)
Definition sampleGuides : list Guide.t :=
  [ Guide.mk "1" "1-Ventas P1234" false;
    Guide.mk "19" "19-Nómina" false;
    Guide.mk "29" "29-IVA" false;
    Guide.mk "40" "40-Renta" false;
    Guide.mk "20" "20-Aguinaldo" false ].

Definition sampleTransactions : list Transaction.t :=
  [ Transaction.mk "t1" "b" "1" "2024-04" "2024-04-05" "" 1160 1160 Income "";
    Transaction.mk "t2" "b" "1" "2024-05" "2024-05-05" "" 1160 1160 Income "";
    Transaction.mk "t3" "b" "19" "2024-06" "2024-06-06" "" (-500) (-500)
      Expense "";
    Transaction.mk "t4" "b" "40" "2024-06" "2024-06-10" "" (-116) (-116)
      Expense "";
    Transaction.mk "t5" "b" "29" "2024-06" "2024-06-10" "" (-16) (-16)
      Expense "" ].

Definition rentGuide : Guide.t := Guide.mk "40" "40-Renta" false.

(** Random factors that alternate between 0.25 and 0.75. *)
Definition alternating (n : nat) : Q := if Nat.even n then 1 # 4 else 3 # 4.

(** One sale of 0.012 on 2024-10-15 and random factors that are all 0. *)
Definition tinyGuides : list Guide.t := [ Guide.mk "1" "1-Ventas" false ].

Definition tinyTransactions : list Transaction.t :=
  [ Transaction.mk "t" "b" "1" "2024-10" "2024-10-15" "" (12 # 1000)
      (12 # 1000) Income "" ].

(** Three catalogs around one operating-income guide and a VAT guide: a
    refund of 1160 in June 2024; a sale of 0.05 in October 2024; and the
    sample history with the VAT guide flagged inactive. *)
Definition vatGuides : list Guide.t :=
  [ Guide.mk "1" "1-Ventas P1234" false; Guide.mk "29" "29-IVA" false ].

Definition refundTransactions : list Transaction.t :=
  [ Transaction.mk "t" "b" "1" "2024-06" "2024-06-10" "" (-1160) (-1160)
      Expense "" ].

Definition smallSaleTransactions : list Transaction.t :=
  [ Transaction.mk "t" "b" "1" "2024-10" "2024-10-15" "" (5 # 100) (5 # 100)
      Income "" ].

Definition inactiveVatGuides : list Guide.t :=
  [ Guide.mk "1" "1-Ventas P1234" false; Guide.mk "29" "29-IVA" true ].

(** * Properties *)

(** ** Facts about the maps *)

Section JsMapFacts.

Context {V : Type}.

Lemma get_set_same (k : string) (v : V) (m : JsMap.t V) :
  JsMap.get k (JsMap.set k v m) = Some v.
Proof.
  induction m as [|[k' v'] m IH]; simpl.
  - now rewrite String.eqb_refl.
  - destruct (String.eqb k k') eqn:E; simpl; rewrite E; auto.
Qed.

Lemma get_set_other (k k' : string) (v : V) (m : JsMap.t V) :
  k <> k' -> JsMap.get k (JsMap.set k' v m) = JsMap.get k m.
Proof.
  intros Hne. induction m as [|[k0 v0] m IH]; simpl.
  - apply String.eqb_neq in Hne. now rewrite Hne.
  - destruct (String.eqb k' k0) eqn:E; simpl.
    + apply String.eqb_eq in E. subst k0.
      apply String.eqb_neq in Hne. now rewrite Hne.
    + destruct (String.eqb k k0); auto.
Qed.

Lemma get_set (k k' : string) (v : V) (m : JsMap.t V) :
  JsMap.get k (JsMap.set k' v m)
  = if String.eqb k k' then Some v else JsMap.get k m.
Proof.
  destruct (String.eqb_spec k k') as [->|Hne].
  - apply get_set_same.
  - now apply get_set_other.
Qed.

Lemma get_delete_other (k k' : string) (m : JsMap.t V) :
  k <> k' -> JsMap.get k (JsMap.delete k' m) = JsMap.get k m.
Proof.
  intros Hne. induction m as [|[k0 v0] m IH]; simpl; auto.
  destruct (String.eqb k' k0) eqn:E; simpl.
  - apply String.eqb_eq in E. subst k0.
    apply String.eqb_neq in Hne. now rewrite Hne.
  - destruct (String.eqb k k0); auto.
Qed.

Lemma get_In (k : string) (v : V) (m : JsMap.t V) :
  JsMap.get k m = Some v -> In (k, v) m.
Proof.
  induction m as [|[k0 v0] m IH]; simpl; [discriminate|].
  destruct (String.eqb_spec k k0) as [->|Hne].
  - intros [= ->]. now left.
  - intros H. right. now apply IH.
Qed.

Lemma get_None_keys (k : string) (m : JsMap.t V) :
  JsMap.get k m = None <-> ~ In k (JsMap.keys m).
Proof.
  induction m as [|[k0 v0] m IH]; simpl.
  - tauto.
  - destruct (String.eqb_spec k k0) as [->|Hne].
    + split; [discriminate | intros H; exfalso; apply H; now left].
    + rewrite IH. intuition congruence.
Qed.

Lemma keys_set (k : string) (v : V) (m : JsMap.t V) :
  JsMap.keys (JsMap.set k v m)
  = if JsMap.has k m then JsMap.keys m else JsMap.keys m ++ [k].
Proof.
  unfold JsMap.has. induction m as [|[k0 v0] m IH]; simpl; auto.
  destruct (String.eqb k k0) eqn:E; simpl; auto.
  rewrite IH. now destruct (JsMap.get k m).
Qed.

Lemma NoDup_keys_set (k : string) (v : V) (m : JsMap.t V) :
  NoDup (JsMap.keys m) -> NoDup (JsMap.keys (JsMap.set k v m)).
Proof.
  intros Hnd. rewrite keys_set. unfold JsMap.has.
  destruct (JsMap.get k m) eqn:E; auto.
  apply get_None_keys in E.
  apply NoDup_rev in Hnd. rewrite <- (rev_involutive (_ ++ _)).
  apply NoDup_rev. rewrite rev_app_distr. simpl. constructor; auto.
  now rewrite <- in_rev.
Qed.

Lemma get_first (k : string) (v : V) (m : JsMap.t V) :
  NoDup (JsMap.keys m) -> In (k, v) m -> JsMap.get k m = Some v.
Proof.
  induction m as [|[k0 v0] m IH]; simpl; [tauto|].
  intros Hnd [E|Hin].
  - injection E as -> ->. now rewrite String.eqb_refl.
  - inversion Hnd; subst.
    destruct (String.eqb_spec k k0) as [->|Hne]; auto.
    exfalso. apply H1. change k0 with (fst (k0, v)).
    now apply in_map.
Qed.

End JsMapFacts.

Lemma getOr0_set (k k' : string) (v : Q) (m : JsMap.t Q) :
  getOr0 k (JsMap.set k' v m) = if String.eqb k k' then v else getOr0 k m.
Proof. unfold getOr0. rewrite get_set. now destruct (String.eqb k k'). Qed.

(** ** Facts about sums *)

Lemma sumQ_app {A : Type} (f : A -> Q) (l1 l2 : list A) :
  sumQ f (l1 ++ l2) == sumQ f l1 + sumQ f l2.
Proof.
  induction l1 as [|a l1 IH]; simpl.
  - ring.
  - rewrite IH. ring.
Qed.

Lemma filter_twice {A : Type} (p q : A -> bool) (l : list A) :
  filter p (filter q l) = filter (fun x => q x && p x) l.
Proof.
  induction l as [|x l IH]; simpl; auto.
  destruct (q x); simpl; rewrite ?IH; auto.
Qed.

Lemma sumQ_filter_ext {A : Type} (f : A -> Q) (p q : A -> bool)
    (l : list A) :
  (forall x, p x = q x) -> sumQ f (filter p l) == sumQ f (filter q l).
Proof. intros H. now rewrite (filter_ext p q H). Qed.

Lemma sumQ_filter_split {A : Type} (f : A -> Q) (p q : A -> bool)
    (l : list A) :
  sumQ f (filter q l)
  == sumQ f (filter (fun x => q x && p x) l)
     + sumQ f (filter (fun x => q x && negb (p x)) l).
Proof.
  induction l as [|x l IH]; simpl; [ring|].
  destruct (q x), (p x); simpl; rewrite IH; ring.
Qed.

Lemma fold_left_sum {A : Type} (f : A -> Q) (l : list A) (acc : Q) :
  fold_left (fun a x => a + f x) l acc == acc + sumQ f l.
Proof.
  revert acc. induction l as [|x l IH]; intros acc; simpl.
  - ring.
  - rewrite IH. ring.
Qed.

Lemma last_cons_nonempty {A : Type} (x : A) (l : list A) (z z' : A) :
  l <> [] -> last (x :: l) z = last l z'.
Proof.
  intros Hl. destruct l as [|y l]; [congruence|]. simpl.
  clear. revert y. induction l as [|w l IH]; intros y; simpl; auto.
Qed.

(** ** Running balance *)

Section RunningBalanceFacts.

Variable totals : JsMap.t Totals.

Local Abbreviation openingFrom := (openingFrom totals).
Local Abbreviation closingFrom := (closingFrom totals).

Lemma initialBalanceRow_from (dates : list string) (b : Q) (row : list Q) :
  fold_left
    (fun (st : Q * list Q) date =>
       let '(runningBalance, row) := st in
       let dailyNet := netOf totals date in
       (runningBalance + dailyNet, row ++ [runningBalance]))
    dates (b, row)
  = (fold_left (fun a d => a + netOf totals d) dates b,
     row ++ openingFrom b dates).
Proof.
  revert b row. induction dates as [|d dates IH]; intros b row; simpl.
  - now rewrite app_nil_r.
  - rewrite IH. now rewrite <- app_assoc.
Qed.

Lemma finalBalanceRow_from (dates : list string) (b : Q) (row : list Q) :
  fold_left
    (fun (st : Q * list Q) date =>
       let '(csvFinalBalance, row) := st in
       let dailyNet := netOf totals date in
       (csvFinalBalance + dailyNet, row ++ [csvFinalBalance + dailyNet]))
    dates (b, row)
  = (fold_left (fun a d => a + netOf totals d) dates b,
     row ++ closingFrom b dates).
Proof.
  revert b row. induction dates as [|d dates IH]; intros b row; simpl.
  - now rewrite app_nil_r.
  - rewrite IH. now rewrite <- app_assoc.
Qed.

Lemma opening_eq (b : Q) (dates : list string) :
  RunningBalance.opening b dates totals = openingFrom b dates.
Proof.
  unfold RunningBalance.opening, RunningBalance.initialBalanceRow.
  now rewrite initialBalanceRow_from.
Qed.

Lemma closing_eq (b : Q) (dates : list string) :
  RunningBalance.closing b dates totals = closingFrom b dates.
Proof.
  unfold RunningBalance.closing, RunningBalance.finalBalanceRow.
  now rewrite finalBalanceRow_from.
Qed.

Lemma openingFrom_length (dates : list string) (b : Q) :
  List.length (openingFrom b dates) = List.length dates.
Proof. revert b. induction dates; intros b; simpl; auto. Qed.

Lemma closingFrom_length (dates : list string) (b : Q) :
  List.length (closingFrom b dates) = List.length dates.
Proof. revert b. induction dates; intros b; simpl; auto. Qed.

Lemma closing_is_opening_plus_net (dates : list string) (b : Q) (i : nat) :
  (i < List.length dates)%nat ->
  nth i (closingFrom b dates) 0
  = nth i (openingFrom b dates) 0 + netOf totals (nth i dates EmptyString).
Proof.
  revert b i. induction dates as [|d dates IH]; intros b i Hi; simpl in *.
  - lia.
  - destruct i as [|i]; auto. apply IH. lia.
Qed.

Lemma next_opening_is_closing (dates : list string) (b : Q) (i : nat) :
  (S i < List.length dates)%nat ->
  nth (S i) (openingFrom b dates) 0 = nth i (closingFrom b dates) 0.
Proof.
  revert b i. induction dates as [|d dates IH]; intros b i Hi; simpl in *.
  - lia.
  - destruct dates as [|d' dates]; simpl in *; [lia|].
    destruct i as [|i]; auto.
    apply (IH (b + netOf totals d) i). simpl. lia.
Qed.

Lemma last_closing (dates : list string) (b : Q) :
  last (closingFrom b dates) b == b + sumQ (netOf totals) dates.
Proof.
  revert b. induction dates as [|d dates IH]; intros b.
  - simpl. ring.
  - change (closingFrom b (d :: dates))
      with ((b + netOf totals d) :: closingFrom (b + netOf totals d) dates).
    destruct dates as [|d' dates].
    + simpl. ring.
    + rewrite (last_cons_nonempty _ _ b (b + netOf totals d))
        by (simpl; discriminate).
      rewrite IH. simpl. ring.
Qed.

End RunningBalanceFacts.

(** C5.  The running balance is a left fold over the buckets: the first
    opening balance is the initial balance, the opening balance of each
    later bucket is the closing balance of the one before, each closing
    balance is the opening balance plus the bucket's net, and the last
    closing balance is the initial balance plus the sum of all nets. *)
Theorem running_balance_left_fold
    (initialBalance : Q) (dates : list string) (totals : JsMap.t Totals) :
  let opening := RunningBalance.opening initialBalance dates totals in
  let closing := RunningBalance.closing initialBalance dates totals in
  List.length opening = List.length dates
  /\ List.length closing = List.length dates
  /\ nth 0 opening initialBalance = initialBalance
  /\ (forall i, (S i < List.length dates)%nat ->
        nth (S i) opening 0 = nth i closing 0)
  /\ (forall i, (i < List.length dates)%nat ->
        nth i closing 0
        = nth i opening 0 + netOf totals (nth i dates EmptyString))
  /\ last closing initialBalance
     == initialBalance + sumQ (netOf totals) dates
  /\ fst (RunningBalance.finalBalanceRow initialBalance dates totals)
     == initialBalance + sumQ (netOf totals) dates.
Proof.
  intros opening closing. subst opening closing.
  rewrite opening_eq, closing_eq.
  repeat split.
  - apply openingFrom_length.
  - apply closingFrom_length.
  - destruct dates; reflexivity.
  - intros i Hi. now apply next_opening_is_closing.
  - intros i Hi. now apply closing_is_opening_plus_net.
  - apply last_closing.
  - unfold RunningBalance.finalBalanceRow.
    rewrite finalBalanceRow_from. simpl. apply fold_left_sum.
Qed.

(** ** Calendar facts *)

Section CalendarFacts.

Local Open Scope Z_scope.

(** The year of era and the day of year of a day of era stay in range. *)
Lemma yearOfEra_bounds (doe : Z) :
  0 <= doe < 146097 ->
  let yoe := (doe - doe / 1460 + doe / 36524 - doe / 146096) / 365 in
  let doy := doe - (365 * yoe + yoe / 4 - yoe / 100) in
  0 <= yoe < 400 /\ 0 <= doy <= 365.
Proof.
  intros H yoe doy. subst yoe doy.
  Z.to_euclidean_division_equations; lia.
Qed.

Lemma monthOfDay_bounds (doy : Z) :
  0 <= doy <= 365 -> 0 <= (5 * doy + 2) / 153 <= 11.
Proof. intros H. Z.to_euclidean_division_equations; lia. Qed.

(** The day of era read back from the civil date it was split into. *)
Lemma civilOfDoe_inverse (doe : Z) :
  0 <= doe < 146097 ->
  let '(yoe, m, d) := JsDate.civilOfDoe doe in
  0 <= yoe < 400 /\ 1 <= m <= 12 /\ JsDate.doeOfCivil yoe m d = doe.
Proof.
  intros Hdoe. unfold JsDate.civilOfDoe, JsDate.doeOfCivil.
  pose proof (yearOfEra_bounds doe Hdoe) as [Hy Hd]. cbv zeta in Hy, Hd.
  set (yoe := (doe - doe / 1460 + doe / 36524 - doe / 146096) / 365) in *.
  set (doy := doe - (365 * yoe + yoe / 4 - yoe / 100)) in *.
  pose proof (monthOfDay_bounds doy Hd) as Hm.
  set (mp := (5 * doy + 2) / 153) in *.
  split; [exact Hy|].
  destruct (Z.ltb_spec mp 10) as [H10|H10].
  - split; [lia|].
    destruct (Z.gtb_spec (mp + 3) 2); [|lia].
    replace (mp + 3 - 3) with mp by lia. subst doy. lia.
  - split; [lia|].
    destruct (Z.gtb_spec (mp - 9) 2); [lia|].
    replace (mp - 9 + 9) with mp by lia. subst doy. lia.
Qed.

(** MakeDay inverts the year, month and day of a day number. *)
Lemma daysFromCivil_civilFromDays (z : Z) :
  let '(y, m, d) := JsDate.civilFromDays z in
  JsDate.daysFromCivil y m d = z /\ 1 <= m <= 12.
Proof.
  unfold JsDate.civilFromDays.
  set (z0 := z + 719468).
  set (era := z0 / 146097).
  assert (Hdoe : 0 <= z0 - era * 146097 < 146097).
  { subst era. pose proof (Z.mod_pos_bound z0 146097 ltac:(lia)).
    rewrite Z.mod_eq in H by lia. lia. }
  pose proof (civilOfDoe_inverse _ Hdoe) as H.
  destruct (JsDate.civilOfDoe (z0 - era * 146097)) as [[yoe m] d].
  destruct H as (Hy & Hm & Hd).
  split; [|exact Hm].
  unfold JsDate.daysFromCivil.
  assert (E1 : (m - 1) / 12 = 0) by (apply Z.div_small; lia).
  assert (E2 : (m - 1) mod 12 + 1 = m) by (rewrite Z.mod_small; lia).
  rewrite E1, E2.
  assert (E3 : (if m <=? 2
                then (if m <=? 2 then yoe + era * 400 + 1
                      else yoe + era * 400) + 0 - 1
                else (if m <=? 2 then yoe + era * 400 + 1
                      else yoe + era * 400) + 0)
               = yoe + era * 400)
    by (destruct (m <=? 2); lia).
  rewrite E3.
  assert (E4 : (yoe + era * 400) / 400 = era).
  { rewrite Z.div_add by lia. rewrite Z.div_small by lia. lia. }
  rewrite E4.
  replace (yoe + era * 400 - era * 400) with yoe by lia.
  rewrite Hd. subst z0. lia.
Qed.

Lemma daysFromCivil_shift (y m d k : Z) :
  JsDate.daysFromCivil y m (d + k) = JsDate.daysFromCivil y m d + k.
Proof. unfold JsDate.daysFromCivil, JsDate.doeOfCivil. lia. Qed.

Lemma timeWithinDay_bound (t : Z) :
  0 <= JsDate.timeWithinDay t < JsDate.msPerDay.
Proof.
  unfold JsDate.timeWithinDay, JsDate.msPerDay.
  apply Z.mod_pos_bound. lia.
Qed.

(** Setting the day of the month to an offset of the current one moves
    the date by that many days and keeps the time of day. *)
Lemma setUTCDate_offset (t k : Z) :
  JsDate.setUTCDate t (JsDate.getUTCDate t + k)
  = t + k * JsDate.msPerDay.
Proof.
  unfold JsDate.setUTCDate, JsDate.getUTCDate, JsDate.getUTCMonth,
    JsDate.getUTCFullYear.
  pose proof (daysFromCivil_civilFromDays (JsDate.dayOf t)) as H.
  destruct (JsDate.civilFromDays (JsDate.dayOf t)) as [[y m] d].
  destruct H as [H _]. simpl.
  replace (m - 1 + 1) with m by lia.
  rewrite daysFromCivil_shift, H.
  unfold JsDate.dayOf, JsDate.timeWithinDay, JsDate.msPerDay.
  pose proof (Z.div_mod t 86400000 ltac:(lia)). lia.
Qed.

Lemma dayOf_shift (t k : Z) :
  JsDate.dayOf (t + k * JsDate.msPerDay) = JsDate.dayOf t + k.
Proof.
  unfold JsDate.dayOf, JsDate.msPerDay. apply Z.div_add. lia.
Qed.

End CalendarFacts.

(** C9.  For a parsable date string the week bucket is the ISO date of a
    day that is a Saturday, is not after the date and is less than seven
    days before it; the two scenarios of the specification hold whatever
    the current time is. *)
Theorem week_bucket_is_saturday_on_or_before :
  (forall (today : Z) (dateStr : string) (date : Z),
      JsDate.newDateNoon dateStr = Some date ->
      exists saturday : Z,
        RealWeeklyFlowView.getWeekStartDate today dateStr
        = JsDate.isoDateOfDay saturday
        /\ JsDate.getUTCDay (saturday * JsDate.msPerDay) = 6%Z
        /\ (saturday <= JsDate.dayOf date < saturday + 7)%Z)
  /\ (forall today : Z,
        RealWeeklyFlowView.getWeekStartDate today "2024-01-06"
        = "2024-01-06"%string)
  /\ (forall today : Z,
        RealWeeklyFlowView.getWeekStartDate today "2024-01-12"
        = "2024-01-06"%string).
Proof.
  split; [|split; intros today; vm_compute; reflexivity].
  intros today dateStr date Hparse.
  unfold RealWeeklyFlowView.getWeekStartDate. rewrite Hparse.
  set (offset := ((JsDate.getUTCDay date + 1) mod 7)%Z).
  exists (JsDate.dayOf date - offset)%Z.
  replace (JsDate.getUTCDate date - offset)%Z
    with (JsDate.getUTCDate date + - offset)%Z by lia.
  rewrite setUTCDate_offset.
  unfold JsDate.toISODate. rewrite dayOf_shift.
  split; [f_equal; lia|].
  assert (Hday : JsDate.dayOf ((JsDate.dayOf date - offset)
                               * JsDate.msPerDay)
                 = (JsDate.dayOf date - offset)%Z).
  { unfold JsDate.dayOf at 1. apply Z.div_mul.
    unfold JsDate.msPerDay. lia. }
  unfold JsDate.getUTCDay in *. rewrite Hday. subst offset.
  generalize (JsDate.dayOf date). intros D.
  pose proof (Z.mod_pos_bound (D + 4) 7 ltac:(lia)).
  pose proof (Z.mod_pos_bound ((D + 4) mod 7 + 1) 7 ltac:(lia)).
  split; [|lia].
  Z.to_euclidean_division_equations. lia.
Qed.

(** ** Per-bucket view of the totals *)

Section TotalsFacts.

Lemma get_updateTotals (k b : string) (f : Totals -> Totals)
    (m : JsMap.t Totals) :
  JsMap.get b (updateTotals k f m)
  = if String.eqb b k then option_map f (JsMap.get b m) else JsMap.get b m.
Proof.
  unfold updateTotals.
  destruct (String.eqb_spec b k) as [->|Hne].
  - destruct (JsMap.get k m) eqn:E; simpl.
    + apply get_set_same.
    + exact E.
  - destruct (JsMap.get k m); auto. now apply get_set_other.
Qed.

(** A loop that updates the totals of the bucket of each element it
    accepts acts, on one bucket, as a fold over the accepted elements of
    that bucket. *)
Lemma fold_updateTotals {A : Type} (key : A -> string) (accept : A -> bool)
    (upd : A -> Totals -> Totals) (l : list A) (b : string) :
  forall m : JsMap.t Totals,
    JsMap.get b
      (fold_left
         (fun m a => if accept a then updateTotals (key a) (upd a) m else m)
         l m)
    = option_map
        (fun t0 =>
           fold_left (fun t a => upd a t)
             (filter (fun a => String.eqb (key a) b && accept a) l) t0)
        (JsMap.get b m).
Proof.
  induction l as [|a l IH]; intros m; simpl.
  - now destruct (JsMap.get b m).
  - rewrite IH. destruct (accept a) eqn:Ha.
    + rewrite get_updateTotals. rewrite (String.eqb_sym b (key a)).
      destruct (String.eqb (key a) b); simpl.
      * now destruct (JsMap.get b m).
      * reflexivity.
    + now rewrite andb_false_r.
Qed.

Lemma get_initTotals (buckets : list string) (b : string) :
  JsMap.get b (initTotals buckets)
  = if existsb (String.eqb b) buckets then Some zeroTotals else None.
Proof.
  unfold initTotals.
  assert (H : forall m,
             JsMap.get b
               (fold_left (fun totals b0 => JsMap.set b0 zeroTotals totals)
                  buckets m)
             = if existsb (String.eqb b) buckets then Some zeroTotals
               else JsMap.get b m).
  { induction buckets as [|x l IH]; intros m; simpl; auto.
    rewrite IH, get_set.
    destruct (String.eqb b x); simpl; auto.
    now destruct (existsb (String.eqb b) l). }
  now rewrite H.
Qed.


End TotalsFacts.

(** ** The two schemes, bucket by bucket *)

Section SchemeFacts.

Variable bucketOf : Transaction.t -> string.
Variable amount : Transaction.t -> Q.
Variable guideNameOf : string -> string.

Local Abbreviation inBucket := (inBucket bucketOf).
Local Abbreviation transferNet := (transferNet bucketOf amount).
Local Abbreviation incomeLegs := (incomeLegs bucketOf amount).
Local Abbreviation expenseLegs := (expenseLegs bucketOf amount).
Local Abbreviation bucketNet := (bucketNet bucketOf amount).
Local Abbreviation afterNonTransfers := (afterNonTransfers bucketOf amount).
Local Abbreviation closedForm := (closedForm bucketOf amount).

Lemma bucketNet_split (b : string) (l : list Transaction.t) :
  bucketNet b l == incomeLegs b l + expenseLegs b l + transferNet b l.
Proof.
  unfold bucketNet, incomeLegs, expenseLegs, transferNet.
  induction l as [|t l IH]; simpl; [ring|].
  destruct (inBucket b t), (isTransfer t), (isIncome t); simpl;
    rewrite ?IH; ring.
Qed.

Lemma fold_totals_sums (inc exp : Transaction.t -> bool)
    (l : list Transaction.t) (t0 : Totals) :
  let t :=
    fold_left
      (fun t a =>
         addNet (amount a)
           (if inc a then addIncome (amount a) t
            else if exp a then addExpense (amount a) t else t))
      l t0 in
  income t == income t0 + sumQ amount (filter inc l)
  /\ expense t
     == expense t0 + sumQ amount (filter (fun a => negb (inc a) && exp a) l)
  /\ net t == net t0 + sumQ amount l.
Proof.
  revert t0. induction l as [|a l IH]; intros t0; simpl.
  - repeat split; ring.
  - specialize
      (IH (addNet (amount a)
             (if inc a then addIncome (amount a) t0
              else if exp a then addExpense (amount a) t0 else t0))).
    simpl in IH. destruct IH as (Hi & He & Hn).
    rewrite Hi, He, Hn.
    destruct (inc a), (exp a); simpl; repeat split; ring.
Qed.

(** *** Single pass *)

Lemma singlePass_get (buckets : list string) (l : list Transaction.t)
    (b : string) :
  JsMap.get b (snd (singlePass bucketOf amount guideNameOf buckets l))
  = if existsb (String.eqb b) buckets then
      Some
        (fold_left
           (fun t a =>
              addNet (amount a)
                (if isTransfer a || isIncome a then addIncome (amount a) t
                 else if true then addExpense (amount a) t else t))
           (filter (inBucket b) l) zeroTotals)
    else None.
Proof.
  unfold singlePass. simpl snd.
  pose proof
    (fold_updateTotals bucketOf (fun _ => true)
       (fun a totals =>
          addNet (amount a)
            (if isTransfer a then addIncome (amount a) totals
             else if isIncome a then addIncome (amount a) totals
             else addExpense (amount a) totals))
       l b (initTotals buckets)) as H.
  simpl in H. unfold totalsStep.
  rewrite H, get_initTotals.
  destruct (existsb (String.eqb b) buckets); simpl; auto.
  f_equal. unfold inBucket.
  rewrite (filter_ext _ (fun a => String.eqb (bucketOf a) b))
    by (intros a; apply andb_true_r).
  generalize zeroTotals.
  induction (filter (fun a => String.eqb (bucketOf a) b) l) as [|a l' IH];
    intros t0; simpl; auto.
  rewrite IH. now destruct (isTransfer a), (isIncome a).
Qed.

(** *** Two phases *)

Lemma netTransfers_getOr0 (l : list Transaction.t) (b : string) :
  forall m : JsMap.t Q,
    getOr0 b
      (fold_left
         (fun dailyNetTransfers t =>
            if isTransfer t then
              JsMap.set (bucketOf t)
                (getOr0 (bucketOf t) dailyNetTransfers + amount t)
                dailyNetTransfers
            else dailyNetTransfers)
         l m)
    = fold_left (fun acc t => acc + amount t)
        (filter (fun t => inBucket b t && isTransfer t) l) (getOr0 b m).
Proof.
  induction l as [|t l IH]; intros m; simpl; auto.
  rewrite IH. unfold inBucket.
  destruct (isTransfer t); simpl.
  - rewrite getOr0_set, (String.eqb_sym b (bucketOf t)).
    destruct (String.eqb_spec (bucketOf t) b) as [->|Hne]; simpl; auto.
  - now rewrite andb_false_r.
Qed.

Lemma netTransfers_NoDup (l : list Transaction.t) :
  NoDup (JsMap.keys (netTransfers bucketOf amount l)).
Proof.
  unfold netTransfers.
  assert (H : forall m : JsMap.t Q, NoDup (JsMap.keys m) ->
             NoDup (JsMap.keys
               (fold_left
                  (fun dailyNetTransfers t =>
                     if isTransfer t then
                       JsMap.set (bucketOf t)
                         (getOr0 (bucketOf t) dailyNetTransfers + amount t)
                         dailyNetTransfers
                     else dailyNetTransfers) l m))).
  { induction l as [|t l IH]; intros m Hm; simpl; auto.
    apply IH. destruct (isTransfer t); auto. now apply NoDup_keys_set. }
  apply H. constructor.
Qed.

Lemma netTransfers_sum (l : list Transaction.t) (b : string) :
  getOr0 b (netTransfers bucketOf amount l) == transferNet b l.
Proof.
  unfold netTransfers. rewrite netTransfers_getOr0.
  rewrite fold_left_sum. unfold transferNet, getOr0. simpl. ring.
Qed.

(** A bucket without transfer legs has no entry in the map of nets. *)
Lemma netTransfers_None (l : list Transaction.t) (b : string) :
  JsMap.get b (netTransfers bucketOf amount l) = None ->
  filter (fun t => inBucket b t && isTransfer t) l = [].
Proof.
  unfold netTransfers.
  assert (H : forall m : JsMap.t Q,
             JsMap.get b
               (fold_left
                  (fun dailyNetTransfers t =>
                     if isTransfer t then
                       JsMap.set (bucketOf t)
                         (getOr0 (bucketOf t) dailyNetTransfers + amount t)
                         dailyNetTransfers
                     else dailyNetTransfers) l m) = None ->
             JsMap.get b m = None
             /\ filter (fun t => inBucket b t && isTransfer t) l = []).
  { induction l as [|t l IH]; intros m Hm; simpl in *; auto.
    apply IH in Hm as [Hm Hl]. unfold inBucket in *.
    destruct (isTransfer t); simpl.
    - rewrite get_set in Hm. rewrite (String.eqb_sym b (bucketOf t)) in Hm.
      destruct (String.eqb (bucketOf t) b); [discriminate|]. auto.
    - rewrite andb_false_r. auto. }
  intros Hm. now apply H in Hm.
Qed.

Lemma filter_key_NoDup {V : Type} (m : JsMap.t V) (b : string) :
  NoDup (JsMap.keys m) ->
  filter (fun e => String.eqb (fst e) b && true) m
  = match JsMap.get b m with Some v => [(b, v)] | None => [] end.
Proof.
  induction m as [|[k v] m IH]; intros Hnd; simpl; auto.
  inversion Hnd as [|? ? Hk Hm]; subst.
  rewrite (String.eqb_sym b k).
  destruct (String.eqb_spec k b) as [->|Hne]; simpl.
  - f_equal. rewrite IH by assumption.
    destruct (JsMap.get b m) eqn:E; auto.
    apply get_In in E. exfalso. apply Hk.
    change b with (fst (b, v0)). now apply in_map.
  - now apply IH.
Qed.

Lemma snd_fold_nonTransferStep (l : list Transaction.t) :
  forall st,
    snd (fold_left (nonTransferStep bucketOf amount guideNameOf) l st)
    = fold_left
        (fun m t =>
           if negb (isTransfer t) then
             updateTotals (bucketOf t)
               (fun totals =>
                  addNet (amount t)
                    (if isIncome t then addIncome (amount t) totals
                     else addExpense (amount t) totals)) m
           else m)
        l (snd st).
Proof.
  induction l as [|t l IH]; intros [d m]; simpl; auto.
  rewrite IH. unfold nonTransferStep.
  now destruct (negb (isTransfer t)).
Qed.

Lemma snd_fold_transferStep (name : string) (entries : list (string * Q)) :
  forall st,
    snd (fold_left (transferStep name) entries st)
    = fold_left
        (fun m e =>
           if true then
             updateTotals (fst e)
               (fun totals => addNet (snd e) (addIncome (snd e) totals)) m
           else m)
        entries (snd st).
Proof.
  induction entries as [|[date x] l IH]; intros [d m]; simpl; auto.
Qed.

Lemma twoPhase_get (buckets : list string) (l : list Transaction.t)
    (b : string) :
  JsMap.get b (snd (twoPhase bucketOf amount guideNameOf buckets l))
  = if existsb (String.eqb b) buckets then
      Some
        (match JsMap.get b (netTransfers bucketOf amount l) with
         | Some x => addNet x (addIncome x (afterNonTransfers b l))
         | None => afterNonTransfers b l
         end)
    else None.
Proof.
  assert (H2 : JsMap.get b
                 (snd (fold_left (nonTransferStep bucketOf amount guideNameOf)
                         l (JsMap.empty, initTotals buckets)))
               = if existsb (String.eqb b) buckets
                 then Some (afterNonTransfers b l) else None).
  { rewrite snd_fold_nonTransferStep. simpl snd.
    rewrite (fold_updateTotals bucketOf (fun t => negb (isTransfer t))
               (fun a totals =>
                  addNet (amount a)
                    (if isIncome a then addIncome (amount a) totals
                     else addExpense (amount a) totals))).
    rewrite get_initTotals.
    destruct (existsb (String.eqb b) buckets); simpl; auto. }
  unfold twoPhase.
  destruct (0 <? JsMap.size (netTransfers bucketOf amount l))%nat eqn:Hsz.
  - rewrite snd_fold_transferStep. simpl snd.
    rewrite (fold_updateTotals fst (fun _ => true)
               (fun e totals => addNet (snd e) (addIncome (snd e) totals))).
    rewrite H2.
    destruct (existsb (String.eqb b) buckets); simpl; auto.
    rewrite filter_key_NoDup by apply netTransfers_NoDup.
    now destruct (JsMap.get b (netTransfers bucketOf amount l)).
  - rewrite H2.
    destruct (netTransfers bucketOf amount l) as [|e m] eqn:E.
    + reflexivity.
    + simpl in Hsz. discriminate.
Qed.

Lemma afterNonTransfers_sums (b : string) (l : list Transaction.t) :
  income (afterNonTransfers b l) == incomeLegs b l
  /\ expense (afterNonTransfers b l) == expenseLegs b l
  /\ net (afterNonTransfers b l) == incomeLegs b l + expenseLegs b l.
Proof.
  unfold afterNonTransfers.
  destruct (fold_totals_sums isIncome (fun _ => true)
              (filter (fun a => inBucket b a && negb (isTransfer a)) l)
              zeroTotals) as (Hi & He & Hn).
  rewrite Hi, He, Hn. clear Hi He Hn.
  unfold incomeLegs, expenseLegs. simpl.
  rewrite !filter_twice.
  rewrite (sumQ_filter_split amount isIncome
             (fun a => inBucket b a && negb (isTransfer a)) l).
  repeat split.
  - rewrite Qplus_0_l. apply sumQ_filter_ext. intros a.
    now rewrite andb_assoc.
  - rewrite Qplus_0_l. apply sumQ_filter_ext. intros a.
    now rewrite andb_true_r, andb_assoc.
  - rewrite Qplus_0_l. apply Qplus_comp; apply sumQ_filter_ext; intros a;
      now rewrite andb_assoc.
Qed.

Lemma twoPhase_closedForm (buckets : list string) (l : list Transaction.t)
    (b : string) (t : Totals) :
  JsMap.get b (snd (twoPhase bucketOf amount guideNameOf buckets l)) = Some t ->
  closedForm b l t.
Proof.
  rewrite twoPhase_get.
  destruct (existsb (String.eqb b) buckets); [|discriminate].
  intros [= <-].
  destruct (afterNonTransfers_sums b l) as (Hi & He & Hn).
  pose proof (netTransfers_sum l b) as Hx. unfold getOr0 in Hx.
  unfold closedForm. rewrite bucketNet_split.
  destruct (JsMap.get b (netTransfers bucketOf amount l)); simpl;
    rewrite Hi, He, Hn, <- Hx; repeat split; ring.
Qed.

Lemma singlePass_closedForm (buckets : list string) (l : list Transaction.t)
    (b : string) (t : Totals) :
  JsMap.get b (snd (singlePass bucketOf amount guideNameOf buckets l))
  = Some t ->
  closedForm b l t.
Proof.
  rewrite singlePass_get.
  destruct (existsb (String.eqb b) buckets); [|discriminate].
  intros [= <-].
  destruct (fold_totals_sums (fun a => isTransfer a || isIncome a)
              (fun _ => true) (filter (inBucket b) l) zeroTotals)
    as (Hi & He & Hn).
  unfold closedForm, bucketNet. rewrite Hi, He, Hn. clear Hi He Hn.
  unfold incomeLegs, expenseLegs, transferNet. simpl.
  repeat split; try ring.
  - induction l as [|a l IH]; simpl; [ring|].
    destruct (inBucket b a); simpl; destruct (isTransfer a); simpl;
      destruct (isIncome a); simpl; lra.
  - induction l as [|a l IH]; simpl; [ring|].
    destruct (inBucket b a); simpl; destruct (isTransfer a); simpl;
      destruct (isIncome a); simpl; lra.
Qed.

End SchemeFacts.

(** C10.  On every transaction list and bucket list the two-phase scheme
    of the daily view and the single-pass scheme of the monthly view give
    each bucket the same income, expense and net totals (and a key that is
    not a bucket has totals in neither); no assumption on the catalog
    names is needed, since the totals never read them. *)
Theorem two_phase_equals_single_pass
    (bucketOf : Transaction.t -> string) (amount : Transaction.t -> Q)
    (guideNameOf guideNameOf' : string -> string)
    (buckets : list string) (l : list Transaction.t) (b : string) :
  match JsMap.get b (snd (twoPhase bucketOf amount guideNameOf buckets l)),
        JsMap.get b (snd (singlePass bucketOf amount guideNameOf' buckets l))
  with
  | Some daily, Some monthly => Totals_eq daily monthly
  | None, None => True
  | _, _ => False
  end.
Proof.
  pose proof (twoPhase_closedForm bucketOf amount guideNameOf buckets l b)
    as H1.
  pose proof (singlePass_closedForm bucketOf amount guideNameOf' buckets l b)
    as H2.
  rewrite twoPhase_get in *. rewrite singlePass_get in *.
  destruct (existsb (String.eqb b) buckets); auto.
  destruct (H1 _ eq_refl) as (Hi & He & Hn).
  destruct (H2 _ eq_refl) as (Hi' & He' & Hn').
  unfold Totals_eq. rewrite Hi, He, Hn, Hi', He', Hn'.
  repeat split; reflexivity.
Qed.

(** ** Sorting and sums *)

Lemma insertSorted_perm {A : Type} (cmp : A -> A -> Z) (x : A) (l : list A) :
  Permutation (insertSorted cmp x l) (x :: l).
Proof.
  induction l as [|y l IH]; simpl; auto.
  destruct (cmp x y <=? 0)%Z; auto.
  rewrite IH. apply perm_swap.
Qed.

Lemma sortWith_perm {A : Type} (cmp : A -> A -> Z) (l : list A) :
  Permutation (sortWith cmp l) l.
Proof.
  induction l as [|x l IH]; simpl; auto.
  rewrite insertSorted_perm. now constructor.
Qed.

Lemma sumQ_filter_perm {A : Type} (f : A -> Q) (p : A -> bool)
    (l l' : list A) :
  Permutation l l' -> sumQ f (filter p l) == sumQ f (filter p l').
Proof.
  induction 1 as [|x l l' _ IH|x y l|l l' l'' _ IH1 _ IH2]; simpl.
  - reflexivity.
  - destruct (p x); simpl; rewrite IH; reflexivity.
  - destruct (p x), (p y); simpl; ring.
  - now rewrite IH1.
Qed.

Lemma closedForm_perm (bucketOf : Transaction.t -> string)
    (amount : Transaction.t -> Q) (b : string) (l l' : list Transaction.t)
    (t : Totals) :
  Permutation l l' ->
  closedForm bucketOf amount b l t -> closedForm bucketOf amount b l' t.
Proof.
  intros Hp (Hi & He & Hn).
  unfold closedForm, incomeLegs, expenseLegs, transferNet, bucketNet in *.
  rewrite Hi, He, Hn.
  repeat split; repeat apply Qplus_comp; now apply sumQ_filter_perm.
Qed.

(** ** The daily view *)

Section DailyFacts.

Variable transactions : list Transaction.t.
Variable guides : list Guide.t.
Variables startDateFilter endDateFilter : option string.
Variable useME : bool.

Local Abbreviation shown :=
  (shown transactions startDateFilter endDateFilter).

Let fd :=
  DailyFlowView.flowData transactions guides startDateFilter endDateFilter
    useME.

Lemma length_zero_nil {A : Type} (l : list A) :
  (List.length l =? 0)%nat = true <-> l = [].
Proof.
  destruct l; simpl; split; intros; auto; discriminate.
Qed.

(** Either the view is empty or it is the two-phase aggregation of the
    shown transactions in date order. *)
Lemma flowData_cases :
  (shown = [] /\ DailyFlowView.dates fd = []
   /\ DailyFlowView.dataByGuide fd = JsMap.empty
   /\ DailyFlowView.dailyTotals fd = JsMap.empty)
  \/ (shown <> []
      /\ DailyFlowView.dataByGuide fd
         = fst (twoPhase Transaction.date (amountOf useME)
                  (getGuideName guides) (DailyFlowView.dates fd)
                  (sortWith DailyFlowView.byDate shown))
      /\ DailyFlowView.dailyTotals fd
         = snd (twoPhase Transaction.date (amountOf useME)
                  (getGuideName guides) (DailyFlowView.dates fd)
                  (sortWith DailyFlowView.byDate shown))).
Proof.
  subst fd. unfold DailyFlowView.flowData, shown.
  destruct (List.length (filter DailyFlowView.isValid transactions) =? 0)%nat
    eqn:E1.
  - left. apply length_zero_nil in E1. rewrite E1. simpl. auto.
  - destruct (List.length
                (filter (DailyFlowView.inRange startDateFilter endDateFilter)
                   (filter DailyFlowView.isValid transactions)) =? 0)%nat
      eqn:E2.
    + left. apply length_zero_nil in E2. rewrite E2. simpl. auto.
    + right. split.
      * intros H. rewrite H in E2. simpl in E2. discriminate.
      * match goal with
        | |- context [twoPhase ?k ?a ?g ?d ?s] =>
            destruct (twoPhase k a g d s) as [dbg tot] eqn:E
        end.
        simpl. rewrite E. auto.
Qed.

End DailyFacts.

(** ** The transfer row of the two-phase scheme *)

Section TransferRow.

Variable bucketOf : Transaction.t -> string.
Variable amount : Transaction.t -> Q.
Variable guideNameOf : string -> string.

Lemma fst_fold_transferStep (name : string) (entries : list (string * Q)) :
  forall st,
    fst (fold_left (transferStep name) entries st)
    = fold_left (fun d e => assignCell name (fst e) (snd e) d) entries
        (fst st).
Proof.
  induction entries as [|[date x] l IH]; intros [d m]; simpl; auto.
Qed.

Lemma guideDataOf_assignCell (name date : string) (x : Q)
    (d : JsMap.t (JsMap.t Q)) :
  guideDataOf name (assignCell name date x d)
  = JsMap.set date x (guideDataOf name d).
Proof.
  unfold assignCell. unfold guideDataOf at 1. now rewrite get_set_same.
Qed.

Lemma guideDataOf_fold_assign (name : string) (entries : list (string * Q)) :
  forall d,
    guideDataOf name
      (fold_left (fun d e => assignCell name (fst e) (snd e) d) entries d)
    = fold_left (fun row e => JsMap.set (fst e) (snd e) row) entries
        (guideDataOf name d).
Proof.
  induction entries as [|e l IH]; intros d; simpl; auto.
  now rewrite IH, guideDataOf_assignCell.
Qed.

Lemma get_fold_set {V : Type} (entries : JsMap.t V) (b : string) :
  NoDup (JsMap.keys entries) ->
  forall row : JsMap.t V,
    JsMap.get b
      (fold_left (fun row e => JsMap.set (fst e) (snd e) row) entries row)
    = match JsMap.get b entries with
      | Some v => Some v
      | None => JsMap.get b row
      end.
Proof.
  induction entries as [|[k v] l IH]; intros Hnd row; simpl; auto.
  inversion Hnd as [|? ? Hk Hl]; subst.
  rewrite IH by assumption. rewrite get_set.
  destruct (String.eqb_spec b k) as [->|Hne]; auto.
  apply get_None_keys in Hk. now rewrite Hk.
Qed.

(** Where a bucket has transfer legs, the transfer row holds their net. *)
Lemma twoPhase_transfer_row (buckets : list string)
    (l : list Transaction.t) (b : string) (t : Transaction.t) :
  In t l -> isTransfer t = true -> bucketOf t = b ->
  exists x,
    JsMap.get b
      (guideDataOf (guideNameOf transferGuideId)
         (fst (twoPhase bucketOf amount guideNameOf buckets l)))
    = Some x
    /\ x == transferNet bucketOf amount b l.
Proof.
  intros Hin Htr Hb.
  destruct (JsMap.get b (netTransfers bucketOf amount l)) as [x|] eqn:Hx.
  - exists x. split.
    + unfold twoPhase.
      destruct (0 <? JsMap.size (netTransfers bucketOf amount l))%nat eqn:Hs.
      * rewrite fst_fold_transferStep, guideDataOf_fold_assign.
        rewrite get_fold_set by apply netTransfers_NoDup.
        now rewrite Hx.
      * destruct (netTransfers bucketOf amount l); simpl in *; discriminate.
    + pose proof (netTransfers_sum bucketOf amount l b) as H.
      unfold getOr0 in H. now rewrite Hx in H.
  - apply netTransfers_None in Hx.
    assert (Hf : In t (filter
                        (fun t => inBucket bucketOf b t && isTransfer t) l)).
    { apply filter_In. split; auto. unfold inBucket.
      rewrite Hb, String.eqb_refl, Htr. reflexivity. }
    rewrite Hx in Hf. destruct Hf.
Qed.

End TransferRow.

(** C2.  In the daily view every bucket's income total is the sum of its
    non-transfer Income transactions plus the single net of its transfer
    legs, and its expense total is the sum of its non-transfer Expense
    transactions only, so transfer legs never reach the expense total; a
    transfer net of exactly 0 leaves both totals as they are without the
    transfers; the transfer row holds that one net per bucket; and no row
    of the expense section carries the transfer category's name. *)
Theorem transfers_netted_into_income_only
    (transactions : list Transaction.t) (guides : list Guide.t)
    (startDateFilter endDateFilter : option string) (useME : bool) :
  let fd :=
    DailyFlowView.flowData transactions guides startDateFilter endDateFilter
      useME in
  let l := shown transactions startDateFilter endDateFilter in
  let amt := amountOf useME in
  (forall b t,
      JsMap.get b (DailyFlowView.dailyTotals fd) = Some t ->
      income t
      == incomeLegs Transaction.date amt b l
         + transferNet Transaction.date amt b l
      /\ expense t == expenseLegs Transaction.date amt b l
      /\ (transferNet Transaction.date amt b l == 0 ->
          income t == incomeLegs Transaction.date amt b l
          /\ expense t == expenseLegs Transaction.date amt b l))
  /\ (forall t,
        In t l -> isTransfer t = true ->
        exists x,
          JsMap.get (Transaction.date t)
            (guideDataOf (getGuideName guides "13")
               (DailyFlowView.dataByGuide fd))
          = Some x
          /\ x == transferNet Transaction.date amt (Transaction.date t) l)
  /\ (forall localeCompare entry,
        In entry (DailyFlowView.expenseSection localeCompare guides fd) ->
        fst entry <> getGuideName guides "13").
Proof.
  intros fd l amt. subst amt.
  pose proof (sortWith_perm DailyFlowView.byDate l) as Hperm.
  destruct (flowData_cases transactions guides startDateFilter endDateFilter
              useME) as [(Hnil & _ & Hd & Ht)|(Hne & Hd & Ht)];
    fold fd in Hd, Ht; fold l in Hnil || fold l in Hne.
  - split; [|split].
    + intros b t Hget. rewrite Ht in Hget. discriminate.
    + intros t Hin. rewrite Hnil in Hin. destruct Hin.
    + intros lc entry Hin. apply filter_In in Hin as [_ Hf].
      destruct (String.eqb_spec (fst entry) (getGuideName guides "13"));
        [discriminate | assumption].
  - split; [|split].
    + intros b t Hget. rewrite Ht in Hget. fold l in Hget.
      apply twoPhase_closedForm in Hget.
      apply (closedForm_perm _ _ _ _ _ _ Hperm) in Hget as (Hi & He & _).
      split; [exact Hi|]. split; [exact He|].
      intros H0. rewrite H0 in Hi. split; [|exact He].
      rewrite Hi. ring.
    + intros t Hin Htr. rewrite Hd. fold l.
      destruct (twoPhase_transfer_row Transaction.date (amountOf useME)
                  (getGuideName guides) (DailyFlowView.dates fd)
                  (sortWith DailyFlowView.byDate l) (Transaction.date t) t)
        as (x & Hx & Hsum); auto.
      { eapply Permutation_in; [symmetry; exact Hperm | exact Hin]. }
      exists x. split; [exact Hx|]. rewrite Hsum.
      unfold transferNet. now apply sumQ_filter_perm.
    + intros lc entry Hin. apply filter_In in Hin as [_ Hf].
      destruct (String.eqb_spec (fst entry) (getGuideName guides "13"));
        [discriminate | assumption].
Qed.

(** ** Enumeration of the days of a range *)

Section EnumerationFacts.

Local Open Scope Z_scope.

Lemma enumerationFuel_step (d e : Z) :
  d <= e ->
  DailyFlowView.enumerationFuel d e
  = S (DailyFlowView.enumerationFuel (d + JsDate.msPerDay) e).
Proof.
  intros Hle. unfold DailyFlowView.enumerationFuel, JsDate.msPerDay.
  replace (e - d) with ((e - (d + 86400000)) + 1 * 86400000) by lia.
  rewrite Z.div_add by lia.
  assert (-1 <= (e - (d + 86400000)) / 86400000).
  { apply Z.div_le_lower_bound; lia. }
  rewrite <- Z2Nat.inj_succ by lia. f_equal.
Qed.

Lemma enumerationFuel_done (d e : Z) :
  e < d -> DailyFlowView.enumerationFuel d e = O.
Proof.
  intros Hlt. unfold DailyFlowView.enumerationFuel, JsDate.msPerDay.
  assert ((e - d) / 86400000 < 0) by (apply Z.div_lt_upper_bound; lia).
  lia.
Qed.

(** The loop pushes one date per day and stops by its own test as soon as
    the fuel covers the range. *)
Lemma enumerateDates_spec (fuel : nat) :
  forall d e,
    DailyFlowView.enumerateDates fuel d e
    = map (fun i => JsDate.toISODate (d + Z.of_nat i * JsDate.msPerDay))
        (seq 0 (Nat.min fuel (DailyFlowView.enumerationFuel d e))).
Proof.
  induction fuel as [|fuel IH]; intros d e; simpl; auto.
  destruct (Z.leb_spec d e) as [Hle|Hgt].
  - rewrite (enumerationFuel_step d e Hle). simpl.
    f_equal; [f_equal; lia|].
    replace (JsDate.setDate d (JsDate.getDate d + 1))
      with (d + JsDate.msPerDay)
      by (unfold JsDate.setDate, JsDate.getDate;
          rewrite setUTCDate_offset; lia).
    rewrite IH, <- seq_shift, map_map.
    apply map_ext. intros i. f_equal. lia.
  - now rewrite (enumerationFuel_done d e Hgt).
Qed.

Lemma enumerateDates_enough (fuel : nat) (d e : Z) :
  (DailyFlowView.enumerationFuel d e <= fuel)%nat ->
  DailyFlowView.enumerateDates fuel d e
  = DailyFlowView.enumerateDates (DailyFlowView.enumerationFuel d e) d e.
Proof.
  intros H. rewrite !enumerateDates_spec.
  now rewrite Nat.min_id, Nat.min_r.
Qed.



End EnumerationFacts.

(** ** Empty views and complete ranges *)


Section RangeFacts.

Variable transactions : list Transaction.t.
Variable guides : list Guide.t.
Variables startDateFilter endDateFilter : option string.
Variable useME : bool.

Let fd :=
  DailyFlowView.flowData transactions guides startDateFilter endDateFilter
    useME.




End RangeFacts.



(** ** Signs of the totals *)

Lemma sumQ_filter_nonneg {A : Type} (f : A -> Q) (p : A -> bool)
    (l : list A) :
  (forall x, In x l -> p x = true -> 0 <= f x) -> 0 <= sumQ f (filter p l).
Proof.
  induction l as [|x l IH]; intros H; simpl; [lra|].
  assert (0 <= sumQ f (filter p l)) by (apply IH; intros; apply H; simpl; auto).
  destruct (p x) eqn:E; simpl; auto.
  assert (0 <= f x) by (apply H; simpl; auto). lra.
Qed.

Lemma sumQ_filter_nonpos {A : Type} (f : A -> Q) (p : A -> bool)
    (l : list A) :
  (forall x, In x l -> p x = true -> f x <= 0) -> sumQ f (filter p l) <= 0.
Proof.
  induction l as [|x l IH]; intros H; simpl; [lra|].
  assert (sumQ f (filter p l) <= 0) by (apply IH; intros; apply H; simpl; auto).
  destruct (p x) eqn:E; simpl; auto.
  assert (f x <= 0) by (apply H; simpl; auto). lra.
Qed.

Lemma closedForm_signs (bucketOf : Transaction.t -> string) (useME : bool)
    (b : string) (l : list Transaction.t) (t : Totals) :
  (forall x, In x l -> signAgrees useME x) ->
  closedForm bucketOf (amountOf useME) b l t ->
  expense t <= 0 /\ transferNet bucketOf (amountOf useME) b l <= income t.
Proof.
  intros Hs (Hi & He & _). rewrite Hi, He. split.
  - apply sumQ_filter_nonpos. intros x Hx Hp.
    apply andb_true_iff in Hp as [_ Hp].
    apply andb_true_iff in Hp as [Ht Hn].
    apply negb_true_iff in Ht, Hn.
    specialize (Hs x Hx Ht). now rewrite Hn in Hs.
  - assert (0 <= incomeLegs bucketOf (amountOf useME) b l); [|lra].
    apply sumQ_filter_nonneg. intros x Hx Hp.
    apply andb_true_iff in Hp as [_ Hp].
    apply andb_true_iff in Hp as [Ht Hn].
    apply negb_true_iff in Ht.
    specialize (Hs x Hx Ht). now rewrite Hn in Hs.
Qed.

Lemma monthly_totals (transactions : list Transaction.t)
    (guides : list Guide.t) (useME : bool) (selectedYear : Z) :
  let fd := MonthlyFlowView.flowData transactions guides useME selectedYear in
  MonthlyFlowView.dataByGuide fd
  = fst (singlePass MonthlyFlowView.monthOf (amountOf useME)
           (getGuideName guides) (MonthlyFlowView.monthsOf selectedYear)
           (filter (MonthlyFlowView.inYear selectedYear) transactions))
  /\ MonthlyFlowView.monthlyTotals fd
     = snd (singlePass MonthlyFlowView.monthOf (amountOf useME)
              (getGuideName guides) (MonthlyFlowView.monthsOf selectedYear)
              (filter (MonthlyFlowView.inYear selectedYear) transactions)).
Proof. split; reflexivity. Qed.

(** C7 (as the code has it).  When the amount of every transaction that
    is not a transfer agrees in sign with its type, every bucket of the
    daily and of the monthly view has an expense total that is at most 0
    and an income total that is at least the net of the bucket's transfer
    legs: the income total carries that signed net, so it is at least 0
    exactly when the transfers do not outweigh the incomes. *)
Theorem totals_signs
    (transactions : list Transaction.t) (guides : list Guide.t)
    (startDateFilter endDateFilter : option string) (useME : bool)
    (selectedYear : Z) :
  (forall x, In x transactions -> signAgrees useME x) ->
  (forall b t,
      JsMap.get b
        (DailyFlowView.dailyTotals
           (DailyFlowView.flowData transactions guides startDateFilter
              endDateFilter useME)) = Some t ->
      expense t <= 0
      /\ transferNet Transaction.date (amountOf useME) b
           (shown transactions startDateFilter endDateFilter) <= income t)
  /\ (forall b t,
        JsMap.get b
          (MonthlyFlowView.monthlyTotals
             (MonthlyFlowView.flowData transactions guides useME
                selectedYear)) = Some t ->
        expense t <= 0
        /\ transferNet MonthlyFlowView.monthOf (amountOf useME) b
             (filter (MonthlyFlowView.inYear selectedYear) transactions)
           <= income t).
Proof.
  intros Hs. split; intros b t Hget.
  - destruct (flowData_cases transactions guides startDateFilter
                endDateFilter useME) as [(_ & _ & _ & Ht)|(_ & _ & Ht)];
      rewrite Ht in Hget; [discriminate|].
    apply twoPhase_closedForm in Hget.
    apply (closedForm_perm _ _ _ _ _ _
             (sortWith_perm DailyFlowView.byDate
                (shown transactions startDateFilter endDateFilter)))
      in Hget.
    apply closedForm_signs in Hget; auto.
    intros x Hx. apply Hs. unfold shown in Hx.
    apply filter_In in Hx as [Hx _]. now apply filter_In in Hx as [Hx _].
  - destruct (monthly_totals transactions guides useME selectedYear)
      as [_ Ht].
    rewrite Ht in Hget. apply singlePass_closedForm in Hget.
    apply closedForm_signs in Hget; auto.
    intros x Hx. apply Hs. now apply filter_In in Hx as [Hx _].
Qed.

Lemma totals_signs_witness :
  (forall x, In x scenarioTransactions -> signAgrees false x)
  /\ (forall b t,
        JsMap.get b
          (DailyFlowView.dailyTotals
             (DailyFlowView.flowData scenarioTransactions scenarioGuides
                None None false)) = Some t ->
        expense t <= 0
        /\ transferNet Transaction.date (amountOf false) b
             (shown scenarioTransactions None None) <= income t).
Proof.
  assert (H : forall x, In x scenarioTransactions -> signAgrees false x).
  { intros x [<-|[<-|[<-|[]]]]; unfold signAgrees; simpl;
      intros; discriminate. }
  split; [exact H|].
  exact (proj1 (totals_signs scenarioTransactions scenarioGuides None None
                  false 2024 H)).
Defined.

(** C7, the claim as stated fails: in the scenario of the specification
    the bucket 2024-01-06 has an income total of -50. *)
Lemma income_total_can_be_negative :
  exists t,
    JsMap.get "2024-01-06"
      (DailyFlowView.dailyTotals
         (DailyFlowView.flowData scenarioTransactions scenarioGuides None
            None false)) = Some t
    /\ income t == -50
    /\ ~ 0 <= income t.
Proof.
  eexists. split; [vm_compute; reflexivity|].
  split; [reflexivity|]. unfold Qle. simpl. lia.
Qed.

(** ** Category sums *)

(** C6 fails in the daily view when the transfer category shares its
    display name with another category: the transfer net overwrites the
    other category's cell, so the categories of the bucket sum to 50 while
    the net total is 150.  The monthly view accumulates instead and keeps
    the two equal. *)
Lemma daily_net_differs_from_category_sum :
  let fd :=
    DailyFlowView.flowData collidingTransactions [] None None false in
  let md := MonthlyFlowView.flowData collidingTransactions [] false 2024 in
  DailyFlowView.dataByGuide fd
  = [("Sin Categoría", [("2024-01-05", 50)])]%string
  /\ JsMap.get "2024-01-05" (DailyFlowView.dailyTotals fd)
     = Some (mkTotals 150 0 150)
  /\ categorySum "2024-01-05" (DailyFlowView.dataByGuide fd) == 50
  /\ categorySum "2024-01" (MonthlyFlowView.dataByGuide md) == 150
  /\ JsMap.get "2024-01" (MonthlyFlowView.monthlyTotals md)
     = Some (mkTotals 150 0 150).
Proof. vm_compute. repeat split; reflexivity || discriminate. Qed.

Section CategorySums.

Variable bucketOf : Transaction.t -> string.
Variable amount : Transaction.t -> Q.
Variable guideNameOf : string -> string.

Local Abbreviation inBucket := (inBucket bucketOf).
Local Abbreviation transferNet := (transferNet bucketOf amount).
Local Abbreviation incomeLegs := (incomeLegs bucketOf amount).
Local Abbreviation expenseLegs := (expenseLegs bucketOf amount).
Local Abbreviation bucketNet := (bucketNet bucketOf amount).

(** Replacing (or adding) the row of a guide changes the sum of a bucket
    by the difference of the two rows' cells. *)
Lemma categorySum_set (b name : string) (row : JsMap.t Q)
    (data : JsMap.t (JsMap.t Q)) :
  categorySum b (JsMap.set name row data)
  == categorySum b data - getOr0 b (guideDataOf name data) + getOr0 b row.
Proof.
  unfold categorySum, guideDataOf.
  induction data as [|[k r] data IH]; simpl.
  - unfold getOr0. simpl. ring.
  - destruct (String.eqb name k); simpl; [ring|].
    rewrite IH. ring.
Qed.

Lemma guideDataOf_ensureGuide (name : string) (data : JsMap.t (JsMap.t Q)) :
  guideDataOf name (ensureGuide name data) = guideDataOf name data.
Proof.
  unfold ensureGuide, JsMap.has, guideDataOf.
  destruct (JsMap.get name data) eqn:E.
  - now rewrite E.
  - now rewrite get_set_same.
Qed.

Lemma categorySum_ensureGuide (b name : string)
    (data : JsMap.t (JsMap.t Q)) :
  categorySum b (ensureGuide name data) == categorySum b data.
Proof.
  unfold ensureGuide, JsMap.has.
  destruct (JsMap.get name data) eqn:E; [reflexivity|].
  rewrite categorySum_set. unfold guideDataOf. rewrite E.
  unfold getOr0. simpl. ring.
Qed.

Lemma categorySum_accumulateCell (b name key : string) (x : Q)
    (data : JsMap.t (JsMap.t Q)) :
  categorySum b (accumulateCell name key x data)
  == categorySum b data + (if String.eqb b key then x else 0).
Proof.
  unfold accumulateCell. cbv zeta.
  rewrite categorySum_set, guideDataOf_ensureGuide, categorySum_ensureGuide,
    getOr0_set.
  destruct (String.eqb_spec b key) as [->|Hne]; ring.
Qed.

Lemma get_ensureGuide_other (name name' : string)
    (data : JsMap.t (JsMap.t Q)) :
  name <> name' ->
  JsMap.get name (ensureGuide name' data) = JsMap.get name data.
Proof.
  intros Hne. unfold ensureGuide.
  destruct (JsMap.has name' data); auto. now apply get_set_other.
Qed.

Lemma get_accumulateCell_other (name name' key : string) (x : Q)
    (data : JsMap.t (JsMap.t Q)) :
  name <> name' ->
  JsMap.get name (accumulateCell name' key x data) = JsMap.get name data.
Proof.
  intros Hne. unfold accumulateCell. cbv zeta.
  rewrite get_set_other by assumption. now apply get_ensureGuide_other.
Qed.

(** *** Single pass *)

Lemma categorySum_dataByGuidePass (b : string) (l : list Transaction.t) :
  categorySum b (dataByGuidePass bucketOf amount guideNameOf l)
  == bucketNet b l.
Proof.
  unfold dataByGuidePass.
  assert (H : forall data,
             categorySum b
               (fold_left
                  (fun dataByGuide t =>
                     accumulateCell (guideNameOf (Transaction.guide t))
                       (bucketOf t) (amount t) dataByGuide) l data)
             == categorySum b data + bucketNet b l).
  { unfold bucketNet. induction l as [|t l IH]; intros data; simpl.
    - ring.
    - rewrite IH, categorySum_accumulateCell. unfold inBucket.
      rewrite (String.eqb_sym b (bucketOf t)).
      destruct (String.eqb (bucketOf t) b); simpl; ring. }
  rewrite H. unfold categorySum, JsMap.empty. simpl. ring.
Qed.

(** *** Two phases *)

Lemma fst_fold_nonTransferStep (l : list Transaction.t) :
  forall st,
    fst (fold_left (nonTransferStep bucketOf amount guideNameOf) l st)
    = fold_left
        (fun d t =>
           if negb (isTransfer t) then
             accumulateCell (guideNameOf (Transaction.guide t)) (bucketOf t)
               (amount t) d
           else d)
        l (fst st).
Proof.
  induction l as [|t l IH]; intros [d m]; simpl; auto.
  rewrite IH. unfold nonTransferStep.
  now destruct (negb (isTransfer t)).
Qed.

Lemma categorySum_nonTransfers (b : string) (l : list Transaction.t) :
  forall data,
    categorySum b
      (fold_left
         (fun d t =>
            if negb (isTransfer t) then
              accumulateCell (guideNameOf (Transaction.guide t)) (bucketOf t)
                (amount t) d
            else d)
         l data)
    == categorySum b data + (incomeLegs b l + expenseLegs b l).
Proof.
  unfold incomeLegs, expenseLegs.
  induction l as [|t l IH]; intros data; simpl.
  - ring.
  - rewrite IH. unfold inBucket.
    destruct (isTransfer t); simpl.
    + rewrite !andb_false_r. ring.
    + rewrite categorySum_accumulateCell.
      rewrite (String.eqb_sym b (bucketOf t)).
      destruct (String.eqb (bucketOf t) b); simpl;
        destruct (isIncome t); simpl; ring.
Qed.

(** A row that no transaction outside the transfers is named after is
    not created by the second pass. *)
Lemma get_nonTransfers_other (name : string) (l : list Transaction.t) :
  (forall t, In t l -> isTransfer t = false ->
             guideNameOf (Transaction.guide t) <> name) ->
  forall data,
    JsMap.get name
      (fold_left
         (fun d t =>
            if negb (isTransfer t) then
              accumulateCell (guideNameOf (Transaction.guide t)) (bucketOf t)
                (amount t) d
            else d)
         l data)
    = JsMap.get name data.
Proof.
  induction l as [|t l IH]; intros Hl data; simpl; auto.
  rewrite IH by (intros t' Ht'; apply Hl; now right).
  destruct (isTransfer t) eqn:E; simpl; auto.
  apply get_accumulateCell_other.
  intros Heq. apply (Hl t (or_introl eq_refl) E). now symmetry.
Qed.

Lemma categorySum_fold_assign (b name : string)
    (entries : list (string * Q)) :
  NoDup (JsMap.keys entries) ->
  forall d,
    (forall e, In e entries ->
               JsMap.get (fst e) (guideDataOf name d) = None) ->
    categorySum b
      (fold_left (fun d e => assignCell name (fst e) (snd e) d) entries d)
    == categorySum b d + getOr0 b entries.
Proof.
  induction entries as [|[k v] l IH]; intros Hnd d Hfree; simpl.
  - unfold getOr0. simpl. ring.
  - inversion Hnd as [|? ? Hk Hl]; subst.
    rewrite IH; auto.
    + unfold assignCell. cbv zeta.
      rewrite categorySum_set, getOr0_set.
      assert (Ehd : getOr0 b ((k, v) :: l)
                    = if String.eqb b k then v else getOr0 b l).
      { unfold getOr0. simpl. now destruct (String.eqb b k). }
      rewrite Ehd.
      destruct (String.eqb_spec b k) as [->|Hne]; [|ring].
      assert (E1 : getOr0 k (guideDataOf name d) = 0).
      { pose proof (Hfree (k, v) (or_introl eq_refl)) as H0. simpl in H0.
        unfold getOr0. now rewrite H0. }
      assert (E2 : getOr0 k l = 0).
      { unfold getOr0. apply get_None_keys in Hk. now rewrite Hk. }
      rewrite E1, E2. ring.
    + intros e He. rewrite guideDataOf_assignCell.
      rewrite get_set_other; [apply Hfree; now right|].
      intros Heq. apply Hk. rewrite <- Heq. now apply in_map.
Qed.

Lemma categorySum_twoPhase (buckets : list string)
    (l : list Transaction.t) (b : string) :
  (forall t, In t l -> isTransfer t = false ->
             guideNameOf (Transaction.guide t) <> guideNameOf transferGuideId) ->
  categorySum b (fst (twoPhase bucketOf amount guideNameOf buckets l))
  == bucketNet b l.
Proof.
  intros Hnames. rewrite bucketNet_split.
  rewrite <- (netTransfers_sum bucketOf amount l b).
  unfold twoPhase.
  destruct (0 <? JsMap.size (netTransfers bucketOf amount l))%nat eqn:Hs.
  - rewrite fst_fold_transferStep. cbn [fst].
    rewrite categorySum_fold_assign.
    + rewrite categorySum_ensureGuide, fst_fold_nonTransferStep.
      rewrite categorySum_nonTransfers. cbn [fst].
      unfold categorySum, JsMap.empty. simpl. ring.
    + apply netTransfers_NoDup.
    + intros e _. rewrite guideDataOf_ensureGuide.
      unfold guideDataOf.
      rewrite fst_fold_nonTransferStep, get_nonTransfers_other by assumption.
      reflexivity.
  - rewrite fst_fold_nonTransferStep, categorySum_nonTransfers. cbn [fst].
    destruct (netTransfers bucketOf amount l); [|simpl in Hs; discriminate].
    unfold categorySum, JsMap.empty, getOr0. simpl. ring.
Qed.

End CategorySums.


(** X1 (the part of C6 that holds in the monthly view).  The totals of
    every month satisfy income + expense = net, and the net is the sum
    over all rows of the month's cell. *)
Theorem monthly_net_is_category_sum
    (transactions : list Transaction.t) (guides : list Guide.t)
    (useME : bool) (selectedYear : Z) (b : string) (t : Totals) :
  let fd := MonthlyFlowView.flowData transactions guides useME selectedYear in
  JsMap.get b (MonthlyFlowView.monthlyTotals fd) = Some t ->
  income t + expense t == net t
  /\ net t == categorySum b (MonthlyFlowView.dataByGuide fd).
Proof.
  intros fd Hget.
  destruct (monthly_totals transactions guides useME selectedYear)
    as [Hd Ht].
  fold fd in Hd, Ht. rewrite Ht in Hget.
  apply singlePass_closedForm in Hget as (Hi & He & Hn).
  split.
  - rewrite Hi, He, Hn, bucketNet_split. ring.
  - rewrite Hd, Hn. unfold singlePass. cbn [fst].
    symmetry. apply categorySum_dataByGuidePass.
Qed.

Lemma monthly_net_is_category_sum_witness :
  let fd :=
    MonthlyFlowView.flowData scenarioTransactions scenarioGuides false 2024 in
  JsMap.get "2024-01" (MonthlyFlowView.monthlyTotals fd)
  = Some (mkTotals 100 0 100)
  /\ 100 + 0 == 100
  /\ 100 == categorySum "2024-01" (MonthlyFlowView.dataByGuide fd).
Proof.
  intros fd.
  assert (H : JsMap.get "2024-01" (MonthlyFlowView.monthlyTotals fd)
              = Some (mkTotals 100 0 100)) by (vm_compute; reflexivity).
  split; [exact H|].
  exact (monthly_net_is_category_sum scenarioTransactions scenarioGuides
           false 2024 "2024-01" (mkTotals 100 0 100) H).
Defined.

(** X2 (the part of C6 that holds in the daily view).  The totals of
    every day satisfy income + expense = net; and when no shown
    transaction outside the transfers resolves to the display name of the
    transfer category, the net is the sum over all rows of the day's
    cell. *)
Theorem daily_net_is_category_sum
    (transactions : list Transaction.t) (guides : list Guide.t)
    (startDateFilter endDateFilter : option string) (useME : bool)
    (b : string) (t : Totals) :
  let fd :=
    DailyFlowView.flowData transactions guides startDateFilter endDateFilter
      useME in
  JsMap.get b (DailyFlowView.dailyTotals fd) = Some t ->
  income t + expense t == net t
  /\ (transferNameApart guides
        (shown transactions startDateFilter endDateFilter) ->
      net t == categorySum b (DailyFlowView.dataByGuide fd)).
Proof.
  intros fd Hget.
  destruct (flowData_cases transactions guides startDateFilter endDateFilter
              useME) as [(_ & _ & _ & Ht)|(_ & Hd & Ht)];
    fold fd in Ht; rewrite Ht in Hget; [discriminate|].
  fold fd in Hd.
  apply twoPhase_closedForm in Hget as (Hi & He & Hn).
  split.
  - rewrite Hi, He, Hn, bucketNet_split. ring.
  - intros Hapart. rewrite Hd, Hn. symmetry.
    apply categorySum_twoPhase.
    intros x Hx. apply Hapart.
    eapply Permutation_in; [apply sortWith_perm | exact Hx].
Qed.

Lemma daily_net_is_category_sum_witness :
  let fd :=
    DailyFlowView.flowData scenarioTransactions scenarioGuides None None
      false in
  JsMap.get "2024-01-05" (DailyFlowView.dailyTotals fd)
  = Some (mkTotals 150 0 150)
  /\ transferNameApart scenarioGuides (shown scenarioTransactions None None)
  /\ 150 + 0 == 150
  /\ 150 == categorySum "2024-01-05" (DailyFlowView.dataByGuide fd).
Proof.
  intros fd.
  assert (H : JsMap.get "2024-01-05" (DailyFlowView.dailyTotals fd)
              = Some (mkTotals 150 0 150)) by (vm_compute; reflexivity).
  assert (Hapart : transferNameApart scenarioGuides
                     (shown scenarioTransactions None None)).
  { intros x [<-|[<-|[<-|[]]]]; vm_compute; intros; discriminate. }
  destruct (daily_net_is_category_sum scenarioTransactions scenarioGuides
              None None false "2024-01-05" (mkTotals 150 0 150) H)
    as [Hc Hs].
  split; [exact H|]. split; [exact Hapart|]. split; [exact Hc|].
  exact (Hs Hapart).
Defined.

(** ** Comparisons on rationals *)

Lemma Qltb_lt (x y : Q) : Qltb x y = true <-> x < y.
Proof.
  unfold Qltb. rewrite negb_true_iff. split.
  - intros H. apply Qnot_le_lt. intros Hle.
    apply Qle_bool_iff in Hle. congruence.
  - intros H. destruct (Qle_bool y x) eqn:E; auto.
    apply Qle_bool_iff in E. exfalso. now apply (Qlt_not_le x y).
Qed.

Lemma Qltb_ge (x y : Q) : Qltb x y = false <-> y <= x.
Proof.
  unfold Qltb. rewrite negb_false_iff. apply Qle_bool_iff.
Qed.

Lemma Qgtb_gt (x y : Q) : Qgtb x y = true <-> y < x.
Proof. apply Qltb_lt. Qed.

Lemma Qgtb_le (x y : Q) : Qgtb x y = false <-> x <= y.
Proof. apply Qltb_ge. Qed.

Lemma Qneqb_neq (x y : Q) : Qneqb x y = true <-> ~ x == y.
Proof.
  unfold Qneqb. rewrite negb_true_iff. split.
  - intros H E. apply Qeq_bool_iff in E. congruence.
  - intros H. destruct (Qeq_bool x y) eqn:E; auto.
    apply Qeq_bool_iff in E. contradiction.
Qed.

(** ** Maps built by a loop of [set] *)

Lemma fold_left_ext {A B : Type} (f g : A -> B -> A) (l : list B) :
  (forall a b, g a b = f a b) ->
  forall a, fold_left g l a = fold_left f l a.
Proof.
  intros H. induction l as [|b l IH]; intros a; simpl; auto.
  now rewrite H, IH.
Qed.

Lemma NoDup_keys_fold_set {A V : Type} (step : JsMap.t V -> A -> JsMap.t V)
    (l : list A) :
  (forall m a, NoDup (JsMap.keys m) -> NoDup (JsMap.keys (step m a))) ->
  forall m, NoDup (JsMap.keys m) -> NoDup (JsMap.keys (fold_left step l m)).
Proof.
  intros Hstep. induction l as [|a l IH]; intros m Hm; simpl; auto.
Qed.

Lemma get_fold_set_with {V W : Type} (f : string * V -> W)
    (entries : JsMap.t V) (b : string) :
  NoDup (JsMap.keys entries) ->
  forall acc : JsMap.t W,
    JsMap.get b
      (fold_left (fun acc e => JsMap.set (fst e) (f e) acc) entries acc)
    = match JsMap.get b entries with
      | Some v => Some (f (b, v))
      | None => JsMap.get b acc
      end.
Proof.
  induction entries as [|[k v] l IH]; intros Hnd acc; simpl; auto.
  inversion Hnd as [|? ? Hk Hl]; subst.
  rewrite IH by assumption. rewrite get_set.
  destruct (String.eqb_spec b k) as [->|Hne]; auto.
  apply get_None_keys in Hk. now rewrite Hk.
Qed.

(** ** The forecast: averages and dampening *)

Section AverageFacts.

Variable useME : bool.
Variable transactions : list Transaction.t.
Variable guides : list Guide.t.
Variable selectedYear : Z.
Variable excludedGuideIds : list string.

Let base :=
  ForecastedMonthlyFlowView.baseMonthlyAverages useME transactions guides
    excludedGuideIds.
Let previous :=
  ForecastedMonthlyFlowView.previousYearTotals useME transactions guides
    selectedYear excludedGuideIds.
Let cat := ForecastedMonthlyFlowView.catalogOf guides excludedGuideIds.
Let lastRealDate := ForecastedMonthlyFlowView.lastRealDateOf transactions.

Lemma sumsByGuide_NoDup :
  NoDup (JsMap.keys
           (ForecastedMonthlyFlowView.sumsByGuide useME transactions guides
              excludedGuideIds)).
Proof.
  unfold ForecastedMonthlyFlowView.sumsByGuide.
  apply NoDup_keys_fold_set; [|constructor].
  intros m a Hm. now apply NoDup_keys_set.
Qed.

Lemma baseMonthlyAverages_NoDup : NoDup (JsMap.keys base).
Proof.
  subst base. unfold ForecastedMonthlyFlowView.baseMonthlyAverages.
  destruct (0 <? _)%nat; [|constructor].
  apply NoDup_keys_fold_set; [|constructor].
  intros m a Hm. now apply NoDup_keys_set.
Qed.

(** The dampened average of a guide, as the loop over the base averages
    leaves it. *)
Lemma adjusted_get (g : string) :
  JsMap.get g
    (ForecastedMonthlyFlowView.adjustedMonthlyAverages useME transactions
       guides selectedYear excludedGuideIds)
  = match JsMap.get g base with
    | Some avg =>
        Some (if Qgtb (Qabs (avg * 12)) (Qabs (getOr0 g previous))
                 && Qneqb (getOr0 g previous) 0
              then getOr0 g previous / 12 else avg)
    | None => None
    end.
Proof.
  unfold ForecastedMonthlyFlowView.adjustedMonthlyAverages.
  fold base. fold previous.
  rewrite (fold_left_ext
             (fun adjusted entry =>
                JsMap.set (fst entry)
                  ((fun e =>
                      if Qgtb (Qabs (snd e * 12))
                           (Qabs (getOr0 (fst e) previous))
                         && Qneqb (getOr0 (fst e) previous) 0
                      then getOr0 (fst e) previous / 12 else snd e) entry)
                  adjusted)).
  - rewrite get_fold_set_with by apply baseMonthlyAverages_NoDup.
    now destruct (JsMap.get g base).
  - intros adjusted entry. simpl.
    now destruct (Qgtb _ _ && Qneqb _ _).
Qed.

End AverageFacts.

(** ** The total of the preceding year *)

Section PriorYearFacts.

Variable useME : bool.
Variable transactions : list Transaction.t.
Variable guides : list Guide.t.
Variable selectedYear : Z.
Variable excludedGuideIds : list string.

Let base :=
  ForecastedMonthlyFlowView.baseMonthlyAverages useME transactions guides
    excludedGuideIds.
Let cat := ForecastedMonthlyFlowView.catalogOf guides excludedGuideIds.
Let lastRealDate := ForecastedMonthlyFlowView.lastRealDateOf transactions.

Local Abbreviation actualMonthTotal := (actualMonthTotal useME transactions).
Local Abbreviation priorYearValue :=
  (priorYearValue useME transactions guides excludedGuideIds).
Local Abbreviation priorYearTotal :=
  (priorYearTotal useME transactions guides selectedYear excludedGuideIds).
Local Abbreviation isRegular := (isRegular guides excludedGuideIds).

Lemma sum_of_key_NoDup (entries : JsMap.t Q) (g : string) :
  NoDup (JsMap.keys entries) ->
  sumQ snd (filter (fun e => String.eqb (fst e) g) entries)
  == getOr0 g entries.
Proof.
  unfold getOr0.
  induction entries as [|[k v] l IH]; intros Hnd; simpl; [reflexivity|].
  inversion Hnd as [|? ? Hk Hl]; subst.
  rewrite (String.eqb_sym g k).
  destruct (String.eqb_spec k g) as [->|Hne]; simpl.
  - apply get_None_keys in Hk. rewrite Hk in IH. rewrite IH by assumption.
    ring.
  - now apply IH.
Qed.

Lemma previousYearStep_forecast (g : string) (entries : JsMap.t Q)
    (step : JsMap.t Q -> string * Q -> JsMap.t Q) :
  (forall totals e,
      fst e = g ->
      step totals e = JsMap.set g (getOr0 g totals + snd e) totals) ->
  (forall totals e,
      fst e <> g ->
      step totals e = totals
      \/ exists v, step totals e = JsMap.set (fst e) v totals) ->
  forall totals,
    getOr0 g (fold_left step entries totals)
    == getOr0 g totals
       + sumQ snd (filter (fun e => String.eqb (fst e) g) entries).
Proof.
  intros Hsame Hother.
  induction entries as [|e l IH]; intros totals; simpl; [ring|].
  rewrite IH.
  destruct (String.eqb_spec (fst e) g) as [E|E]; simpl.
  - rewrite (Hsame totals e E), getOr0_set, String.eqb_refl. ring.
  - destruct (Hother totals e E) as [->|[v ->]]; [reflexivity|].
    rewrite getOr0_set.
    destruct (String.eqb_spec g (fst e)); [congruence | reflexivity].
Qed.

Lemma previousYearStep_actual (g month : string) (ids : list string)
    (init : option string) (l : list Transaction.t) :
  ForecastedMonthlyFlowView.memStr g ids = true ->
  g <> EmptyString ->
  ForecastedMonthlyFlowView.idIs init g = false ->
  forall totals,
    getOr0 g
      (fold_left
         (fun totals t =>
            if negb (String.eqb (Transaction.guide t) "") then
              JsMap.set (Transaction.guide t)
                (getOr0 (Transaction.guide t) totals + amountOf useME t)
                totals
            else totals)
         (filter
            (fun t =>
               String.eqb (ForecastedMonthlyFlowView.monthOf t) month
               && ForecastedMonthlyFlowView.memStr (Transaction.guide t) ids
               && negb (ForecastedMonthlyFlowView.idIs init
                          (Transaction.guide t)))
            l)
         totals)
    == getOr0 g totals
       + sumQ (amountOf useME)
           (filter
              (fun t =>
                 String.eqb (ForecastedMonthlyFlowView.monthOf t) month
                 && String.eqb (Transaction.guide t) g)
              l).
Proof.
  intros Hact Hne Hinit.
  induction l as [|t l IH]; intros totals; simpl; [ring|].
  destruct (String.eqb_spec (ForecastedMonthlyFlowView.monthOf t) month)
    as [Em|Em]; simpl; [|apply IH].
  destruct (String.eqb_spec (Transaction.guide t) g) as [Eg|Eg]; simpl.
  - rewrite Eg, Hact, Hinit. simpl. rewrite Eg.
    apply String.eqb_neq in Hne. rewrite Hne. simpl.
    rewrite IH, getOr0_set, String.eqb_refl. ring.
  - destruct (_ && _); simpl; [|apply IH].
    destruct (String.eqb (Transaction.guide t) ""); simpl; [apply IH|].
    rewrite IH, getOr0_set.
    destruct (String.eqb_spec g (Transaction.guide t));
      [congruence | reflexivity].
Qed.

Lemma previousYearStep_value (g : string) (totals : JsMap.t Q)
    (month : string) :
  isRegular g ->
  getOr0 g
    (ForecastedMonthlyFlowView.previousYearStep useME transactions guides
       excludedGuideIds totals month)
  == getOr0 g totals + priorYearValue g month.
Proof.
  intros (Hact & Hne & Hinit & Hagui).
  fold cat in Hact, Hinit, Hagui.
  unfold ForecastedMonthlyFlowView.previousYearStep, priorYearValue.
  fold cat. fold lastRealDate. fold base.
  destruct (ForecastedMonthlyFlowView.isForecastMonth lastRealDate month).
  - rewrite previousYearStep_forecast with (g := g).
    + now rewrite sum_of_key_NoDup by apply baseMonthlyAverages_NoDup.
    + intros tot e E. rewrite E, Hact, Hinit, Hagui. reflexivity.
    + intros tot e E.
      destruct (negb _ || _); [now left|].
      destruct (ForecastedMonthlyFlowView.idIs _ (fst e)).
      * destruct (_ && _); [right; eexists; reflexivity | now left].
      * right. eexists. reflexivity.
  - unfold actualMonthTotal.
    now apply previousYearStep_actual.
Qed.

Lemma previousYearTotals_value (g : string) :
  isRegular g ->
  getOr0 g
    (ForecastedMonthlyFlowView.previousYearTotals useME transactions guides
       selectedYear excludedGuideIds)
  == priorYearTotal g.
Proof.
  intros Hg.
  unfold ForecastedMonthlyFlowView.previousYearTotals, priorYearTotal.
  assert (H : forall months totals,
             getOr0 g
               (fold_left
                  (ForecastedMonthlyFlowView.previousYearStep useME
                     transactions guides excludedGuideIds) months totals)
             == getOr0 g totals + sumQ (priorYearValue g) months).
  { induction months as [|m l IH]; intros totals; simpl; [ring|].
    rewrite IH, previousYearStep_value by assumption. ring. }
  rewrite H. unfold getOr0. simpl. ring.
Qed.

End PriorYearFacts.

(** C4.  When the selected year is after the year of the last real
    transaction, the monthly average in use for a guide is the total of
    the preceding year divided by 12 if the projection (average times 12)
    exceeds that total in magnitude and the total is not 0, and the
    trailing average otherwise; for a guide of the general path the total
    of the preceding year adds the real transactions of its months with
    data and the base average for each of its months after the last real
    date. *)
Theorem year_over_year_dampening
    (useME : bool) (transactions : list Transaction.t)
    (guides : list Guide.t) (selectedYear : Z)
    (excludedGuideIds : list string) (g : string) :
  ForecastedMonthlyFlowView.isFutureYear transactions selectedYear = true ->
  let average :=
    getOr0 g
      (ForecastedMonthlyFlowView.baseMonthlyAverages useME transactions
         guides excludedGuideIds) in
  let priorTotal :=
    getOr0 g
      (ForecastedMonthlyFlowView.previousYearTotals useME transactions
         guides selectedYear excludedGuideIds) in
  let used :=
    getOr0 g
      (ForecastedMonthlyFlowView.monthlyAverages useME transactions guides
         selectedYear excludedGuideIds) in
  (Qabs priorTotal < Qabs (average * 12) /\ ~ priorTotal == 0 ->
   used == priorTotal / 12)
  /\ (~ (Qabs priorTotal < Qabs (average * 12) /\ ~ priorTotal == 0) ->
      used == average)
  /\ (isRegular guides excludedGuideIds g ->
      priorTotal
      == priorYearTotal useME transactions guides selectedYear
           excludedGuideIds g).
Proof.
  intros Hfuture average priorTotal used.
  assert (Hused :
            used
            = match JsMap.get g
                      (ForecastedMonthlyFlowView.baseMonthlyAverages useME
                         transactions guides excludedGuideIds) with
              | Some avg =>
                  if Qgtb (Qabs (avg * 12)) (Qabs priorTotal)
                     && Qneqb priorTotal 0
                  then priorTotal / 12 else avg
              | None => 0
              end).
  { subst used. unfold ForecastedMonthlyFlowView.monthlyAverages.
    rewrite Hfuture. unfold getOr0 at 1. rewrite adjusted_get.
    now destruct (JsMap.get g _). }
  assert (Hcases :
            (Qabs priorTotal < Qabs (average * 12) /\ ~ priorTotal == 0
             -> used == priorTotal / 12)
            /\ (~ (Qabs priorTotal < Qabs (average * 12)
                   /\ ~ priorTotal == 0) -> used == average)).
  { assert (Ha : average
                 = match JsMap.get g
                           (ForecastedMonthlyFlowView.baseMonthlyAverages
                              useME transactions guides excludedGuideIds)
                   with Some a => a | None => 0 end) by reflexivity.
    rewrite Hused, Ha. clear Hused Ha.
    destruct (JsMap.get g _) as [avg|].
    - destruct (Qgtb (Qabs (avg * 12)) (Qabs priorTotal)) eqn:E1;
        destruct (Qneqb priorTotal 0) eqn:E2; cbn [andb]; split; intros H;
        try reflexivity.
      + exfalso. apply H. split.
        * apply Qgtb_gt. exact E1.
        * apply Qneqb_neq. exact E2.
      + destruct H as [_ H]. apply Qneqb_neq in H. congruence.
      + destruct H as [H _]. apply Qgtb_gt in H. congruence.
      + destruct H as [H _]. apply Qgtb_gt in H. congruence.
    - split; intros H; [|reflexivity].
      destruct H as [H _]. exfalso.
      assert (E : Qabs (0 * 12) == 0) by reflexivity. rewrite E in H.
      pose proof (Qabs_nonneg priorTotal). lra. }
  destruct Hcases as [H1 H2]. split; [exact H1|]. split; [exact H2|].
  intros Hreg. now apply previousYearTotals_value.
Qed.

(** For 2025 the sales average 2320/3 projects to 9280, above the 6960 of
    2024 (2320 real plus six forecast months), so 6960/12 = 580 is used. *)
Lemma year_over_year_dampening_witness :
  ForecastedMonthlyFlowView.isFutureYear sampleTransactions 2025 = true
  /\ getOr0 "1"
       (ForecastedMonthlyFlowView.monthlyAverages false sampleTransactions
          sampleGuides 2025 [])
     == 580.
Proof.
  split; [reflexivity|].
  destruct (year_over_year_dampening false sampleTransactions sampleGuides
              2025 [] "1" eq_refl) as (H & _ & _).
  rewrite H.
  - vm_compute. reflexivity.
  - split.
    + vm_compute. reflexivity.
    + vm_compute. discriminate.
Defined.

(** ** The forecast table: what a step may change *)

Section TableFacts.

Lemma rowOf_putCell (id id' m : string) (c : Cell.t)
    (data : JsMap.t (JsMap.t Cell.t)) :
  ForecastedMonthlyFlowView.rowOf id
    (ForecastedMonthlyFlowView.putCell id' m c data)
  = if String.eqb id id'
    then JsMap.set m c (ForecastedMonthlyFlowView.rowOf id data)
    else ForecastedMonthlyFlowView.rowOf id data.
Proof.
  unfold ForecastedMonthlyFlowView.putCell, ForecastedMonthlyFlowView.rowOf,
    JsMap.has.
  destruct (String.eqb_spec id id') as [->|Hne].
  - rewrite get_set_same.
    destruct (JsMap.get id' data) eqn:E; [now rewrite E|].
    now rewrite get_set_same.
  - rewrite get_set_other by assumption.
    destruct (JsMap.get id' data); auto.
    now rewrite get_set_other.
Qed.

Lemma cellAt_putCell (id m id' m' : string) (c : Cell.t)
    (data : JsMap.t (JsMap.t Cell.t)) :
  cellAt id m (ForecastedMonthlyFlowView.putCell id' m' c data)
  = if String.eqb id id' && String.eqb m m' then Some c
    else cellAt id m data.
Proof.
  unfold cellAt. rewrite rowOf_putCell.
  destruct (String.eqb id id'); simpl; auto.
  apply get_set.
Qed.

Lemma cellAt_empty (id m : string) : cellAt id m JsMap.empty = None.
Proof. reflexivity. Qed.

End TableFacts.

Section StepFacts.

Variable useME : bool.
Variable random : nat -> Q.
Variable transactions : list Transaction.t.
Variable guides : list Guide.t.
Variable selectedYear : Z.
Variable excludedGuideIds : list string.

Let cat := ForecastedMonthlyFlowView.catalogOf guides excludedGuideIds.
Let lastRealDate := ForecastedMonthlyFlowView.lastRealDateOf transactions.
Let forecastGuide :=
  ForecastedMonthlyFlowView.forecastGuide useME random transactions guides
    selectedYear excludedGuideIds.
Let vatStep :=
  ForecastedMonthlyFlowView.vatStep guides excludedGuideIds.
Let monthStep :=
  ForecastedMonthlyFlowView.monthStep useME random transactions guides
    selectedYear excludedGuideIds.

Local Abbreviation dataOf := ForecastedMonthlyFlowView.dataByGuide.
Local Abbreviation vatOf := ForecastedMonthlyFlowView.vatDetailsByMonth.
Local Abbreviation corrOf := ForecastedMonthlyFlowView.forecastCorrection.

Lemma actualStep_cellAt (id m m' : string)
    (data : JsMap.t (JsMap.t Cell.t)) (t : Transaction.t) :
  m <> m' ->
  cellAt id m (ForecastedMonthlyFlowView.actualStep useME m' data t)
  = cellAt id m data.
Proof.
  intros Hne. unfold ForecastedMonthlyFlowView.actualStep.
  destruct (String.eqb (Transaction.guide t) ""); auto.
  rewrite cellAt_putCell.
  apply String.eqb_neq in Hne. rewrite Hne. now rewrite andb_false_r.
Qed.

Lemma forecastGuide_vat (m : string) (st : ForecastedMonthlyFlowView.State)
    (g : Guide.t) :
  vatOf (forecastGuide m st g) = vatOf st.
Proof.
  subst forecastGuide. unfold ForecastedMonthlyFlowView.forecastGuide.
  destruct (ForecastedMonthlyFlowView.idIs _ _); auto.
  now destruct (ForecastedMonthlyFlowView.forecastAmount _ _ _ _ _ _ _ _ _ _)
    as [[amt c] n].
Qed.

Lemma forecastGuide_cellAt (id m0 m : string)
    (st : ForecastedMonthlyFlowView.State) (g : Guide.t) :
  m0 <> m \/ id <> Guide.id g ->
  cellAt id m0 (dataOf (forecastGuide m st g)) = cellAt id m0 (dataOf st).
Proof.
  intros Hne. subst forecastGuide.
  unfold ForecastedMonthlyFlowView.forecastGuide.
  destruct (ForecastedMonthlyFlowView.idIs _ _); auto.
  destruct (ForecastedMonthlyFlowView.forecastAmount _ _ _ _ _ _ _ _ _ _)
    as [[amt c] n].
  simpl. destruct (Qgtb _ _); auto.
  rewrite cellAt_putCell.
  destruct Hne as [H|H]; apply String.eqb_neq in H; rewrite H;
    now rewrite ?andb_false_r.
Qed.

Lemma forecastGuide_corr (id m : string)
    (st : ForecastedMonthlyFlowView.State) (g : Guide.t) :
  id <> Guide.id g ->
  JsMap.get id (corrOf (forecastGuide m st g)) = JsMap.get id (corrOf st).
Proof.
  intros Hne. subst forecastGuide.
  unfold ForecastedMonthlyFlowView.forecastGuide.
  destruct (ForecastedMonthlyFlowView.idIs _ _); auto.
  unfold ForecastedMonthlyFlowView.forecastAmount.
  destruct (ForecastedMonthlyFlowView.idIs _ _); auto.
  destruct (ForecastedMonthlyFlowView.idIs _ _); auto.
  destruct (Qltb _ _); auto.
  destruct (negb _); simpl.
  - now apply get_set_other.
  - now apply get_delete_other.
Qed.

Lemma fold_forecastGuide_vat (m : string) (l : list Guide.t) :
  forall st, vatOf (fold_left (forecastGuide m) l st) = vatOf st.
Proof.
  induction l as [|g l IH]; intros st; simpl; auto.
  now rewrite IH, forecastGuide_vat.
Qed.

Lemma fold_forecastGuide_cellAt (id m0 m : string) (l : list Guide.t) :
  m0 <> m \/ (forall g, In g l -> id <> Guide.id g) ->
  forall st,
    cellAt id m0 (dataOf (fold_left (forecastGuide m) l st))
    = cellAt id m0 (dataOf st).
Proof.
  intros Hne. induction l as [|g l IH]; intros st; simpl; auto.
  rewrite IH.
  - apply forecastGuide_cellAt.
    destruct Hne as [H|H]; [now left | right; apply H; now left].
  - destruct Hne as [H|H]; [now left | right].
    intros g' Hg'. apply H. now right.
Qed.

Lemma fold_forecastGuide_corr (id m : string) (l : list Guide.t) :
  (forall g, In g l -> id <> Guide.id g) ->
  forall st,
    JsMap.get id (corrOf (fold_left (forecastGuide m) l st))
    = JsMap.get id (corrOf st).
Proof.
  intros Hne. induction l as [|g l IH]; intros st; simpl; auto.
  rewrite IH.
  - apply forecastGuide_corr. apply Hne. now left.
  - intros g' Hg'. apply Hne. now right.
Qed.

Lemma vatStep_corr (m : string) (st : ForecastedMonthlyFlowView.State) :
  corrOf (vatStep m st) = corrOf st.
Proof.
  subst vatStep. unfold ForecastedMonthlyFlowView.vatStep.
  destruct (ForecastedMonthlyFlowView.vatGuideId _); auto.
  destruct (_ && _); auto.
  now destruct (Qgtb _ _).
Qed.

Lemma vatStep_cellAt (id m0 m : string)
    (st : ForecastedMonthlyFlowView.State) :
  m0 <> m
  \/ ForecastedMonthlyFlowView.idIs
       (ForecastedMonthlyFlowView.vatGuideId cat) id = false ->
  cellAt id m0 (dataOf (vatStep m st)) = cellAt id m0 (dataOf st).
Proof.
  intros Hne. subst vatStep. unfold ForecastedMonthlyFlowView.vatStep.
  fold cat.
  destruct (ForecastedMonthlyFlowView.vatGuideId cat) as [v|]; auto.
  destruct (_ && _); auto.
  destruct (Qgtb _ _); auto.
  simpl. rewrite cellAt_putCell.
  destruct Hne as [H|H].
  - apply String.eqb_neq in H. rewrite H. now rewrite andb_false_r.
  - simpl in H. now rewrite H.
Qed.

Lemma vatStep_vat (m0 m : string) (st : ForecastedMonthlyFlowView.State) :
  m0 <> m -> JsMap.get m0 (vatOf (vatStep m st)) = JsMap.get m0 (vatOf st).
Proof.
  intros Hne. subst vatStep. unfold ForecastedMonthlyFlowView.vatStep.
  destruct (ForecastedMonthlyFlowView.vatGuideId _); auto.
  destruct (_ && _); auto.
  destruct (Qgtb _ _); auto.
  simpl. now apply get_set_other.
Qed.

(** A month's step writes cells and breakdowns of that month only. *)
Lemma monthStep_frame (id m0 m : string)
    (st : ForecastedMonthlyFlowView.State) :
  m0 <> m ->
  cellAt id m0 (dataOf (monthStep st m)) = cellAt id m0 (dataOf st)
  /\ JsMap.get m0 (vatOf (monthStep st m)) = JsMap.get m0 (vatOf st).
Proof.
  intros Hne. subst monthStep. unfold ForecastedMonthlyFlowView.monthStep.
  destruct (negb _).
  - simpl. split; auto.
    generalize (dataOf st).
    induction (filter _ transactions) as [|t l IH]; intros d; simpl; auto.
    rewrite IH. now apply actualStep_cellAt.
  - split.
    + fold vatStep. rewrite vatStep_cellAt by now left.
      fold forecastGuide. apply fold_forecastGuide_cellAt. now left.
    + fold vatStep. rewrite vatStep_vat by assumption.
      fold forecastGuide. now rewrite fold_forecastGuide_vat.
Qed.

Lemma fold_monthStep_frame (id m0 : string) (l : list string) :
  ~ In m0 l ->
  forall st,
    cellAt id m0 (dataOf (fold_left monthStep l st)) = cellAt id m0 (dataOf st)
    /\ JsMap.get m0 (vatOf (fold_left monthStep l st))
       = JsMap.get m0 (vatOf st).
Proof.
  induction l as [|m l IH]; intros Hnin st; simpl; auto.
  destruct (IH (fun H => Hnin (or_intror H)) (monthStep st m)) as [H1 H2].
  destruct (monthStep_frame id m0 m st) as [H3 H4].
  { intros E. apply Hnin. now left. }
  split; congruence.
Qed.

(** In the months without forecast the correction map is left alone. *)
Lemma monthStep_actual_corr (m : string)
    (st : ForecastedMonthlyFlowView.State) :
  ForecastedMonthlyFlowView.isForecastMonth lastRealDate m = false ->
  corrOf (monthStep st m) = corrOf st.
Proof.
  intros H. subst monthStep. unfold ForecastedMonthlyFlowView.monthStep.
  fold lastRealDate. now rewrite H.
Qed.

End StepFacts.

(** ** The months of a year *)

Section MonthFacts.

Local Open Scope Z_scope.

Lemma daysFromCivil_in_year (y m d : Z) :
  1 <= m <= 12 ->
  JsDate.daysFromCivil y m d
  = if m <=? 2
    then (y - 1) / 400 * 146097
         + JsDate.doeOfCivil (y - 1 - (y - 1) / 400 * 400) m d - 719468
    else y / 400 * 146097
         + JsDate.doeOfCivil (y - y / 400 * 400) m d - 719468.
Proof.
  intros H. unfold JsDate.daysFromCivil.
  rewrite (Z.div_small (m - 1) 12) by lia.
  rewrite (Z.mod_small (m - 1) 12) by lia.
  replace (m - 1 + 1) with m by lia. replace (y + 0) with y by lia.
  destruct (m <=? 2); reflexivity.
Qed.

(** The first of December is not before the first of any month of the
    same year. *)
Lemma firstOfMonth_le_december (y k : Z) :
  1 <= k <= 12 -> JsDate.daysFromCivil y k 1 <= JsDate.daysFromCivil y 12 1.
Proof.
  intros H. rewrite !daysFromCivil_in_year by lia.
  unfold JsDate.doeOfCivil.
  change (12 <=? 2) with false. change (12 >? 2) with true. cbv iota.
  destruct (Z.leb_spec k 2); destruct (Z.gtb_spec k 2); try lia;
    Z.to_euclidean_division_equations; lia.
Qed.

Lemma daysInMonth_pos (y k : Z) : 1 <= k <= 12 -> 1 <= JsDate.daysInMonth y k.
Proof.
  intros H. unfold JsDate.daysInMonth.
  assert (Hk : k = 12 \/ k <= 11) by lia. destruct Hk as [->|Hk].
  - unfold JsDate.daysFromCivil, JsDate.doeOfCivil.
    change ((12 + 1 - 1) / 12) with 1.
    change ((12 + 1 - 1) mod 12 + 1) with 1.
    change ((12 - 1) / 12) with 0. change ((12 - 1) mod 12 + 1) with 12.
    change (1 <=? 2) with true. change (12 <=? 2) with false.
    change (1 >? 2) with false. change (12 >? 2) with true. cbv iota.
    Z.to_euclidean_division_equations; lia.
  - rewrite !daysFromCivil_in_year by lia.
    unfold JsDate.doeOfCivil.
    destruct (Z.leb_spec k 2); destruct (Z.gtb_spec k 2); try lia;
      destruct (Z.leb_spec (k + 1) 2); destruct (Z.gtb_spec (k + 1) 2);
      try lia; Z.to_euclidean_division_equations; lia.
Qed.

Lemma parseFields_first_of_month (a b c d m1 m2 : ascii) (k : Z) :
  JsDate.number2 m1 m2 = Some k -> 1 <= k <= 12 ->
  JsDate.parseFields
    (String a (String b (String c (String d (String "-" (String m1
       (String m2 (String "-" (String "0" (String "1" EmptyString))))))))))
  = match JsDate.number4 a b c d with
    | Some y => Some (y, k, 1)
    | None => None
    end.
Proof.
  intros Hm Hk. unfold JsDate.parseFields.
  change (JsDate.isDash "-") with true. cbv iota. cbn [andb].
  rewrite Hm. change (JsDate.number2 "0" "1") with (Some 1).
  destruct (JsDate.number4 a b c d) as [y|]; auto.
  pose proof (daysInMonth_pos y k Hk).
  destruct (Z.leb_spec 1 k); [|lia]. destruct (Z.leb_spec k 12); [|lia].
  destruct (Z.leb_spec 1 (JsDate.daysInMonth y k)); [|lia].
  reflexivity.
Qed.

(** The first day of a month of the year the prefix denotes; no date when
    the prefix is not a four-digit year. *)
Lemma newDate_first_of_month (ys mm : string) (k : Z) :
  In (mm, k) twoDigitMonths ->
  JsDate.newDate ((ys ++ "-" ++ mm) ++ "-01")
  = match yearOfPrefix ys with
    | Some y => Some (JsDate.daysFromCivil y k 1 * JsDate.msPerDay)
    | None => None
    end.
Proof.
  intros Hin. unfold JsDate.newDate.
  assert (Hk : 1 <= k <= 12 /\ exists m1 m2,
               mm = String m1 (String m2 EmptyString)
               /\ JsDate.number2 m1 m2 = Some k).
  { simpl in Hin.
    repeat (destruct Hin as [Hin|Hin];
            [injection Hin as <- <-; split; [lia|];
             eexists; eexists; split; reflexivity|]).
    destruct Hin. }
  destruct Hk as (Hk & m1 & m2 & -> & Hm).
  destruct ys as [|a [|b [|c [|d [|e r]]]]]; try reflexivity.
  - simpl String.append. simpl yearOfPrefix.
    rewrite (parseFields_first_of_month a b c d m1 m2 k Hm Hk).
    now destruct (JsDate.number4 a b c d).
  - simpl String.append. simpl yearOfPrefix.
    destruct r as [|r1 [|r2 [|r3 [|r4 [|r5 [|r6 r]]]]]]; reflexivity.
Qed.

Lemma append_inj_l (s a b : string) : (s ++ a)%string = (s ++ b)%string -> a = b.
Proof.
  induction s as [|c s IH]; simpl; auto.
  intros [= H]. now apply IH.
Qed.

Lemma monthsOf_eq (y : Z) :
  ForecastedMonthlyFlowView.monthsOf y
  = map (fun e => (JsDate.showZ y ++ "-" ++ fst e)%string) twoDigitMonths.
Proof. reflexivity. Qed.

Lemma NoDup_map_inj {A B : Type} (f : A -> B) (l : list A) :
  (forall x y, f x = f y -> x = y) -> NoDup l -> NoDup (map f l).
Proof.
  intros Hinj. induction 1 as [|x l Hx Hl IH]; simpl; constructor; auto.
  intros Hin. apply in_map_iff in Hin as (y & E & Hy).
  apply Hinj in E. now subst.
Qed.

Lemma monthsOf_NoDup (y : Z) : NoDup (ForecastedMonthlyFlowView.monthsOf y).
Proof.
  rewrite monthsOf_eq.
  rewrite <- (map_map fst (fun mm => (JsDate.showZ y ++ "-" ++ mm)%string)).
  apply NoDup_map_inj.
  - intros a b H. apply append_inj_l in H. now injection H.
  - simpl.
    repeat (constructor; [simpl; intuition discriminate|]). constructor.
Qed.

Lemma monthsOf_december (y : Z) :
  exists firstEleven,
    ForecastedMonthlyFlowView.monthsOf y
    = (firstEleven ++ [(JsDate.showZ y ++ "-12")%string])%list
    /\ last (ForecastedMonthlyFlowView.monthsOf y) EmptyString
       = (JsDate.showZ y ++ "-12")%string.
Proof.
  rewrite monthsOf_eq.
  exists (map (fun e => (JsDate.showZ y ++ "-" ++ fst e)%string)
            (removelast twoDigitMonths)).
  split; reflexivity.
Qed.

(** Once a month of the year is a forecast month, December is one. *)
Lemma december_is_forecast (lastRealDate : option Z) (y : Z) (m : string) :
  In m (ForecastedMonthlyFlowView.monthsOf y) ->
  ForecastedMonthlyFlowView.isForecastMonth lastRealDate m = true ->
  ForecastedMonthlyFlowView.isForecastMonth lastRealDate
    (JsDate.showZ y ++ "-12") = true.
Proof.
  rewrite monthsOf_eq. intros Hin.
  apply in_map_iff in Hin as ([mm k] & <- & Hin). simpl fst.
  change (JsDate.showZ y ++ "-12")%string
    with (JsDate.showZ y ++ "-" ++ "12")%string.
  unfold ForecastedMonthlyFlowView.isForecastMonth, JsDate.newDateNoon.
  rewrite (newDate_first_of_month (JsDate.showZ y) mm k Hin).
  rewrite (newDate_first_of_month (JsDate.showZ y) "12" 12)
    by (simpl; tauto).
  destruct (yearOfPrefix (JsDate.showZ y)) as [yy|];
    [|destruct lastRealDate; auto].
  destruct lastRealDate as [l|]; simpl; auto.
  intros H. apply Z.ltb_lt in H. apply Z.ltb_lt.
  assert (Hk : 1 <= k <= 12).
  { simpl in Hin.
    repeat (destruct Hin as [Hin|Hin]; [injection Hin as <- <-; lia|]).
    destruct Hin. }
  pose proof (firstOfMonth_le_december yy k Hk).
  unfold JsDate.msPerDay, JsDate.noon in *. lia.
Qed.

End MonthFacts.

(** ** Reconciliation of the perturbed forecast *)

Lemma sumQ_cons {A : Type} (f : A -> Q) (x : A) (l : list A) :
  sumQ f (x :: l) = f x + sumQ f l.
Proof. reflexivity. Qed.

Lemma fold_left_cons {A B : Type} (f : A -> B -> A) (x : B) (l : list B)
    (a : A) :
  fold_left f (x :: l) a = fold_left f l (f a x).
Proof. reflexivity. Qed.

Lemma sumQ_ext_in {A : Type} (f g : A -> Q) (l : list A) :
  (forall x, In x l -> f x = g x) -> sumQ f l = sumQ g l.
Proof.
  induction l as [|x l IH]; intros H; simpl; auto.
  rewrite H by now left. rewrite IH; auto.
  intros y Hy. apply H. now right.
Qed.

Lemma sumQ_const {A : Type} (c : Q) (l : list A) :
  sumQ (fun _ => c) l == c * inject_Z (Z.of_nat (List.length l)).
Proof.
  induction l as [|x l IH]; [simpl; ring|].
  change (sumQ (fun _ => c) (x :: l)) with (c + sumQ (fun _ => c) l).
  rewrite IH. change (List.length (x :: l)) with (S (List.length l)).
  rewrite Nat2Z.inj_succ. unfold Z.succ. rewrite inject_Z_plus. ring.
Qed.

Section Reconciliation.

Variable useME : bool.
Variable random : nat -> Q.
Variable transactions : list Transaction.t.
Variable guides : list Guide.t.
Variable selectedYear : Z.
Variable excludedGuideIds : list string.

Let cat := ForecastedMonthlyFlowView.catalogOf guides excludedGuideIds.
Let lastRealDate := ForecastedMonthlyFlowView.lastRealDateOf transactions.
Let forecastGuide :=
  ForecastedMonthlyFlowView.forecastGuide useME random transactions guides
    selectedYear excludedGuideIds.
Let vatStep :=
  ForecastedMonthlyFlowView.vatStep guides excludedGuideIds.
Let monthStep :=
  ForecastedMonthlyFlowView.monthStep useME random transactions guides
    selectedYear excludedGuideIds.
Let months := ForecastedMonthlyFlowView.months selectedYear.
Let isForecast := ForecastedMonthlyFlowView.isForecastMonth lastRealDate.

Local Abbreviation dataOf := ForecastedMonthlyFlowView.dataByGuide.
Local Abbreviation corrOf := ForecastedMonthlyFlowView.forecastCorrection.

Variable g : Guide.t.

Let id := Guide.id g.
Let A :=
  getOr0 id
    (ForecastedMonthlyFlowView.monthlyAverages useME transactions guides
       selectedYear excludedGuideIds).

Hypothesis distinctIds :
  NoDup (map Guide.id (ForecastedMonthlyFlowView.activeGuides cat)).
Hypothesis isActive : In g (ForecastedMonthlyFlowView.activeGuides cat).
Hypothesis notVat :
  ForecastedMonthlyFlowView.idIs (ForecastedMonthlyFlowView.vatGuideId cat) id
  = false.
Hypothesis notAguinaldo :
  ForecastedMonthlyFlowView.idIs
    (ForecastedMonthlyFlowView.aguinaldoGuideId cat) id = false.
Hypothesis notPtu :
  ForecastedMonthlyFlowView.idIs (ForecastedMonthlyFlowView.ptuGuideId cat) id
  = false.
Hypothesis material : ForecastedMonthlyFlowView.zero01 <= Qabs A.

Local Abbreviation postedValue := (postedValue g).
Local Abbreviation unposted := (unposted g).
Local Abbreviation reconciled :=
  (reconciled useME transactions guides selectedYear excludedGuideIds g).

Lemma others_differ :
  exists l1 l2,
    ForecastedMonthlyFlowView.activeGuides cat = l1 ++ g :: l2
    /\ (forall g', In g' l1 -> id <> Guide.id g')
    /\ (forall g', In g' l2 -> id <> Guide.id g').
Proof.
  destruct (in_split _ _ isActive) as (l1 & l2 & E).
  exists l1, l2. split; [exact E|].
  rewrite E in distinctIds. rewrite map_app in distinctIds.
  simpl in distinctIds. apply NoDup_remove_2 in distinctIds.
  split; intros g' Hg' Heq; apply distinctIds; apply in_or_app;
    [left|right]; subst id; rewrite Heq; now apply in_map.
Qed.

(** What the step of the guide itself does in a forecast month. *)
Lemma forecastGuide_own (m : string) (st : ForecastedMonthlyFlowView.State) :
  exists amt,
    cellAt id m (dataOf (forecastGuide m st g))
    = (if Qgtb (Qabs amt) ForecastedMonthlyFlowView.zero01
       then Some (Cell.mk amt true) else cellAt id m (dataOf st))
    /\ (if String.eqb m (last months EmptyString)
        then amt = A - getOr0 id (corrOf st)
        else getOr0 id (corrOf (forecastGuide m st g))
             = getOr0 id (corrOf st) + (amt - A)
             /\ exists n,
                 amt = A * (1 + (random n - (1 # 2)) * (4 # 10))).
Proof.
  subst forecastGuide. unfold ForecastedMonthlyFlowView.forecastGuide.
  fold cat. fold id. rewrite notVat.
  unfold ForecastedMonthlyFlowView.forecastAmount.
  fold cat. fold id. rewrite notAguinaldo, notPtu. fold A.
  assert (Hm : Qltb (Qabs A) ForecastedMonthlyFlowView.zero01 = false)
    by now apply Qltb_ge.
  rewrite Hm. fold months.
  destruct (String.eqb m (last months EmptyString));
    cbn [negb]; cbv beta iota zeta.
  - exists (A - getOr0 id (corrOf st)). split; [|reflexivity].
    destruct (Qgtb _ _);
      cbn [ForecastedMonthlyFlowView.dataByGuide]; auto.
    rewrite cellAt_putCell, !String.eqb_refl. reflexivity.
  - exists (A * (1 + (random (ForecastedMonthlyFlowView.draws st) - (1 # 2))
                    * (4 # 10))).
    split; [|split; [|eexists; reflexivity]].
    + destruct (Qgtb _ _);
        cbn [ForecastedMonthlyFlowView.dataByGuide]; [|reflexivity].
      rewrite cellAt_putCell, !String.eqb_refl. reflexivity.
    + cbn [ForecastedMonthlyFlowView.forecastCorrection].
      rewrite getOr0_set, String.eqb_refl. reflexivity.
Qed.

(** What a forecast month does to the guide's cell and correction. *)
Lemma monthStep_own (m : string) (st : ForecastedMonthlyFlowView.State) :
  isForecast m = true ->
  exists amt,
    cellAt id m (dataOf (monthStep st m))
    = (if Qgtb (Qabs amt) ForecastedMonthlyFlowView.zero01
       then Some (Cell.mk amt true) else cellAt id m (dataOf st))
    /\ (if String.eqb m (last months EmptyString)
        then amt = A - getOr0 id (corrOf st)
        else getOr0 id (corrOf (monthStep st m))
             = getOr0 id (corrOf st) + (amt - A)
             /\ exists n,
                 amt = A * (1 + (random n - (1 # 2)) * (4 # 10))).
Proof.
  intros Hf. subst monthStep. unfold ForecastedMonthlyFlowView.monthStep.
  fold lastRealDate. fold isForecast. rewrite Hf. simpl negb. cbv iota.
  fold cat. fold vatStep. fold forecastGuide.
  destruct others_differ as (l1 & l2 & E & H1 & H2). rewrite E.
  rewrite fold_left_app. simpl fold_left.
  set (st1 := fold_left (forecastGuide m) l1 st).
  destruct (forecastGuide_own m st1) as (amt & Hcell & Hcorr).
  exists amt. split.
  - unfold vatStep.
    rewrite vatStep_cellAt by (right; exact notVat).
    unfold forecastGuide.
    rewrite fold_forecastGuide_cellAt by (right; exact H2).
    fold forecastGuide. rewrite Hcell.
    destruct (Qgtb _ _); auto.
    subst st1. unfold forecastGuide.
    now rewrite fold_forecastGuide_cellAt by (right; exact H1).
  - assert (Hc1 : getOr0 id (corrOf st1) = getOr0 id (corrOf st)).
    { unfold getOr0. subst st1. unfold forecastGuide.
      now rewrite fold_forecastGuide_corr by exact H1. }
    rewrite Hc1 in Hcorr.
    destruct (String.eqb m (last months EmptyString)); [exact Hcorr|].
    destruct Hcorr as [Hcorr Hn]. split; [|exact Hn].
    rewrite <- Hcorr. unfold getOr0, vatStep.
    rewrite vatStep_corr. unfold forecastGuide.
    now rewrite fold_forecastGuide_corr by exact H2.
Qed.

Lemma sums_framed (st st' : ForecastedMonthlyFlowView.State)
    (L : list string) :
  (forall m0, In m0 L -> cellAt id m0 (dataOf st') = cellAt id m0 (dataOf st)) ->
  sumQ (postedValue (dataOf st')) L = sumQ (postedValue (dataOf st)) L
  /\ sumQ (unposted (dataOf st')) L = sumQ (unposted (dataOf st)) L.
Proof.
  intros H. split; apply sumQ_ext_in; intros m0 Hm0;
    unfold postedValue, unposted; fold id; now rewrite H.
Qed.

(** The cell a forecast month leaves is the computed amount, or is absent
    when that amount is within the threshold. *)
Lemma posted_or_dropped (data : JsMap.t (JsMap.t Cell.t)) (m : string)
    (amt : Q) (old : option Cell.t) :
  old = None ->
  cellAt id m data
  = (if Qgtb (Qabs amt) ForecastedMonthlyFlowView.zero01
     then Some (Cell.mk amt true) else old) ->
  Qabs (postedValue data m - amt)
  <= ForecastedMonthlyFlowView.zero01 * unposted data m.
Proof.
  intros -> H. unfold postedValue, unposted. fold id. rewrite H.
  destruct (Qgtb (Qabs amt) ForecastedMonthlyFlowView.zero01) eqn:E;
    cbn [Cell.amount].
  - assert (E0 : amt - amt == 0) by ring. rewrite E0.
    change (Qabs 0) with 0.
    unfold ForecastedMonthlyFlowView.zero01. lra.
  - apply Qgtb_le in E.
    assert (E0 : 0 - amt == - amt) by ring. rewrite E0, Qabs_opp. lra.
Qed.

Lemma reconciled_step (m : string) (st : ForecastedMonthlyFlowView.State)
    (L : list string) :
  ~ In m L ->
  m <> last months EmptyString ->
  cellAt id m (dataOf st) = None ->
  reconciled st L ->
  reconciled (monthStep st m) (L ++ (if isForecast m then [m] else [])).
Proof.
  intros Hnin Hlast Hfresh Hinv. unfold reconciled in *.
  fold id in Hinv |- *. fold A in Hinv |- *.
  assert (Hframe : forall m0, In m0 L ->
             cellAt id m0 (dataOf (monthStep st m)) = cellAt id m0 (dataOf st)).
  { intros m0 H0. apply monthStep_frame. intros ->. contradiction. }
  destruct (sums_framed st (monthStep st m) L Hframe) as [Hv Hu].
  destruct (isForecast m) eqn:Hf.
  - destruct (monthStep_own m st Hf) as (amt & Hcell & Hcorr).
    apply String.eqb_neq in Hlast. rewrite Hlast in Hcorr.
    destruct Hcorr as [Hcorr _].
    pose proof (posted_or_dropped _ m amt _ Hfresh Hcell) as Hdrop.
    rewrite !sumQ_app, Hv, Hu, Hcorr. simpl sumQ.
    set (s := sumQ (postedValue (dataOf st)) L) in *.
    set (sa := sumQ (fun _ => A) L) in *.
    set (c := getOr0 id (corrOf st)) in *.
    set (u := sumQ (unposted (dataOf st)) L) in *.
    set (v := postedValue (dataOf (monthStep st m)) m) in *.
    set (w := unposted (dataOf (monthStep st m)) m) in *.
    assert (E : s + (v + 0) - (sa + (A + 0) + (c + (amt - A)))
                == (s - (sa + c)) + (v - amt)) by ring.
    rewrite E. eapply Qle_trans; [apply Qabs_triangle|].
    unfold ForecastedMonthlyFlowView.zero01 in *. lra.
  - rewrite app_nil_r, Hv, Hu.
    unfold monthStep. now rewrite monthStep_actual_corr by exact Hf.
Qed.

Lemma reconciled_prefix (todo : list string) :
  forall (st : ForecastedMonthlyFlowView.State) (L : list string),
    NoDup todo ->
    (forall m, In m todo -> m <> last months EmptyString) ->
    (forall m, In m todo -> ~ In m L) ->
    (forall m, In m todo -> cellAt id m (dataOf st) = None) ->
    reconciled st L ->
    reconciled (fold_left monthStep todo st) (L ++ filter isForecast todo).
Proof.
  induction todo as [|m todo IH]; intros st L Hnd Hlast HL Hfresh Hinv.
  - simpl. now rewrite app_nil_r.
  - inversion Hnd as [|? ? Hm Hnd']; subst.
    simpl fold_left. simpl filter.
    replace (L ++ (if isForecast m then m :: filter isForecast todo
                   else filter isForecast todo))
      with ((L ++ (if isForecast m then [m] else []))
              ++ filter isForecast todo)
      by (destruct (isForecast m); now rewrite <- app_assoc).
    apply IH; auto.
    + intros m' Hm'. apply Hlast. now right.
    + intros m' Hm' Hin. apply in_app_or in Hin as [Hin|Hin].
      * apply (HL m'); [now right | exact Hin].
      * destruct (isForecast m); [|destruct Hin].
        destruct Hin as [<-|[]]. contradiction.
    + intros m' Hm'.
      destruct (monthStep_frame useME random transactions guides
                  selectedYear excludedGuideIds id m' m st) as [H _].
      { intros ->. contradiction. }
      fold monthStep in H. rewrite H. apply Hfresh. now right.
    + apply reconciled_step; auto.
      * apply HL. now left.
      * apply Hlast. now left.
      * apply Hfresh. now left.
Qed.

Lemma reconciled_last (m : string) (st : ForecastedMonthlyFlowView.State)
    (L : list string) :
  ~ In m L ->
  m = last months EmptyString ->
  isForecast m = true ->
  cellAt id m (dataOf st) = None ->
  reconciled st L ->
  Qabs (sumQ (postedValue (dataOf (monthStep st m))) (L ++ [m])
        - sumQ (fun _ => A) (L ++ [m]))
  <= ForecastedMonthlyFlowView.zero01
     * sumQ (unposted (dataOf (monthStep st m))) (L ++ [m]).
Proof.
  intros Hnin Hlast Hf Hfresh Hinv. unfold reconciled in *.
  fold id in Hinv |- *. fold A in Hinv |- *.
  assert (Hframe : forall m0, In m0 L ->
             cellAt id m0 (dataOf (monthStep st m)) = cellAt id m0 (dataOf st)).
  { intros m0 H0. apply monthStep_frame. intros ->. contradiction. }
  destruct (sums_framed st (monthStep st m) L Hframe) as [Hv Hu].
  destruct (monthStep_own m st Hf) as (amt & Hcell & Hcorr).
  rewrite <- Hlast, String.eqb_refl in Hcorr.
  pose proof (posted_or_dropped _ m amt _ Hfresh Hcell) as Hdrop.
  rewrite !sumQ_app, Hv, Hu. simpl sumQ.
  set (s := sumQ (postedValue (dataOf st)) L) in *.
  set (sa := sumQ (fun _ => A) L) in *.
  set (c := getOr0 id (corrOf st)) in *.
  set (u := sumQ (unposted (dataOf st)) L) in *.
  set (v := postedValue (dataOf (monthStep st m)) m) in *.
  set (w := unposted (dataOf (monthStep st m)) m) in *.
  assert (E : s + (v + 0) - (sa + (A + 0)) == (s - (sa + c)) + (v - amt))
    by (rewrite Hcorr; ring).
  rewrite E. eapply Qle_trans; [apply Qabs_triangle|].
  unfold ForecastedMonthlyFlowView.zero01 in *. lra.
Qed.

(** The whole year: the posted forecast values of the guide add up to the
    average times the number of forecast months, up to the threshold for
    each forecast month left without a value. *)
Lemma reconciled_year :
  let final :=
    ForecastedMonthlyFlowView.finalState useME random transactions guides
      selectedYear excludedGuideIds in
  let F := filter isForecast months in
  Qabs (sumQ (postedValue (dataOf final)) F
        - A * inject_Z (Z.of_nat (List.length F)))
  <= ForecastedMonthlyFlowView.zero01 * sumQ (unposted (dataOf final)) F.
Proof.
  intros final F. rewrite <- sumQ_const.
  subst final F. unfold ForecastedMonthlyFlowView.finalState.
  fold monthStep. fold months.
  pose proof (monthsOf_NoDup selectedYear) as Hnd.
  destruct (monthsOf_december selectedYear) as (pre & Hsplit & Hlast).
  change (ForecastedMonthlyFlowView.monthsOf selectedYear) with months in *.
  set (dec := (JsDate.showZ selectedYear ++ "-12")%string) in *.
  rewrite Hsplit in Hnd |- *.
  assert (Hpre : NoDup pre /\ ~ In dec pre).
  { apply NoDup_remove in Hnd. rewrite app_nil_r in Hnd. exact Hnd. }
  destruct Hpre as [Hndpre Hdec].
  rewrite fold_left_app. simpl fold_left.
  set (st := fold_left monthStep pre
               (ForecastedMonthlyFlowView.initialState)).
  assert (Hinv : reconciled st ([] ++ filter isForecast pre)).
  { apply reconciled_prefix.
    - exact Hndpre.
    - intros m Hm E. rewrite Hlast in E. subst m. contradiction.
    - intros m Hm [].
    - intros m Hm. reflexivity.
    - unfold reconciled. compute. discriminate. }
  simpl app in Hinv.
  assert (Hfresh : cellAt id dec (dataOf st) = None).
  { destruct (fold_monthStep_frame useME random transactions guides
                selectedYear excludedGuideIds id dec pre Hdec
                ForecastedMonthlyFlowView.initialState) as [H _].
    fold monthStep in H. subst st. rewrite H. reflexivity. }
  rewrite filter_app. simpl filter.
  destruct (isForecast dec) eqn:Hf.
  - apply reconciled_last; auto.
    intros Hin. apply filter_In in Hin as [Hin _]. contradiction.
  - assert (Hnone : filter isForecast pre = []).
    { destruct (filter isForecast pre) as [|m l] eqn:E; auto.
      exfalso. assert (Hm : In m (filter isForecast pre))
        by (rewrite E; now left).
      apply filter_In in Hm as [Hm Hfm].
      assert (Hmonths : In m (ForecastedMonthlyFlowView.monthsOf selectedYear)).
      { change (ForecastedMonthlyFlowView.monthsOf selectedYear) with months.
        rewrite Hsplit. apply in_or_app. now left. }
      pose proof (december_is_forecast lastRealDate selectedYear m Hmonths
                    Hfm) as Hd.
      fold dec in Hd. unfold isForecast in Hf. congruence. }
    rewrite Hnone. simpl. unfold ForecastedMonthlyFlowView.zero01.
    compute. discriminate.
Qed.

End Reconciliation.

(** Dropping guides from a catalog keeps its ids distinct. *)
Lemma kept_guides_ids_distinct (keep : Guide.t -> bool) (gs : list Guide.t)
    (Hids : NoDup (map Guide.id gs)) :
  NoDup (map Guide.id (filter keep gs)).
Proof.
  induction gs as [|g gs IH]; simpl in *; [constructor|].
  apply NoDup_cons_iff in Hids as [Hfresh Hrest].
  destruct (keep g); simpl; [|now apply IH].
  apply NoDup_cons; [|now apply IH].
  rewrite in_map_iff. intros (g' & Eid & Hg').
  apply Hfresh. rewrite <- Eid. apply in_map.
  now apply filter_In in Hg'.
Qed.

(** C1 (as the code has it).  For an active guide of the general path
    (not the VAT, year-end bonus or profit-share guide) of a catalog with
    distinct ids whose monthly average in use [A] has magnitude at least
    0.01, and for every sequence of random factors, the values posted for
    the guide in the forecast months of the selected year add up to [A]
    times the number of those months up to 0.01 for each forecast month
    left without a posted value (an amount of magnitude at most 0.01 is
    not posted); in particular the sum is exactly [A] times the number of
    forecast months when every forecast month has a posted value. *)
Theorem forecast_sum_reconciles
    (useME : bool) (random : nat -> Q) (transactions : list Transaction.t)
    (guides : list Guide.t) (selectedYear : Z)
    (excludedGuideIds : list string) (g : Guide.t) :
  let cat := ForecastedMonthlyFlowView.catalogOf guides excludedGuideIds in
  let A :=
    getOr0 (Guide.id g)
      (ForecastedMonthlyFlowView.monthlyAverages useME transactions guides
         selectedYear excludedGuideIds) in
  NoDup (map Guide.id guides) ->
  In g (ForecastedMonthlyFlowView.activeGuides cat) ->
  ForecastedMonthlyFlowView.idIs
    (ForecastedMonthlyFlowView.vatGuideId cat) (Guide.id g) = false ->
  ForecastedMonthlyFlowView.idIs
    (ForecastedMonthlyFlowView.aguinaldoGuideId cat) (Guide.id g) = false ->
  ForecastedMonthlyFlowView.idIs
    (ForecastedMonthlyFlowView.ptuGuideId cat) (Guide.id g) = false ->
  ForecastedMonthlyFlowView.zero01 <= Qabs A ->
  let fd :=
    ForecastedMonthlyFlowView.flowData useME random transactions guides
      selectedYear excludedGuideIds in
  let data := ForecastedMonthlyFlowView.fd_dataByGuide fd in
  let F :=
    filter
      (ForecastedMonthlyFlowView.isForecastMonth
         (ForecastedMonthlyFlowView.lastRealDateOf transactions))
      (ForecastedMonthlyFlowView.fd_months fd) in
  let N := inject_Z (Z.of_nat (List.length F)) in
  Qabs (sumQ (postedValue g data) F - A * N)
  <= ForecastedMonthlyFlowView.zero01 * sumQ (unposted g data) F
  /\ ((forall m, In m F -> cellAt (Guide.id g) m data <> None) ->
      sumQ (postedValue g data) F == A * N).
Proof.
  intros cat A Hids Hin Hvat Hagui Hptu HA fd data F N.
  assert (Hbound :
            Qabs (sumQ (postedValue g data) F - A * N)
            <= ForecastedMonthlyFlowView.zero01 * sumQ (unposted g data) F).
  { apply (reconciled_year useME random transactions guides selectedYear
             excludedGuideIds g); auto.
    apply kept_guides_ids_distinct. exact Hids. }
  split; [exact Hbound|].
  intros Hall.
  assert (Hzero : sumQ (unposted g data) F == 0).
  { clear Hbound. induction F as [|m l IH]; simpl; [reflexivity|].
    rewrite IH by (intros m' Hm'; apply Hall; now right).
    unfold unposted. specialize (Hall m (or_introl eq_refl)).
    destruct (cellAt (Guide.id g) m data); [ring | congruence]. }
  rewrite Hzero in Hbound.
  apply Qabs_Qle_condition in Hbound. lra.
Qed.

(** The rent of the sample history averages -116/3 and is forecast for the
    six months July to December 2024, which add up to -232. *)
Lemma forecast_sum_reconciles_witness :
  NoDup (map Guide.id sampleGuides)
  /\ ForecastedMonthlyFlowView.zero01
     <= Qabs (getOr0 "40"
                (ForecastedMonthlyFlowView.monthlyAverages false
                   sampleTransactions sampleGuides 2024 []))
  /\ sumQ
       (postedValue rentGuide
          (ForecastedMonthlyFlowView.fd_dataByGuide
             (ForecastedMonthlyFlowView.flowData false alternating
                sampleTransactions sampleGuides 2024 [])))
       ["2024-07"; "2024-08"; "2024-09"; "2024-10"; "2024-11"; "2024-12"]%string
     == -232.
Proof.
  assert (Hids : NoDup (map Guide.id sampleGuides)).
  { simpl. repeat (constructor; [simpl; intuition discriminate|]).
    constructor. }
  assert (HA : ForecastedMonthlyFlowView.zero01
               <= Qabs (getOr0 "40"
                          (ForecastedMonthlyFlowView.monthlyAverages false
                             sampleTransactions sampleGuides 2024 [])))
    by (vm_compute; discriminate).
  split; [exact Hids|]. split; [exact HA|].
  destruct (forecast_sum_reconciles false alternating sampleTransactions
              sampleGuides 2024 [] rentGuide Hids)
    as [_ H].
  - simpl. tauto.
  - reflexivity.
  - reflexivity.
  - reflexivity.
  - exact HA.
  - change (filter _ _)
      with ["2024-07"; "2024-08"; "2024-09"; "2024-10"; "2024-11";
            "2024-12"]%string in H.
    rewrite H.
    + vm_compute. reflexivity.
    + intros m Hm. simpl in Hm.
      repeat (destruct Hm as [<-|Hm]; [vm_compute; discriminate|]).
      destruct Hm.
Defined.

(** C1, the claim as stated fails: the average is 0.012, the forecast
    months are November and December, the November amount 0.0096 is not
    posted, and the December value 0.0144 is all the year's forecast,
    against 0.024 for the average times two. *)
Lemma forecast_sum_misses_unposted_month :
  let fd :=
    ForecastedMonthlyFlowView.flowData false (fun _ => 0) tinyTransactions
      tinyGuides 2024 [] in
  let A :=
    getOr0 "1"
      (ForecastedMonthlyFlowView.monthlyAverages false tinyTransactions
         tinyGuides 2024 []) in
  let F :=
    filter
      (ForecastedMonthlyFlowView.isForecastMonth
         (ForecastedMonthlyFlowView.lastRealDateOf tinyTransactions))
      (ForecastedMonthlyFlowView.fd_months fd) in
  let total :=
    sumQ
      (postedValue (Guide.mk "1" "1-Ventas" false)
         (ForecastedMonthlyFlowView.fd_dataByGuide fd)) F in
  F = ["2024-11"; "2024-12"]%string
  /\ A == 12 # 1000
  /\ cellAt "1" "2024-11" (ForecastedMonthlyFlowView.fd_dataByGuide fd) = None
  /\ total == 144 # 10000
  /\ ~ Qabs (total - A * 2) <= 1 # 1000000.
Proof.
  vm_compute. repeat split; try reflexivity. intros H. apply H. reflexivity.
Qed.

(** ** The derived VAT line *)

Section VatFacts.

Variable useME : bool.
Variable random : nat -> Q.
Variable transactions : list Transaction.t.
Variable guides : list Guide.t.
Variable selectedYear : Z.
Variable excludedGuideIds : list string.

Let cat := ForecastedMonthlyFlowView.catalogOf guides excludedGuideIds.
Let lastRealDate := ForecastedMonthlyFlowView.lastRealDateOf transactions.
Let forecastGuide :=
  ForecastedMonthlyFlowView.forecastGuide useME random transactions guides
    selectedYear excludedGuideIds.
Let vatStep :=
  ForecastedMonthlyFlowView.vatStep guides excludedGuideIds.
Let monthStep :=
  ForecastedMonthlyFlowView.monthStep useME random transactions guides
    selectedYear excludedGuideIds.
Let months := ForecastedMonthlyFlowView.months selectedYear.

Local Abbreviation dataOf := ForecastedMonthlyFlowView.dataByGuide.
Local Abbreviation vatOf := ForecastedMonthlyFlowView.vatDetailsByMonth.
Local Abbreviation isOperatingIncome :=
  (isOperatingIncome guides excludedGuideIds).
Local Abbreviation isCreditableExpense :=
  (isCreditableExpense guides excludedGuideIds).
Local Abbreviation toVatLine := (toVatLine guides).
Local Abbreviation stateBefore :=
  (stateBefore useME random transactions guides selectedYear
     excludedGuideIds).
Local Abbreviation afterGuides :=
  (afterGuides useME random transactions guides selectedYear
     excludedGuideIds).

Lemma vatAccumulate_fold (month : string)
    (data : JsMap.t (JsMap.t Cell.t)) :
  forall acc,
    let r :=
      fold_left
        (ForecastedMonthlyFlowView.vatAccumulate guides excludedGuideIds
           month) data acc in
    VatDetailData.incomes r
    = VatDetailData.incomes acc
        ++ map toVatLine
             (filter isOperatingIncome (forecastLines month data))
    /\ VatDetailData.expenses r
       = VatDetailData.expenses acc
           ++ map toVatLine
                (filter isCreditableExpense (forecastLines month data))
    /\ VatDetailData.totalIncome r
       == VatDetailData.totalIncome acc
          + sumQ snd (filter isOperatingIncome (forecastLines month data))
    /\ VatDetailData.totalExpense r
       == VatDetailData.totalExpense acc
          + sumQ snd (filter isCreditableExpense (forecastLines month data)).
Proof.
  induction data as [|[gid row] data IH]; intros acc; simpl.
  - rewrite !app_nil_r. repeat split; ring.
  - specialize (IH (ForecastedMonthlyFlowView.vatAccumulate guides
                      excludedGuideIds month acc (gid, row))).
    simpl in IH. destruct IH as (H1 & H2 & H3 & H4).
    rewrite H1, H2, H3, H4. clear H1 H2 H3 H4.
    unfold ForecastedMonthlyFlowView.vatAccumulate.
    cbn [fst snd]. fold cat.
    destruct (JsMap.get month row) as [c|]; [|repeat split; reflexivity].
    destruct (Cell.isForecast c); [|repeat split; reflexivity].
    cbn [app filter]. unfold isCreditableExpense, isOperatingIncome.
    fold cat. cbn [fst snd].
    destruct (ForecastedMonthlyFlowView.memStr gid
                (ForecastedMonthlyFlowView.operatingIncomeGuideIds cat));
      cbn [negb andb].
    + cbn [VatDetailData.incomes VatDetailData.expenses
           VatDetailData.totalIncome VatDetailData.totalExpense map].
      rewrite <- app_assoc, sumQ_cons. cbn [snd].
      repeat split; try reflexivity. ring.
    + destruct (Qltb (Cell.amount c) 0 && _).
      * cbn [VatDetailData.incomes VatDetailData.expenses
             VatDetailData.totalIncome VatDetailData.totalExpense map].
        rewrite <- app_assoc, sumQ_cons. cbn [snd].
        repeat split; try reflexivity. ring.
      * repeat split; reflexivity.
Qed.

(** The breakdown the VAT computation builds from a table. *)
Lemma vatDetailOf_spec (month : string) (data : JsMap.t (JsMap.t Cell.t)) :
  let d :=
    ForecastedMonthlyFlowView.vatDetailOf guides excludedGuideIds month data in
  let lines := forecastLines month data in
  VatDetailData.incomes d = map toVatLine (filter isOperatingIncome lines)
  /\ VatDetailData.expenses d
     = map toVatLine (filter isCreditableExpense lines)
  /\ VatDetailData.totalIncome d == sumQ snd (filter isOperatingIncome lines)
  /\ VatDetailData.totalExpense d
     == sumQ snd (filter isCreditableExpense lines)
  /\ VatDetailData.ivaCobrado d
     = VatDetailData.totalIncome d / (116 # 100) * (16 # 100)
  /\ VatDetailData.ivaAcreditable d
     = Qabs (VatDetailData.totalExpense d) / (116 # 100) * (16 # 100)
  /\ VatDetailData.netVat d
     = - (VatDetailData.ivaCobrado d - VatDetailData.ivaAcreditable d).
Proof.
  intros d lines. subst d lines.
  unfold ForecastedMonthlyFlowView.vatDetailOf.
  cbn [VatDetailData.incomes VatDetailData.expenses
       VatDetailData.totalIncome VatDetailData.totalExpense
       VatDetailData.ivaCobrado VatDetailData.ivaAcreditable
       VatDetailData.netVat].
  destruct (vatAccumulate_fold month data
              ForecastedMonthlyFlowView.emptyVatDetail) as (H1 & H2 & H3 & H4).
  cbv zeta in H1, H2, H3, H4. simpl in H1, H2.
  repeat split; auto.
  - rewrite H3. simpl. ring.
  - rewrite H4. simpl. ring.
Qed.

Lemma monthsBefore_split (m : string) (l : list string) :
  In m l -> NoDup l ->
  exists post,
    l = monthsBefore m l ++ m :: post
    /\ ~ In m (monthsBefore m l) /\ ~ In m post.
Proof.
  induction l as [|x l IH]; intros Hin Hnd; [destruct Hin|].
  inversion Hnd as [|? ? Hx Hl]; subst. simpl.
  destruct (String.eqb_spec x m) as [->|Hne].
  - exists l. repeat split; auto.
  - destruct Hin as [E|Hin]; [congruence|].
    destruct (IH Hin Hl) as (post & E & H1 & H2).
    exists post. split; [simpl; now rewrite <- E|].
    split; auto. intros [E'|H']; auto.
Qed.

Lemma final_of_month (m : string) (id : string) :
  In m months ->
  let final :=
    ForecastedMonthlyFlowView.finalState useME random transactions guides
      selectedYear excludedGuideIds in
  cellAt id m (dataOf final) = cellAt id m (dataOf (monthStep (stateBefore m) m))
  /\ JsMap.get m (vatOf final)
     = JsMap.get m (vatOf (monthStep (stateBefore m) m))
  /\ cellAt id m (dataOf (stateBefore m)) = None
  /\ JsMap.get m (vatOf (stateBefore m)) = None.
Proof.
  intros Hin final. subst final.
  unfold ForecastedMonthlyFlowView.finalState. fold monthStep. fold months.
  destruct (monthsBefore_split m months Hin
              (monthsOf_NoDup selectedYear)) as (post & E & Hpre & Hpost).
  unfold stateBefore. fold monthStep. fold months.
  set (pre := monthsBefore m months) in *.
  rewrite E. rewrite fold_left_app, fold_left_cons.
  destruct (fold_monthStep_frame useME random transactions guides
              selectedYear excludedGuideIds id m post Hpost
              (monthStep
                 (fold_left monthStep pre
                    ForecastedMonthlyFlowView.initialState) m)) as [H1 H2].
  destruct (fold_monthStep_frame useME random transactions guides
              selectedYear excludedGuideIds id m pre Hpre
              ForecastedMonthlyFlowView.initialState) as [H3 H4].
  fold monthStep in H1, H2, H3, H4.
  split; [exact H1|]. split; [exact H2|].
  split; [rewrite H3 | rewrite H4]; reflexivity.
Qed.

Lemma forecastGuide_vat_row (v m0 m : string)
    (st : ForecastedMonthlyFlowView.State) (l : list Guide.t) :
  ForecastedMonthlyFlowView.vatGuideId cat = Some v ->
  cellAt v m0 (dataOf (fold_left (forecastGuide m) l st))
  = cellAt v m0 (dataOf st).
Proof.
  intros Hv. revert st. induction l as [|g l IH]; intros st; simpl; auto.
  rewrite IH.
  destruct (String.eqb_spec (Guide.id g) v) as [E|E].
  - subst forecastGuide. unfold ForecastedMonthlyFlowView.forecastGuide.
    fold cat. rewrite Hv. simpl. rewrite E, String.eqb_refl. reflexivity.
  - apply forecastGuide_cellAt. right. congruence.
Qed.

End VatFacts.

(** C3 (as the code has it).  In a forecast month, when the catalog has a
    VAT guide that is active, let the forecast values be those of the
    table once every other active guide has been forecast for the month,
    ivaCollected be totalIncome/1.16 x 0.16 over the values of the
    operating-income guides and ivaCreditable be |totalExpense|/1.16 x 0.16
    over the negative values of the guides that are neither
    operating-income guides nor on the exclusion list.  The values of the
    other guides are those of the final table.  If
    -(ivaCollected - ivaCreditable) exceeds 0.01 in magnitude, the final
    table has it as the VAT guide's forecast cell of the month and the
    breakdown of the month holds the contributing lines and the three VAT
    figures; otherwise the month has neither a VAT cell nor a breakdown. *)
Theorem vat_line_derived
    (useME : bool) (random : nat -> Q) (transactions : list Transaction.t)
    (guides : list Guide.t) (selectedYear : Z)
    (excludedGuideIds : list string) (m v : string) :
  let cat := ForecastedMonthlyFlowView.catalogOf guides excludedGuideIds in
  In m (ForecastedMonthlyFlowView.months selectedYear) ->
  ForecastedMonthlyFlowView.isForecastMonth
    (ForecastedMonthlyFlowView.lastRealDateOf transactions) m = true ->
  ForecastedMonthlyFlowView.vatGuideId cat = Some v ->
  v <> EmptyString ->
  ForecastedMonthlyFlowView.memStr v
    (ForecastedMonthlyFlowView.activeGuideIds cat) = true ->
  let phase1 :=
    ForecastedMonthlyFlowView.dataByGuide
      (afterGuides useME random transactions guides selectedYear
         excludedGuideIds m) in
  let lines := forecastLines m phase1 in
  let incomeLines :=
    filter (isOperatingIncome guides excludedGuideIds) lines in
  let expenseLines :=
    filter (isCreditableExpense guides excludedGuideIds) lines in
  let totalIncome := sumQ snd incomeLines in
  let totalExpense := sumQ snd expenseLines in
  let ivaCollected := totalIncome / (116 # 100) * (16 # 100) in
  let ivaCreditable := Qabs totalExpense / (116 # 100) * (16 # 100) in
  let value := - (ivaCollected - ivaCreditable) in
  let fd :=
    ForecastedMonthlyFlowView.flowData useME random transactions guides
      selectedYear excludedGuideIds in
  let data := ForecastedMonthlyFlowView.fd_dataByGuide fd in
  let breakdowns := ForecastedMonthlyFlowView.fd_vatDetailsByMonth fd in
  (forall id, id <> v -> cellAt id m data = cellAt id m phase1)
  /\ (ForecastedMonthlyFlowView.zero01 < Qabs value ->
      exists c detail,
        cellAt v m data = Some c
        /\ Cell.amount c == value
        /\ Cell.isForecast c = true
        /\ JsMap.get m breakdowns = Some detail
        /\ VatDetailData.incomes detail
           = map (toVatLine guides) incomeLines
        /\ VatDetailData.expenses detail
           = map (toVatLine guides) expenseLines
        /\ VatDetailData.totalIncome detail == totalIncome
        /\ VatDetailData.totalExpense detail == totalExpense
        /\ VatDetailData.ivaCobrado detail == ivaCollected
        /\ VatDetailData.ivaAcreditable detail == ivaCreditable
        /\ VatDetailData.netVat detail == value)
  /\ (Qabs value <= ForecastedMonthlyFlowView.zero01 ->
      cellAt v m data = None /\ JsMap.get m breakdowns = None).
Proof.
  intros cat Hin Hf Hv Hne Hact phase1 lines incomeLines expenseLines
    totalIncome totalExpense ivaCollected ivaCreditable value fd data
    breakdowns.
  set (before := stateBefore useME random transactions guides selectedYear
                   excludedGuideIds m).
  set (st1 := afterGuides useME random transactions guides selectedYear
                excludedGuideIds m) in *.
  set (d := ForecastedMonthlyFlowView.vatDetailOf guides excludedGuideIds m
              (ForecastedMonthlyFlowView.dataByGuide st1)).
  destruct (vatDetailOf_spec guides excludedGuideIds m
              (ForecastedMonthlyFlowView.dataByGuide st1))
    as (Hinc & Hexp & Hti & Hte & Hcob & Hacr & Hnet).
  fold d in Hinc, Hexp, Hti, Hte, Hcob, Hacr, Hnet.
  fold phase1 in Hinc, Hexp, Hti, Hte. fold lines in Hinc, Hexp, Hti, Hte.
  fold incomeLines in Hinc, Hti. fold expenseLines in Hexp, Hte.
  fold totalIncome in Hti. fold totalExpense in Hte.
  assert (Hcob' : VatDetailData.ivaCobrado d == ivaCollected)
    by (rewrite Hcob, Hti; reflexivity).
  assert (Hacr' : VatDetailData.ivaAcreditable d == ivaCreditable)
    by (rewrite Hacr, Hte; reflexivity).
  assert (Hnet' : VatDetailData.netVat d == value)
    by (rewrite Hnet, Hcob', Hacr'; reflexivity).
  assert (Hstep :
            ForecastedMonthlyFlowView.monthStep useME random transactions
              guides selectedYear excludedGuideIds before m
            = ForecastedMonthlyFlowView.vatStep guides excludedGuideIds m
                st1).
  { unfold ForecastedMonthlyFlowView.monthStep. now rewrite Hf. }
  assert (Hvat :
            ForecastedMonthlyFlowView.vatStep guides excludedGuideIds m st1
            = if Qgtb (Qabs (VatDetailData.netVat d))
                   ForecastedMonthlyFlowView.zero01
              then
                ForecastedMonthlyFlowView.mkState
                  (ForecastedMonthlyFlowView.putCell v m
                     (Cell.mk (VatDetailData.netVat d) true)
                     (ForecastedMonthlyFlowView.dataByGuide st1))
                  (JsMap.set m d
                     (ForecastedMonthlyFlowView.vatDetailsByMonth st1))
                  (ForecastedMonthlyFlowView.forecastCorrection st1)
                  (ForecastedMonthlyFlowView.draws st1)
              else st1).
  { unfold ForecastedMonthlyFlowView.vatStep. fold cat. rewrite Hv, Hact.
    apply String.eqb_neq in Hne. rewrite Hne. reflexivity. }
  assert (Hfinal := fun id =>
            final_of_month useME random transactions guides selectedYear
              excludedGuideIds m id Hin).
  cbv zeta in Hfinal. fold before in Hfinal.
  split; [|split].
  - intros id Hid.
    destruct (Hfinal id) as (H1 & _). unfold data, fd.
    cbn [ForecastedMonthlyFlowView.fd_dataByGuide
         ForecastedMonthlyFlowView.flowData].
    rewrite H1, Hstep.
    apply vatStep_cellAt. right. fold cat. rewrite Hv. simpl.
    now apply String.eqb_neq.
  - intros Hbig.
    assert (Hg : Qgtb (Qabs (VatDetailData.netVat d))
                   ForecastedMonthlyFlowView.zero01 = true).
    { apply Qgtb_gt. now rewrite Hnet'. }
    rewrite Hg in Hvat.
    destruct (Hfinal v) as (H1 & H2 & _).
    exists (Cell.mk (VatDetailData.netVat d) true), d.
    unfold data, breakdowns, fd.
    cbn [ForecastedMonthlyFlowView.fd_dataByGuide
         ForecastedMonthlyFlowView.fd_vatDetailsByMonth
         ForecastedMonthlyFlowView.flowData].
    rewrite H1, H2, Hstep, Hvat.
    cbn [ForecastedMonthlyFlowView.dataByGuide
         ForecastedMonthlyFlowView.vatDetailsByMonth Cell.amount
         Cell.isForecast].
    rewrite cellAt_putCell, !String.eqb_refl, get_set_same.
    repeat split; auto.
  - intros Hsmall.
    assert (Hg : Qgtb (Qabs (VatDetailData.netVat d))
                   ForecastedMonthlyFlowView.zero01 = false).
    { apply Qgtb_le. now rewrite Hnet'. }
    rewrite Hg in Hvat.
    destruct (Hfinal v) as (H1 & H2 & H3 & H4).
    unfold data, breakdowns, fd.
    cbn [ForecastedMonthlyFlowView.fd_dataByGuide
         ForecastedMonthlyFlowView.fd_vatDetailsByMonth
         ForecastedMonthlyFlowView.flowData].
    rewrite H1, H2, Hstep, Hvat. subst st1. unfold afterGuides.
    fold before. split.
    + rewrite (forecastGuide_vat_row useME random transactions guides
                 selectedYear excludedGuideIds v m m before _ Hv).
      exact H3.
    + rewrite fold_forecastGuide_vat. exact H4.
Qed.

(** July 2024 of the sample history with random factors that are all 0.5
    (no perturbation): sales 2320/3 and rent -116/3 give a VAT line of
    -304/3. *)
Lemma vat_line_derived_witness :
  In "2024-07"%string (ForecastedMonthlyFlowView.months 2024)
  /\ ForecastedMonthlyFlowView.isForecastMonth
       (ForecastedMonthlyFlowView.lastRealDateOf sampleTransactions)
       "2024-07" = true
  /\ exists c,
       cellAt "29" "2024-07"
         (ForecastedMonthlyFlowView.fd_dataByGuide
            (ForecastedMonthlyFlowView.flowData false (fun _ => 1 # 2)
               sampleTransactions sampleGuides 2024 [])) = Some c
       /\ Cell.amount c == - (304 # 3).
Proof.
  assert (Hin : In "2024-07"%string (ForecastedMonthlyFlowView.months 2024))
    by (vm_compute; tauto).
  split; [exact Hin|]. split; [reflexivity|].
  destruct (vat_line_derived false (fun _ => 1 # 2) sampleTransactions
              sampleGuides 2024 [] "2024-07" "29" Hin)
    as (_ & Hposted & _).
  - reflexivity.
  - reflexivity.
  - discriminate.
  - reflexivity.
  - destruct Hposted as (c & detail & Hc & Ha & _).
    + vm_compute. reflexivity.
    + exists c. split; [exact Hc|]. rewrite Ha. vm_compute. reflexivity.
Defined.

(** C3, the claim as stated fails.  With a forecast of -1160 for the
    operating-income guide the claim's formula gives 320 for July 2024
    and the code posts 160, since the guide counts as income only; with a
    forecast of 0.05 the value -1/145 is within the threshold and no VAT
    cell is assigned; with the VAT guide inactive no VAT is derived. *)
Lemma vat_claim_fails :
  (let fd :=
     ForecastedMonthlyFlowView.flowData false (fun _ => 1 # 2)
       refundTransactions vatGuides 2024 [] in
   let data := ForecastedMonthlyFlowView.fd_dataByGuide fd in
   cellValue "1" "2024-07" data = Some (-1160)
   /\ claimedVat vatGuides [("1"%string, -1160)] == 320
   /\ cellValue "29" "2024-07" data = Some 160)
  /\ (let fd :=
        ForecastedMonthlyFlowView.flowData false (fun _ => 1 # 2)
          smallSaleTransactions vatGuides 2024 [] in
      let data := ForecastedMonthlyFlowView.fd_dataByGuide fd in
      cellValue "1" "2024-11" data = Some (1 # 20)
      /\ claimedVat vatGuides [("1"%string, 5 # 100)] == - (1 # 145)
      /\ cellValue "29" "2024-11" data = None)
  /\ (let fd :=
        ForecastedMonthlyFlowView.flowData false (fun _ => 1 # 2)
          refundTransactions inactiveVatGuides 2024 [] in
      let data := ForecastedMonthlyFlowView.fd_dataByGuide fd in
      cellValue "1" "2024-07" data = Some (-1160)
      /\ cellValue "29" "2024-07" data = None
      /\ JsMap.get "2024-07"
           (ForecastedMonthlyFlowView.fd_vatDetailsByMonth fd) = None).
Proof. vm_compute. repeat split; reflexivity. Qed.
